(** * devops-upm-proxy: the sync pipeline and the registry projection

    A shallow embedding of the scraper (src/scraper) and of the routes of
    the proxy (src/proxy/server.py), with the properties of the
    specification proved about it.

    Conventions of the embedding.
    - A Python [dict] is a [gmap]: keys are unique and lookups are what the
      code uses; insertion order is not modelled.
    - A value of a Python union [X | NetworkError] is a sum, [inl] for the
      value and [inr] for the error; [isinstance(v, NetworkError)] is the
      match on [inr].
    - The payloads of the upstream are typed after the accesses of the
      source: a key read with [.get] and used as it comes is an [option], a
      key whose value is dereferenced at once is mandatory. A stored
      document has no such typing: each of its keys may be missing, and a
      scalar key may hold a scalar of any type.
    - The outside world is explicit: the upstream answers are functions of
      the URL, and every request and every store operation goes through the
      [World] that the functions thread.
    - Logging is not modelled; parameters that only feed log messages are
      left out.
    - A call that may raise is a [Completion]: [returns] with the value, or
      [throws] with the exception that leaves the call. An exception that
      no [except] clause of the source catches is passed on by every
      caller, up to [download], [main] or the Flask view.
    - The exceptions are those of the calls the source makes:
      [requests.get] (the three classes the source catches, and the others
      of [requests.exceptions], which it does not), [dacite.from_dict]
      ([WrongTypeError], caught, and [MissingValueError], not caught), the
      attribute access and the dict lookup of the language
      ([AttributeError], [KeyError]), and the [timedelta] of the scheduler's
      interval ([OverflowError]). The store is taken to be reachable: its
      operations do not fail.
    - The functions of the scraper and the routes of the proxy take the
      collection they work on as an argument; which collection of the
      database each program opens is said by [download_on],
      [package_route_on] and [all_packages_route_on]. *)

From Stdlib Require Import ZArith String Bool DecimalString DecimalZ.
From stdpp Require Import base option list strings gmap fin_maps.

Local Open Scope string_scope.
Local Open Scope Z_scope.

(** ** enums.py *)

Inductive MongoPackageStatus := NOT_FOUND | OUT_OF_DATE | UP_TO_DATE.

Inductive NetworkError :=
| TIMEOUT
| HTTP_ERROR
| DEVOPS_AUTH_FAILURE
| STATUS_CLIENT_ERROR
| STATUS_SERVER_ERROR.

Inductive ReturnStatus := RETURN | CONTINUE | PASS.

#[global] Instance MongoPackageStatus_eq_dec : EqDecision MongoPackageStatus.
Proof. solve_decision. Defined.
#[global] Instance NetworkError_eq_dec : EqDecision NetworkError.
Proof. solve_decision. Defined.
#[global] Instance ReturnStatus_eq_dec : EqDecision ReturnStatus.
Proof. solve_decision. Defined.

(** ** Exceptions and calls that may raise *)

(** The exceptions that can leave a call of the source. [RequestsException]
    stands for an exception of [requests.exceptions] that no [except]
    clause of [get_from_devops] matches, with the name of its class;
    [WrongTypeError] and [MissingValueError] are dacite's. *)
Inductive PyException :=
| AttributeError
| KeyError (key : string)
| WrongTypeError
| MissingValueError
| RequestsException (class_name : string)
| OverflowError.

#[global] Instance PyException_eq_dec : EqDecision PyException.
Proof. solve_decision. Defined.

(** How a call ends: it returns a value, or an exception leaves it. *)
Inductive Completion (A : Type) :=
| returns (a : A)
| throws (e : PyException).
Arguments returns {A} a.
Arguments throws {A} e.

#[global] Instance Completion_eq_dec {A : Type} `{EqDecision A} :
  EqDecision (Completion A).
Proof. solve_decision. Defined.

#[global] Instance Completion_bind : MBind Completion :=
  fun A B (f : A -> Completion B) (x : Completion A) =>
    match x with
    | returns a => f a
    | throws e => throws e
    end.

(** ** npm_classes.py *)

(** The dataclass [NpmPackageVersion]; the fields declared [str = None] are
    options. *)
Record NpmPackageVersion := {
  version_number : string;
  description : string;
  publish_date : string;
  dependencies : gmap string string;
  shasum : option string;
  tarball : option string;
  author : option string;
  display_name : option string;
  unity : option string;
  category : option string;
  hide_in_editor : bool
}.

(** [NpmPackageVersion(version_number=..., description=..., publish_date=...,
    dependencies=...)]: the other fields take the defaults of the class. *)
Definition NpmPackageVersion_init
    (version_number description publish_date : string)
    (dependencies : gmap string string) : NpmPackageVersion :=
  {| version_number := version_number;
     description := description;
     publish_date := publish_date;
     dependencies := dependencies;
     shasum := None;
     tarball := None;
     author := None;
     display_name := None;
     unity := None;
     category := None;
     hide_in_editor := true |}.

Record NpmPackage := {
  name : string;
  latest_version : string;
  versions : gmap string NpmPackageVersion
}.

(** ** environmental_variables.py: the fields the pipeline reads *)

Record EnvironmentalVariables := {
  fallback_author : string;
  npm_registry_base_url : string;
  packages_url : string
}.

(** ** The upstream payloads (JSON), typed after the accesses of the source *)

(** An entry of the catalog listing: [name], [versions[0].version] and
    [_links.versions.href]. *)
Record PackageResponse := {
  pr_name : string;
  pr_latest_version : string;
  pr_versions_href : string
}.

(** An entry of a package's feed. *)
Record FeedDependency := {
  dep_packageName : string;
  dep_versionRange : string
}.

Record FeedVersion := {
  feed_version : string;
  feed_description : option string;
  feed_publishDate : string;
  feed_dependencies : list FeedDependency
}.

(** An entry of the registry document's [versions]. *)
Record RegistryDist := {
  dist_shasum : option string;
  dist_tarball : option string
}.

Record RegistryAuthor := {
  author_name : option string
}.

Record RegistryVersion := {
  reg_dist : RegistryDist;
  reg_author : option RegistryAuthor;
  reg_displayName : option string;
  reg_unity : option string;
  reg_category : option string;
  reg_hideInEditor : option bool
}.

(** ** The HTTP layer *)

(** What [requests.get] does: it raises, or it returns a response. An
    exception is filed under the first [except] clause of [get_from_devops]
    that matches it ([Timeout], then [HTTPError], then [ConnectionError]);
    an exception that matches none of the three ([TooManyRedirects],
    [ChunkedEncodingError], [ContentDecodingError], [InvalidURL], ...) is
    an [OtherRequestException], with the name of its class. *)
Inductive RequestException :=
| Timeout
| HTTPError
| ConnectionError
| OtherRequestException (class_name : string).

Record Response (A : Type) := {
  status_code : Z;
  json : A
}.
Arguments status_code {A} _.
Arguments json {A} _.

Inductive RequestOutcome (A : Type) :=
| raises (e : RequestException)
| responds (response : Response A).
Arguments raises {A} e.
Arguments responds {A} response.

(** The upstream during one run, an answer per URL and endpoint. *)
Record Upstream := {
  package_list_endpoint : string -> RequestOutcome (list PackageResponse);
  feed_endpoint : string -> RequestOutcome (list FeedVersion);
  registry_endpoint : string -> RequestOutcome (gmap string RegistryVersion)
}.

(** ** The store: documents of the packages collection *)

(** The scalar values a document holds under a key. *)
Inductive bson := BNull | BBool (b : bool) | BString (s : string) | BInt (z : Z).

#[global] Instance bson_eq_dec : EqDecision bson.
Proof. solve_decision. Defined.

(** A stored version. The collection has no schema: any key may be
    missing ([None]), and a scalar key that is there may hold any scalar;
    [dependencies], when there, is a document of scalars. *)
Record VersionDocument := {
  doc_version_number : option bson;
  doc_description : option bson;
  doc_publish_date : option bson;
  doc_dependencies : option (gmap string bson);
  doc_shasum : option bson;
  doc_tarball : option bson;
  doc_author : option bson;
  doc_display_name : option bson;
  doc_unity : option bson;
  doc_category : option bson;
  doc_hide_in_editor : option bson
}.

(** A stored package. [doc_versions] holds the items of the stored
    [versions], in the order of the document, each key once. A document
    without the key [versions] reads as one with no versions (the default
    of the dataclass is the empty dict). *)
Record PackageDocument := {
  doc_name : option bson;
  doc_latest_version : option bson;
  doc_versions : list (string * VersionDocument)
}.

(** The world a run acts on: the requests sent so far (oldest first) and the
    packages collection (in insertion order). *)
Record World := {
  requests : list string;
  packages_collection : list PackageDocument
}.

Definition send (url : string) (w : World) : World :=
  {| requests := requests w ++ [url];
     packages_collection := packages_collection w |}.

Definition set_collection (c : list PackageDocument) (w : World) : World :=
  {| requests := requests w; packages_collection := c |}.

(** ** devops_scraping.py *)

(** [status_code in range(lo, hi)] *)
Definition in_range (lo hi x : Z) : bool := (lo <=? x) && (x <? hi).

Definition get_from_devops {A : Type}
    (endpoint : string -> RequestOutcome A) (url : string) (w : World)
  : Completion (Response A + NetworkError) * World :=
  let w := send url w in
  match endpoint url with
  | raises Timeout => (returns (inr TIMEOUT), w)
  | raises HTTPError => (returns (inr HTTP_ERROR), w)
  | raises ConnectionError => (returns (inr HTTP_ERROR), w)
  | raises (OtherRequestException class_name) =>
      (throws (RequestsException class_name), w)
  | responds response =>
      if status_code response =? 203
      then (returns (inr DEVOPS_AUTH_FAILURE), w)
      else if in_range 400 500 (status_code response)
      then (returns (inr STATUS_CLIENT_ERROR), w)
      else if in_range 500 600 (status_code response)
      then (returns (inr STATUS_SERVER_ERROR), w)
      else (returns (inl response), w)
  end.

(** [get_npm_versions_from_devops_feed]: the inner loop fills the
    dependencies of one version, the outer loop the versions of the
    package. *)
Definition feed_dependencies_dict (deps : list FeedDependency)
  : gmap string string :=
  foldl (fun dependencies dep =>
           <[dep_packageName dep := dep_versionRange dep]> dependencies)
        ∅ deps.

Definition new_version_of_feed (devops_version : FeedVersion)
  : NpmPackageVersion :=
  let version_number := feed_version devops_version in
  let description := default "" (feed_description devops_version) in
  let publish_date := feed_publishDate devops_version in
  let dependencies :=
    feed_dependencies_dict (feed_dependencies devops_version) in
  NpmPackageVersion_init version_number description publish_date dependencies.

Definition get_npm_versions_from_devops_feed
    (upstream : Upstream) (package_version_url : string) (w : World)
  : Completion (gmap string NpmPackageVersion + NetworkError) * World :=
  let '(devops_feed_response, w) :=
    get_from_devops (feed_endpoint upstream) package_version_url w in
  match devops_feed_response with
  | throws e => (throws e, w)
  | returns (inr e) => (returns (inr e), w)
  | returns (inl response) =>
      let devops_versions := json response in
      (returns
         (inl (foldl (fun processed_versions devops_version =>
                        <[feed_version devops_version :=
                            new_version_of_feed devops_version]>
                          processed_versions)
                     ∅ devops_versions)), w)
  end.

(** [x or d] on an optional string: [None] and the empty string are falsy. *)
Definition str_or (x : option string) (d : string) : string :=
  match x with
  | Some EmptyString | None => d
  | Some s => s
  end.

(** [x or False] on an optional boolean. *)
Definition bool_or_False (x : option bool) : bool :=
  match x with
  | Some b => b
  | None => false
  end.

(** The body of the loop of [get_extra_npm_info_from_devops_npm_registry]
    for a version the registry knows: the fields written on
    [npm_pkg_version]. *)
Definition enrich_version (env_vars : EnvironmentalVariables)
    (package_name : string) (npm_pkg_version : NpmPackageVersion)
    (json_version : RegistryVersion) : NpmPackageVersion :=
  let dist := reg_dist json_version in
  let author := reg_author json_version in
  let category := reg_category json_version in
  let category :=
    match category, author with
    | None, Some a => author_name a
    | _, _ => category
    end in
  {| version_number := version_number npm_pkg_version;
     description := description npm_pkg_version;
     publish_date := publish_date npm_pkg_version;
     dependencies := dependencies npm_pkg_version;
     shasum := dist_shasum dist;
     tarball := dist_tarball dist;
     author :=
       match author with
       | Some a => author_name a
       | None => Some (fallback_author env_vars)
       end;
     display_name := Some (str_or (reg_displayName json_version) package_name);
     unity := Some (str_or (reg_unity json_version) "Unknown Unity Version");
     category := Some (str_or category "Unknown");
     hide_in_editor := bool_or_False (reg_hideInEditor json_version) |}.

(** The loop over [package_versions.items()]: a version the registry does
    not list is skipped ([continue]), the others are copied, enriched, to
    [updated_package_versions]. *)
Definition enrich_versions (env_vars : EnvironmentalVariables)
    (package_name : string)
    (devops_versions : gmap string RegistryVersion)
    (package_versions : gmap string NpmPackageVersion)
  : gmap string NpmPackageVersion :=
  map_fold
    (fun ver_num npm_pkg_version updated_package_versions =>
       match devops_versions !! ver_num with
       | None => updated_package_versions
       | Some json_version =>
           <[ver_num :=
               enrich_version env_vars package_name npm_pkg_version
                 json_version]> updated_package_versions
       end)
    ∅ package_versions.

Definition get_extra_npm_info_from_devops_npm_registry
    (env_vars : EnvironmentalVariables) (upstream : Upstream)
    (package_name : string)
    (package_versions : gmap string NpmPackageVersion) (w : World)
  : Completion (gmap string NpmPackageVersion + NetworkError) * World :=
  let npm_registry_url :=
    (npm_registry_base_url env_vars +:+ "/" +:+ package_name)%string in
  let '(devops_registry_response, w) :=
    get_from_devops (registry_endpoint upstream) npm_registry_url w in
  match devops_registry_response with
  | throws e => (throws e, w)
  | returns (inr e) => (returns (inr e), w)
  | returns (inl response) =>
      let devops_versions := json response in
      (returns
         (inl (enrich_versions env_vars package_name devops_versions
                 package_versions)), w)
  end.

(** [validate_package_versions]. The count is an [int] parameter: the
    increment binds the local name of the callee and the result is the
    [ReturnStatus] alone. *)
Definition validate_package_versions
    (package_versions : gmap string NpmPackageVersion + NetworkError)
    (non_serious_error_count : Z) : ReturnStatus :=
  match package_versions with
  | inr DEVOPS_AUTH_FAILURE => RETURN
  | inr _ =>
      let non_serious_error_count := non_serious_error_count + 1 in
      if non_serious_error_count =? 5 then RETURN else CONTINUE
  | inl package_versions =>
      if bool_decide (size package_versions = 0%nat) then CONTINUE else PASS
  end.

(** ** The collection: [find_one], [delete_one], [insert_one], and the
    conversions between documents and dataclasses *)

Definition find_one (c : list PackageDocument) (package_name : string)
  : option PackageDocument :=
  snd <$> list_find (fun d => doc_name d = Some (BString package_name)) c.

Fixpoint delete_one (c : list PackageDocument) (package_name : string)
  : list PackageDocument :=
  match c with
  | [] => []
  | d :: c' =>
      if decide (doc_name d = Some (BString package_name)) then c'
      else d :: delete_one c' package_name
  end.

Definition insert_one (c : list PackageDocument) (d : PackageDocument)
  : list PackageDocument := c ++ [d].

(** [dataclasses.asdict]: every field of the dataclass is written. The
    versions are written in the order of the dict; a [gmap] has no
    insertion order, and the items come in the order of [map_to_list]. *)
Definition bson_of_str (x : option string) : bson :=
  match x with
  | Some s => BString s
  | None => BNull
  end.

Definition asdict_version (v : NpmPackageVersion) : VersionDocument :=
  {| doc_version_number := Some (BString (version_number v));
     doc_description := Some (BString (description v));
     doc_publish_date := Some (BString (publish_date v));
     doc_dependencies := Some (BString <$> dependencies v);
     doc_shasum := Some (bson_of_str (shasum v));
     doc_tarball := Some (bson_of_str (tarball v));
     doc_author := Some (bson_of_str (author v));
     doc_display_name := Some (bson_of_str (display_name v));
     doc_unity := Some (bson_of_str (unity v));
     doc_category := Some (bson_of_str (category v));
     doc_hide_in_editor := Some (BBool (hide_in_editor v)) |}.

Definition asdict (p : NpmPackage) : PackageDocument :=
  {| doc_name := Some (BString (name p));
     doc_latest_version := Some (BString (latest_version p));
     doc_versions := map_to_list (asdict_version <$> versions p) |}.

(** [dacite.from_dict]. The fields of the dataclass are taken in the order
    of their declaration. A key holding a value of the annotated type is
    kept; a key holding any other value raises [WrongTypeError]; a missing
    key takes the default of the dataclass, and raises [MissingValueError]
    when the field has none. The first field that raises ends the call. *)
Definition as_str (v : bson) : option string :=
  match v with
  | BString s => Some s
  | _ => None
  end.

Definition as_bool (v : bson) : option bool :=
  match v with
  | BBool b => Some b
  | _ => None
  end.

(** The type check of a value that is there. *)
Definition checked {A B : Type} (check : A -> option B) (v : A)
  : Completion B :=
  match check v with
  | Some a => returns a
  | None => throws WrongTypeError
  end.

(** A field without a default. *)
Definition required {A B : Type} (check : A -> option B) (field : option A)
  : Completion B :=
  match field with
  | None => throws MissingValueError
  | Some v => checked check v
  end.

(** A field with a default. *)
Definition with_default {A : Type} (check : bson -> option A) (dflt : A)
    (field : option bson) : Completion A :=
  match field with
  | None => returns dflt
  | Some v => checked check v
  end.

Definition str_or_None (field : option bson) : Completion (option string) :=
  with_default (fun v => Some <$> as_str v) None field.

Definition all_str (m : gmap string bson) : option (gmap string string) :=
  if decide (map_Forall (fun _ v => is_Some (as_str v)) m)
  then Some (omap as_str m) else None.

Definition from_dict_version (d : VersionDocument)
  : Completion NpmPackageVersion :=
  version_number ← required as_str (doc_version_number d);
  description ← required as_str (doc_description d);
  publish_date ← required as_str (doc_publish_date d);
  dependencies ← required all_str (doc_dependencies d);
  shasum ← str_or_None (doc_shasum d);
  tarball ← str_or_None (doc_tarball d);
  author ← str_or_None (doc_author d);
  display_name ← str_or_None (doc_display_name d);
  unity ← str_or_None (doc_unity d);
  category ← str_or_None (doc_category d);
  hide_in_editor ← with_default as_bool true (doc_hide_in_editor d);
  returns {| version_number := version_number;
             description := description;
             publish_date := publish_date;
             dependencies := dependencies;
             shasum := shasum;
             tarball := tarball;
             author := author;
             display_name := display_name;
             unity := unity;
             category := category;
             hide_in_editor := hide_in_editor |}.

(** The versions of a document, one after the other, in the order of the
    document: the call returns the dict of the versions when each of them
    deserialises, and raises what the first version that fails raises. *)
Definition from_dict_versions (items : list (string * VersionDocument))
  : Completion (gmap string NpmPackageVersion) :=
  foldl
    (fun (built : Completion (gmap string NpmPackageVersion)) item =>
       versions ← built;
       version ← from_dict_version item.2;
       returns (<[item.1 := version]> versions))
    (returns ∅) items.

Definition from_dict (d : PackageDocument) : Completion NpmPackage :=
  name ← required as_str (doc_name d);
  latest_version ← required as_str (doc_latest_version d);
  versions ← from_dict_versions (doc_versions d);
  returns {| name := name; latest_version := latest_version;
             versions := versions |}.

(** ** mongo_functions.py *)

Definition check_package_status_in_mongo
    (package_name package_latest_version : string)
    (packages_collection : list PackageDocument)
  : Completion MongoPackageStatus :=
  match find_one packages_collection package_name with
  | None => returns NOT_FOUND
  | Some mongo_package =>
      match from_dict mongo_package with
      | throws WrongTypeError => returns NOT_FOUND
      | throws e => throws e
      | returns found_package =>
          if String.eqb (latest_version found_package) package_latest_version
          then returns UP_TO_DATE
          else returns OUT_OF_DATE
      end
  end.

(** ** app.py: [download] *)

(** How one pass of the loop body ends: [continue] or the end of the body,
    [return], or an exception that leaves the body. *)
Inductive LoopControl := next | stop | propagate (e : PyException).

(** How [download] ends: the loop ran to its end, a [return] left it, or an
    exception left the function. *)
Inductive Outcome := finished | returned | raised (e : PyException).

(** The body of [for package_response in devops_package_list]. The count
    [non_serious_error_count] is read, never assigned, in the body. None
    of the calls is inside a [try]: what they raise leaves the body. *)
Definition loop_body (env_vars : EnvironmentalVariables) (upstream : Upstream)
    (non_serious_error_count : Z) (package_response : PackageResponse)
    (w : World) : LoopControl * World :=
  let package_name := pr_name package_response in
  let package_latest_version := pr_latest_version package_response in
  let package_version_url := pr_versions_href package_response in
  match check_package_status_in_mongo package_name package_latest_version
          (packages_collection w) with
  | throws e => (propagate e, w)
  | returns mongo_package_status =>
  if decide (mongo_package_status = UP_TO_DATE) then (next, w) else
  let '(package_versions, w) :=
    get_npm_versions_from_devops_feed upstream package_version_url w in
  match package_versions with
  | throws e => (propagate e, w)
  | returns package_versions =>
  match validate_package_versions package_versions non_serious_error_count,
        package_versions with
  | RETURN, _ => (stop, w)
  | CONTINUE, _ => (next, w)
  | PASS, inr _ => (next, w) (* [PASS] is the answer to a dict only *)
  | PASS, inl package_versions =>
      let '(package_versions, w) :=
        get_extra_npm_info_from_devops_npm_registry env_vars upstream
          package_name package_versions w in
      match package_versions with
      | throws e => (propagate e, w)
      | returns package_versions =>
      match validate_package_versions package_versions
              non_serious_error_count, package_versions with
      | RETURN, _ => (stop, w)
      | CONTINUE, _ => (next, w)
      | PASS, inr _ => (next, w)
      | PASS, inl package_versions =>
          let new_package :=
            {| name := package_name;
               latest_version := package_latest_version;
               versions := package_versions |} in
          let w :=
            if decide (mongo_package_status = OUT_OF_DATE)
            then set_collection
                   (delete_one (packages_collection w) package_name) w
            else w in
          let new_package_as_json := asdict new_package in
          (next,
           set_collection
             (insert_one (packages_collection w) new_package_as_json) w)
      end
      end
  end
  end
  end.

Fixpoint for_packages (env_vars : EnvironmentalVariables)
    (upstream : Upstream) (non_serious_error_count : Z)
    (devops_package_list : list PackageResponse) (w : World)
  : Outcome * World :=
  match devops_package_list with
  | [] => (finished, w)
  | package_response :: rest =>
      match loop_body env_vars upstream non_serious_error_count
              package_response w with
      | (next, w) =>
          for_packages env_vars upstream non_serious_error_count rest w
      | (stop, w) => (returned, w)
      | (propagate e, w) => (raised e, w)
      end
  end.

(** [download]. After the [isinstance] test only a message is logged; the
    next statement calls [.json()] on the value whatever it is, and a
    [NetworkError] member has no such attribute. *)
Definition download (env_vars : EnvironmentalVariables) (upstream : Upstream)
    (w : World) : Outcome * World :=
  let '(devops_package_list_response, w) :=
    get_from_devops (package_list_endpoint upstream)
      (packages_url env_vars) w in
  match devops_package_list_response with
  | throws e => (raised e, w)
  | returns (inr _) => (raised AttributeError, w)
  | returns (inl response) =>
      let devops_package_list := json response in
      let non_serious_error_count := 0 in
      for_packages env_vars upstream non_serious_error_count
        devops_package_list w
  end.

(** ** server.py: [package_route] *)

Definition LICENSE : string := "proprietary".

Record VersionProjection := {
  vp__id : string;
  vp__shasum : option string;
  vp_name : string;
  vp_author : option string;
  vp_dependencies : gmap string string;
  vp_description : string;
  vp_directories : option string;
  vp_dist_shasum : option string;
  vp_dist_tarball : option string;
  vp_license : string;
  vp_version : string;
  vp_displayName : option string;
  vp_unity : option string;
  vp_category : option string;
  vp_hideInEditor : bool
}.

Record PackageProjection := {
  pp__id : string;
  pp__rev : string;
  pp_name : string;
  pp_description : string;
  pp_license : string;
  pp_dist_tags_latest : string;
  pp_versions : gmap string VersionProjection;
  pp_time : gmap string string;
  pp_displayName : option string;
  pp_unity : option string;
  pp_category : option string;
  pp_hideInEditor : bool;
  pp_author : option string
}.

(** What the route hands to Flask: an error body with its status
    ([make_response(jsonify(...), status)]), the projected document
    ([jsonify(response)], status 200), or an exception that leaves the
    view. *)
Inductive RouteResult :=
| make_response (message : string) (status : Z)
| jsonify (response : PackageProjection)
| unhandled (e : PyException).

(** The status the client sees; Flask answers an exception that leaves a
    view with 500 Internal Server Error. *)
Definition http_status (r : RouteResult) : Z :=
  match r with
  | make_response _ status => status
  | jsonify _ => 200
  | unhandled _ => 500
  end.

Definition project_version (package_name : string)
    (version : NpmPackageVersion) : VersionProjection :=
  {| vp__id := (package_name +:+ "@" +:+ version_number version)%string;
     vp__shasum := shasum version;
     vp_name := package_name;
     vp_author := author version;
     vp_dependencies := dependencies version;
     vp_description := description version;
     vp_directories := None;
     vp_dist_shasum := shasum version;
     vp_dist_tarball := tarball version;
     vp_license := LICENSE;
     vp_version := version_number version;
     vp_displayName := display_name version;
     vp_unity := unity version;
     vp_category := category version;
     vp_hideInEditor := hide_in_editor version |}.

(** The loop over [package.versions.items()]: both maps are keyed by the
    version's own [version_number]. Should two versions of a record carry
    the same [version_number], the loop keeps the one it meets last; a
    [gmap] does not have the order of the stored document, and the fold
    meets them in its own. *)
Definition all_versions_of (package_name : string)
    (versions : gmap string NpmPackageVersion)
  : gmap string VersionProjection :=
  map_fold
    (fun _ version all_versions =>
       <[version_number version := project_version package_name version]>
         all_versions)
    ∅ versions.

Definition version_times_of (versions : gmap string NpmPackageVersion)
  : gmap string string :=
  map_fold
    (fun _ version version_times =>
       <[version_number version := publish_date version]> version_times)
    ∅ versions.

(** [rev] is the draw of [random.choices], joined. *)
Definition package_route (packages_collection : list PackageDocument)
    (package_name : string) (rev : string) : RouteResult :=
  match find_one packages_collection package_name with
  | None => make_response "Not found" 404
  | Some mongo_package =>
      match from_dict mongo_package with
      | throws WrongTypeError =>
          make_response "Could not deserialise from database" 500
      | throws e => unhandled e
      | returns package =>
          match versions package !! latest_version package with
          | None => unhandled (KeyError (latest_version package))
          | Some latest_version =>
              let all_versions :=
                all_versions_of package_name (versions package) in
              let version_times := version_times_of (versions package) in
              jsonify
                {| pp__id := package_name;
                   pp__rev := rev;
                   pp_name := package_name;
                   pp_description := description latest_version;
                   pp_license := LICENSE;
                   pp_dist_tags_latest := version_number latest_version;
                   pp_versions := all_versions;
                   pp_time := version_times;
                   pp_displayName := display_name latest_version;
                   pp_unity := unity latest_version;
                   pp_category := category latest_version;
                   pp_hideInEditor := hide_in_editor latest_version;
                   pp_author := author latest_version |}
          end
      end
  end.

(** ** server.py: [all_packages_route] *)

Record PackageSummary := {
  ps_name : string;
  ps_description : string;
  ps_dist_tags_latest : string;
  ps_license : string;
  ps_time : string;
  ps_versions : gmap string string;
  ps_displayName : option string;
  ps_unity : option string;
  ps_category : option string;
  ps_hideInEditor : bool
}.

(** The listing is one dict: the key "_updated" holds the timestamp, a
    package's name holds its summary. *)
Inductive AllPackagesEntry :=
| updated_at (t : Z)
| package_summary (s : PackageSummary).

Inductive AllPackagesResult :=
| all_make_response (message : string) (status : Z)
| all_jsonify (all_packages : gmap string AllPackagesEntry)
| all_unhandled (e : PyException).

Definition all_http_status (r : AllPackagesResult) : Z :=
  match r with
  | all_make_response _ status => status
  | all_jsonify _ => 200
  | all_unhandled _ => 500
  end.

Definition summary_of (package : NpmPackage)
    (latest_version : NpmPackageVersion) : PackageSummary :=
  {| ps_name := name package;
     ps_description := description latest_version;
     ps_dist_tags_latest := version_number latest_version;
     ps_license := LICENSE;
     ps_time := publish_date latest_version;
     ps_versions := {[ version_number latest_version := "latest" ]};
     ps_displayName := display_name latest_version;
     ps_unity := unity latest_version;
     ps_category := category latest_version;
     ps_hideInEditor := hide_in_editor latest_version |}.

(** The loop over [db.packages_collection.find()], in the order of the
    collection; the [return] of the [except] branch, an exception that the
    branch does not catch and the [KeyError] of the lookup end it. *)
Fixpoint all_packages_loop (mongo_packages : list PackageDocument)
    (all_packages : gmap string AllPackagesEntry) : AllPackagesResult :=
  match mongo_packages with
  | [] => all_jsonify all_packages
  | mongo_package :: rest =>
      match from_dict mongo_package with
      | throws WrongTypeError =>
          all_make_response "Could not deserialise from database" 500
      | throws e => all_unhandled e
      | returns package =>
          match versions package !! latest_version package with
          | None => all_unhandled (KeyError (latest_version package))
          | Some latest_version =>
              all_packages_loop rest
                (<[name package :=
                     package_summary (summary_of package latest_version)]>
                   all_packages)
          end
      end
  end.

(** [now] is [int(time.time())]. *)
Definition all_packages_route (packages_collection : list PackageDocument)
    (now : Z) : AllPackagesResult :=
  all_packages_loop packages_collection {[ "_updated" := updated_at now ]}.

(** ** environmental_variables.py *)

(** A call that may end the process: [sys.exit(code)], an exception that
    nothing catches, or a value. *)
Inductive Exits (A : Type) :=
| sys_exit (code : Z)
| uncaught (e : PyException)
| value (a : A).
Arguments sys_exit {A} code.
Arguments uncaught {A} e.
Arguments value {A} a.

#[global] Instance Exits_bind : MBind Exits :=
  fun A B (f : A -> Exits B) (x : Exits A) =>
    match x with
    | sys_exit code => sys_exit code
    | uncaught e => uncaught e
    | value a => f a
    end.

Module environmental_variables.

Definition ENV_ORG_NAME : string := "ORG_NAME".
Definition ENV_FEED_ID : string := "FEED_ID".
Definition ENV_PAT : string := "PAT".
Definition ENV_FALLBACK_AUTHOR : string := "FALLBACK_AUTHOR".
Definition ENV_REFRESH : string := "REFRESH".
Definition ENV_MONGO_HOST : string := "MONGO_HOST".
Definition ENV_MONGO_PORT : string := "MONGO_PORT".
Definition ENV_MONGO_USER : string := "MONGO_USER".
Definition ENV_MONGO_PASS : string := "MONGO_PASS".
Definition ENV_MONGO_DB : string := "MONGO_DB".
Definition ENV_WIPE_DB : string := "WIPE_DB".

Definition DEFAULT_REFRESH : Z := 900.
Definition DEFAULT_MONGO_PORT : Z := 27017.

(** The dataclass with all its fields. *)
Record EnvironmentalVariables := {
  org_name : string;
  feed : string;
  pat : string;
  fallback_author : string;
  refresh : Z;
  mongo_host : string;
  mongo_port : Z;
  mongo_user : string;
  mongo_pass : string;
  mongo_db : string;
  wipe_db : bool;
  feed_url : option string;
  npm_registry_base_url : option string;
  packages_url : option string
}.

(** [validate_env]; [environ] is the process environment, [environ !! n]
    is [os.getenv(n)]. *)
Definition validate_env (environ : gmap string string) (env_name : string)
    (default_value : option string) : Exits string :=
  let env_value := environ !! env_name in
  match env_value with
  | Some (String c s) => value (String c s)
  | Some EmptyString | None =>
      match default_value with
      | None => sys_exit 1
      | Some default_value => value default_value
      end
  end.

(** [str(default_value)] for an [int] or [None]. *)
Definition str (default_value : option Z) : string :=
  match default_value with
  | Some z => NilZero.string_of_int (Z.to_int z)
  | None => "None"
  end.

Section with_int.

(** The builtin [int] on a string: the number, or [None] for the
    [ValueError]. *)
Context (int : string -> option Z).

Definition validate_env_int (environ : gmap string string)
    (env_name : string) (default_value : option Z) : Exits Z :=
  val ← validate_env environ env_name (Some (str default_value));
  match int val with
  | Some int_val => value int_val
  | None => sys_exit 1
  end.

Definition process_env_vars (environ : gmap string string)
  : Exits EnvironmentalVariables :=
  org_name ← validate_env environ ENV_ORG_NAME None;
  feed ← validate_env environ ENV_FEED_ID None;
  pat ← validate_env environ ENV_PAT None;
  fallback_author ← validate_env environ ENV_FALLBACK_AUTHOR None;
  refresh ← validate_env_int environ ENV_REFRESH (Some DEFAULT_REFRESH);
  mongo_host ← validate_env environ ENV_MONGO_HOST None;
  mongo_port ← validate_env_int environ ENV_MONGO_PORT
                 (Some DEFAULT_MONGO_PORT);
  mongo_user ← validate_env environ ENV_MONGO_USER None;
  mongo_pass ← validate_env environ ENV_MONGO_PASS None;
  mongo_db ← validate_env environ ENV_MONGO_DB None;
  value {| org_name := org_name;
           feed := feed;
           pat := pat;
           fallback_author := fallback_author;
           refresh := refresh;
           mongo_host := mongo_host;
           mongo_port := mongo_port;
           mongo_user := mongo_user;
           mongo_pass := mongo_pass;
           mongo_db := mongo_db;
           wipe_db := bool_decide (is_Some (environ !! ENV_WIPE_DB));
           feed_url := None;
           npm_registry_base_url := None;
           packages_url := None |}.

End with_int.

(** A reading of [int] on plain decimal numerals, signed or not. *)
Definition int_of_decimal (s : string) : option Z :=
  Z.of_int <$> NilZero.int_of_string s.

End environmental_variables.

(** ** devops_scraping.py: [get_artifact_package_feed_from_devops] *)

(** The body of the answer is typed by the one value read from it,
    [_links.packages.href]; the argument is [env_vars.feed_url]. *)
Definition get_artifact_package_feed_from_devops
    (artifact_feed_endpoint : string -> RequestOutcome string)
    (feed_url : string) (w : World)
  : Completion (string + NetworkError) * World :=
  let '(artifact_feed_response, w) :=
    get_from_devops artifact_feed_endpoint feed_url w in
  match artifact_feed_response with
  | throws e => (throws e, w)
  | returns (inr e) => (returns (inr e), w)
  | returns (inl response) =>
      let package_feed_url := json response in
      (returns (inl package_feed_url), w)
  end.

(** ** app.py: [main], up to the start of the scheduler *)

(** The job handed to the scheduler: [download] with these arguments
    ([args]), and the [seconds] of the interval trigger; the first run is
    due at once. *)
Record Job := {
  job_env_vars : EnvironmentalVariables;
  job_seconds : Z
}.

(** [sched.add_job(..., trigger="interval", seconds=...)] builds the trigger
    at once, with [datetime.timedelta(seconds=...)]; a [timedelta] holds at
    most 999999999 days either way and raises [OverflowError] beyond. *)
Definition timedelta_overflows (seconds : Z) : bool :=
  (seconds <? -86399999913600) || (86400000000000 <=? seconds).

Definition add_job (env_vars : EnvironmentalVariables) (seconds : Z)
  : Completion Job :=
  if timedelta_overflows seconds then throws OverflowError
  else returns {| job_env_vars := env_vars; job_seconds := seconds |}.

(** [w] is the world with the collection [database.packages] that [main]
    hands to [download]. *)
Definition main (int : string -> option Z) (environ : gmap string string)
    (artifact_feed_endpoint : string -> RequestOutcome string) (w : World)
  : Exits Job * World :=
  match environmental_variables.process_env_vars int environ with
  | sys_exit code => (sys_exit code, w)
  | uncaught e => (uncaught e, w)
  | value env_vars =>
      let org_name := environmental_variables.org_name env_vars in
      let feed := environmental_variables.feed env_vars in
      let feed_url :=
        ("https://feeds.dev.azure.com/" +:+ org_name
         +:+ "/_apis/packaging/feeds/" +:+ feed
         +:+ "?api-version=6.0-preview.1")%string in
      let npm_registry_base_url :=
        ("https://pkgs.dev.azure.com/" +:+ org_name +:+ "/_packaging/"
         +:+ feed +:+ "/npm/registry")%string in
      let '(packages_url, w) :=
        get_artifact_package_feed_from_devops artifact_feed_endpoint
          feed_url w in
      match packages_url with
      | throws e => (uncaught e, w)
      | returns (inr _) => (sys_exit 1, w)
      | returns (inl packages_url) =>
          let w :=
            if environmental_variables.wipe_db env_vars
            then set_collection [] w else w in
          match add_job
                  {| fallback_author :=
                       environmental_variables.fallback_author env_vars;
                     npm_registry_base_url := npm_registry_base_url;
                     packages_url := packages_url |}
                  (environmental_variables.refresh env_vars) with
          | throws e => (uncaught e, w)
          | returns job => (value job, w)
          end
      end
  end.

(** ** The database of the two programs *)

(** A Mongo database is the map of its collections by name,
    [gmap string (list PackageDocument)]; a collection that was never
    written reads as empty. *)
Definition collection (database : gmap string (list PackageDocument))
    (collection_name : string)
  : list PackageDocument :=
  default [] (database !! collection_name).

(** app.py: [packages_collection = database.packages]. A run of the scraper
    on a database: [download] reads and writes the collection of that
    name. *)
Definition scraper_collection : string := "packages".

Definition download_on (env_vars : EnvironmentalVariables)
    (upstream : Upstream) (database : gmap string (list PackageDocument))
  : Outcome * gmap string (list PackageDocument) :=
  let '(outcome, w) :=
    download env_vars upstream
      {| requests := [];
         packages_collection := collection database scraper_collection |} in
  (outcome, <[scraper_collection := packages_collection w]> database).

(** server.py: [db.packages_collection.find_one(...)] and
    [db.packages_collection.find()]. The routes of the proxy on a
    database. *)
Definition proxy_collection : string := "packages_collection".

Definition package_route_on (database : gmap string (list PackageDocument))
    (package_name : string) (rev : string) : RouteResult :=
  package_route (collection database proxy_collection) package_name rev.

Definition all_packages_route_on
    (database : gmap string (list PackageDocument)) (now : Z)
  : AllPackagesResult :=
  all_packages_route (collection database proxy_collection) now.

(** ** Notions for the feed, the store, the routes and the environment *)

(** The dict the feed step builds from the entries of a feed. *)
Definition processed_versions_of (devops_versions : list FeedVersion)
  : gmap string NpmPackageVersion :=
  foldl (fun processed_versions devops_version =>
           <[feed_version devops_version :=
               new_version_of_feed devops_version]> processed_versions)
        ∅ devops_versions.

(** The record a pass of the loop builds for a listed package from the
    answers of the feed and of the registry. *)
Definition record_of (env_vars : EnvironmentalVariables)
    (package_response : PackageResponse)
    (devops_feed : list FeedVersion)
    (devops_registry : gmap string RegistryVersion) : NpmPackage :=
  {| name := pr_name package_response;
     latest_version := pr_latest_version package_response;
     versions :=
       enrich_versions env_vars (pr_name package_response) devops_registry
         (processed_versions_of devops_feed) |}.

(** What the loop does with an answer of [validate_package_versions]
    that is not [PASS]. *)
Definition control_of (r : ReturnStatus) : LoopControl :=
  match r with
  | RETURN => stop
  | CONTINUE | PASS => next
  end.

(** Both fetches of a package answer, and the registry lists at least one
    version of the feed. *)
Definition both_answer (env_vars : EnvironmentalVariables)
    (upstream : Upstream) (p : PackageResponse) (w : World)
    (feed_response : Response (list FeedVersion))
    (registry_response : Response (gmap string RegistryVersion)) : Prop :=
  fst (get_from_devops (feed_endpoint upstream) (pr_versions_href p) w)
  = returns (inl feed_response) /\
  fst (get_from_devops (registry_endpoint upstream)
         (npm_registry_base_url env_vars +:+ "/" +:+ pr_name p)%string w)
  = returns (inl registry_response) /\
  exists dv,
    dv ∈ json feed_response /\
    is_Some (json registry_response !! feed_version dv).

(** The world after [k] passes of the loop for the same package, one per
    run. *)
Definition passes (env_vars : EnvironmentalVariables) (upstream : Upstream)
    (n : Z) (p : PackageResponse) (k : nat) (w : World) : World :=
  Nat.iter k (fun w => snd (loop_body env_vars upstream n p w)) w.

(** The value of a call that returns. *)
Definition returned_value {A : Type} (c : Completion A) : option A :=
  match c with
  | returns a => Some a
  | throws _ => None
  end.

(** The entry of a stored document in the listing, when the document
    deserialises and holds its latest version. *)
Definition listing_entry (d : PackageDocument) : option AllPackagesEntry :=
  package ← returned_value (from_dict d);
  latest ← versions package !! latest_version package;
  Some (package_summary (summary_of package latest)).

(** The variables [process_env_vars] reads without a default. *)
Definition required_variables : list string :=
  [environmental_variables.ENV_ORG_NAME;
   environmental_variables.ENV_FEED_ID;
   environmental_variables.ENV_PAT;
   environmental_variables.ENV_FALLBACK_AUTHOR;
   environmental_variables.ENV_MONGO_HOST;
   environmental_variables.ENV_MONGO_USER;
   environmental_variables.ENV_MONGO_PASS;
   environmental_variables.ENV_MONGO_DB].

(** A variable is set to a string that is not empty. *)
Definition is_set (environ : gmap string string) (env_name : string) : Prop :=
  exists x, environ !! env_name = Some x /\ x <> "".

(** The string [int] is applied to for a variable with a default: the
    variable's, or the default's when the variable is unset or empty. *)
Definition int_argument (environ : gmap string string) (env_name : string)
    (default_value : Z) : string :=
  match environ !! env_name with
  | Some (String ch s) => String ch s
  | Some EmptyString | None =>
      environmental_variables.str (Some default_value)
  end.

(** The URL of a package in the registry. *)
Definition npm_registry_url (env_vars : EnvironmentalVariables)
    (package_name : string) : string :=
  (npm_registry_base_url env_vars +:+ "/" +:+ package_name)%string.



(** Every version sits under its own [version_number]. *)
Definition keyed_by_version_number (m : gmap string NpmPackageVersion)
  : Prop :=
  map_Forall (fun k v => version_number v = k) m.

(** No field declared [str = None] holds [None]. *)
Definition all_fields_set (v : NpmPackageVersion) : Prop :=
  is_Some (shasum v) /\ is_Some (tarball v) /\ is_Some (author v) /\
  is_Some (display_name v) /\ is_Some (unity v) /\ is_Some (category v).

(** The documents of a collection that carry a name. *)
Definition named (package_name : string) (c : list PackageDocument)
  : list PackageDocument :=
  filter (fun d => doc_name d = Some (BString package_name)) c.

(** The last element of a list with a property. *)
Definition last_such {A : Type} (P : A -> Prop) `{!forall x, Decision (P x)}
    (l : list A) : option A :=
  last (filter P l).

(** ** Notions the properties are stated with *)

(** A stored document holds its latest version: the key [latest_version]
    holds a string that is a key of [versions]. *)
Definition holds_its_latest_version (d : PackageDocument) : Prop :=
  exists v,
    doc_latest_version d = Some (BString v) /\
    exists vd, (v, vd) ∈ doc_versions d.

(** The feed fetch of a package answers with the authentication failure. *)
Definition feed_auth_failure (upstream : Upstream)
    (package_response : PackageResponse) (w : World) : Prop :=
  fst (get_npm_versions_from_devops_feed upstream
         (pr_versions_href package_response) w)
  = returns (inr DEVOPS_AUTH_FAILURE).

(** The feed step of a package passes, with at least one version, and the
    registry fetch answers with the authentication failure. *)
Definition registry_auth_failure (env_vars : EnvironmentalVariables)
    (upstream : Upstream) (package_response : PackageResponse) (w : World)
  : Prop :=
  exists package_versions w',
    get_npm_versions_from_devops_feed upstream
      (pr_versions_href package_response) w
    = (returns (inl package_versions), w') /\
    size package_versions <> 0%nat /\
    fst (get_extra_npm_info_from_devops_npm_registry env_vars upstream
           (pr_name package_response) package_versions w')
    = returns (inr DEVOPS_AUTH_FAILURE).

(** A document as a run writes it: the dataclass of a listed package, with
    the versions the enrichment step returned for the registry's answer. *)
Definition written_by_sync (env_vars : EnvironmentalVariables)
    (upstream : Upstream) (d : PackageDocument) : Prop :=
  exists package_response response package_versions,
    registry_endpoint upstream
      (npm_registry_base_url env_vars +:+ "/" +:+ pr_name package_response)%string
    = responds response /\
    d = asdict
          {| name := pr_name package_response;
             latest_version := pr_latest_version package_response;
             versions :=
               enrich_versions env_vars (pr_name package_response)
                 (json response) package_versions |}.

(** A stored version with the key [hide_in_editor] taken out. *)
Definition without_hide_in_editor (d : VersionDocument) : VersionDocument :=
  {| doc_version_number := doc_version_number d;
     doc_description := doc_description d;
     doc_publish_date := doc_publish_date d;
     doc_dependencies := doc_dependencies d;
     doc_shasum := doc_shasum d;
     doc_tarball := doc_tarball d;
     doc_author := doc_author d;
     doc_display_name := doc_display_name d;
     doc_unity := doc_unity d;
     doc_category := doc_category d;
     doc_hide_in_editor := None |}.

Definition set_hide_in_editor (b : bool) (v : NpmPackageVersion)
  : NpmPackageVersion :=
  {| version_number := version_number v;
     description := description v;
     publish_date := publish_date v;
     dependencies := dependencies v;
     shasum := shasum v;
     tarball := tarball v;
     author := author v;
     display_name := display_name v;
     unity := unity v;
     category := category v;
     hide_in_editor := b |}.

(** A projected document with its revision token replaced. *)
Definition set_rev (rev : string) (r : PackageProjection) : PackageProjection :=
  {| pp__id := pp__id r;
     pp__rev := rev;
     pp_name := pp_name r;
     pp_description := pp_description r;
     pp_license := pp_license r;
     pp_dist_tags_latest := pp_dist_tags_latest r;
     pp_versions := pp_versions r;
     pp_time := pp_time r;
     pp_displayName := pp_displayName r;
     pp_unity := pp_unity r;
     pp_category := pp_category r;
     pp_hideInEditor := pp_hideInEditor r;
     pp_author := pp_author r |}.

(** ** Scenarios *)

Module Scenario.

Definition env_vars : EnvironmentalVariables :=
  {| fallback_author := "Fallback Author";
     npm_registry_base_url := "https://registry";
     packages_url := "https://packages" |}.

Definition listed (n latest : string) : PackageResponse :=
  {| pr_name := n;
     pr_latest_version := latest;
     pr_versions_href := ("https://feed/" +:+ n)%string |}.

Definition empty_world : World :=
  {| requests := []; packages_collection := [] |}.

Definition ok {A : Type} (body : A) : RequestOutcome A :=
  responds {| status_code := 200; json := body |}.

(** Six listed packages, every feed fetch times out. *)
Definition six_packages : list PackageResponse :=
  [listed "a" "1.0.0"; listed "b" "1.0.0"; listed "c" "1.0.0";
   listed "d" "1.0.0"; listed "e" "1.0.0"; listed "f" "1.0.0"].

Definition upstream_timeouts : Upstream :=
  {| package_list_endpoint := fun _ => ok six_packages;
     feed_endpoint := fun _ => raises Timeout;
     registry_endpoint := fun _ => raises Timeout |}.

(** Scenario C of the specification: four listed packages whose feed
    fetch times out, then foo, whose fetches succeed. *)
Definition upstream_four_timeouts : Upstream :=
  {| package_list_endpoint :=
       fun _ => ok [listed "a" "1.0.0"; listed "b" "1.0.0";
                    listed "c" "1.0.0"; listed "d" "1.0.0";
                    listed "foo" "1.0.0"];
     feed_endpoint :=
       fun url => if String.eqb url "https://feed/foo"
                  then responds {| status_code := 200;
                                   json :=
                                     [ {| feed_version := "1.0.0";
                                          feed_description := None;
                                          feed_publishDate := "2023-01-01";
                                          feed_dependencies := [] |} ] |}
                  else raises Timeout;
     registry_endpoint :=
       fun _ => responds
                  {| status_code := 200;
                     json :=
                       {[ "1.0.0" :=
                            {| reg_dist :=
                                 {| dist_shasum := Some "da39a3ee";
                                    dist_tarball := Some "foo-1.0.0.tgz" |};
                               reg_author := None;
                               reg_displayName := None;
                               reg_unity := None;
                               reg_category := None;
                               reg_hideInEditor := Some true |} ]} |} |}.

(** The catalog listing cannot be reached. *)
Definition upstream_down : Upstream :=
  {| package_list_endpoint := fun _ => raises ConnectionError;
     feed_endpoint := fun _ => raises ConnectionError;
     registry_endpoint := fun _ => raises ConnectionError |}.

(** Scenario A of the specification: package foo, one version with two
    dependencies, known to the registry. *)
Definition foo_feed : list FeedVersion :=
  [ {| feed_version := "1.0.0";
       feed_description := Some "The foo package";
       feed_publishDate := "2023-01-01T00:00:00Z";
       feed_dependencies :=
         [ {| dep_packageName := "bar"; dep_versionRange := "^1.2.0" |};
           {| dep_packageName := "baz"; dep_versionRange := "2.0.0" |} ] |} ].

Definition foo_registry_version : RegistryVersion :=
  {| reg_dist :=
       {| dist_shasum := Some "da39a3ee";
          dist_tarball := Some "https://registry/foo/-/foo-1.0.0.tgz" |};
     reg_author := None;
     reg_displayName := None;
     reg_unity := None;
     reg_category := None;
     reg_hideInEditor := None |}.

Definition foo_registry : gmap string RegistryVersion :=
  {[ "1.0.0" := foo_registry_version ]}.

Definition upstream_foo : Upstream :=
  {| package_list_endpoint := fun _ => ok [listed "foo" "1.0.0"];
     feed_endpoint := fun _ => ok foo_feed;
     registry_endpoint := fun _ => ok foo_registry |}.

Definition foo_registry_response : Response (gmap string RegistryVersion) :=
  {| status_code := 200; json := foo_registry |}.

(** Scenario B of the specification, with one more version: the feed lists
    1.0.0 and 2.0.0, the registry (above) only 1.0.0. *)
Definition feed_1_and_2 : gmap string NpmPackageVersion :=
  {[ "1.0.0" := NpmPackageVersion_init "1.0.0" "" "2023-01-01T00:00:00Z" ∅;
     "2.0.0" := NpmPackageVersion_init "2.0.0" "" "2023-02-01T00:00:00Z" ∅ ]}.

(** A registry entry with an author and nothing else to display. *)
Definition authored_registry_version : RegistryVersion :=
  {| reg_dist := {| dist_shasum := None; dist_tarball := None |};
     reg_author := Some {| author_name := Some "Jane" |};
     reg_displayName := None;
     reg_unity := None;
     reg_category := None;
     reg_hideInEditor := None |}.

(** The record of foo that a run against [upstream_foo] builds. *)
Definition foo_package : NpmPackage :=
  {| name := "foo";
     latest_version := "1.0.0";
     versions :=
       enrich_versions env_vars "foo" foo_registry
         (list_to_map
            ((fun v => (feed_version v, new_version_of_feed v)) <$> foo_feed)) |}.

Definition foo_doc : PackageDocument := asdict foo_package.

(** The store after one run against [upstream_foo]. *)
Definition foo_store : list PackageDocument :=
  packages_collection (snd (download env_vars upstream_foo empty_world)).

(** foo then bar listed; the feed of foo answers 203. *)
Definition upstream_feed_203 : Upstream :=
  {| package_list_endpoint :=
       fun _ => ok [listed "foo" "1.0.0"; listed "bar" "1.0.0"];
     feed_endpoint :=
       fun _ => responds {| status_code := 203; json := [] |};
     registry_endpoint := fun _ => ok foo_registry |}.

(** foo then bar listed; the feed of foo is fine, its registry answers
    203. *)
Definition upstream_registry_203 : Upstream :=
  {| package_list_endpoint :=
       fun _ => ok [listed "foo" "1.0.0"; listed "bar" "1.0.0"];
     feed_endpoint := fun _ => ok foo_feed;
     registry_endpoint :=
       fun _ => responds {| status_code := 203; json := ∅ |} |}.

(** A stored record whose latest version is not among its versions. *)
Definition dangling_doc : PackageDocument :=
  {| doc_name := Some (BString "foo");
     doc_latest_version := Some (BString "2.0.0");
     doc_versions := doc_versions foo_doc |}.

(** A stored record whose latest version holds no string. *)
Definition ill_typed_doc : PackageDocument :=
  {| doc_name := Some (BString "foo");
     doc_latest_version := Some (BInt 1);
     doc_versions := [] |}.

(** A stored record without the key [latest_version]. *)
Definition doc_without_latest_version : PackageDocument :=
  {| doc_name := Some (BString "foo");
     doc_latest_version := None;
     doc_versions := doc_versions foo_doc |}.

(** The connection breaks while the body of the catalog listing is read:
    [requests.get] raises [ChunkedEncodingError]. *)
Definition upstream_broken_body : Upstream :=
  {| package_list_endpoint :=
       fun _ => raises (OtherRequestException "ChunkedEncodingError");
     feed_endpoint := fun _ => ok foo_feed;
     registry_endpoint := fun _ => ok foo_registry |}.

(** The registry entry of the one version of foo has neither hash nor
    URL. *)
Definition upstream_foo_without_dist : Upstream :=
  {| package_list_endpoint := fun _ => ok [listed "foo" "1.0.0"];
     feed_endpoint := fun _ => ok foo_feed;
     registry_endpoint :=
       fun _ => ok {[ "1.0.0" := authored_registry_version ]} |}.

(** The record a run against [upstream_foo_without_dist] builds. *)
Definition foo_package_without_dist : NpmPackage :=
  {| name := "foo";
     latest_version := "1.0.0";
     versions :=
       enrich_versions env_vars "foo"
         {[ "1.0.0" := authored_registry_version ]}
         (list_to_map
            ((fun v => (feed_version v, new_version_of_feed v)) <$> foo_feed)) |}.

Definition foo_doc_without_dist : PackageDocument :=
  asdict foo_package_without_dist.

End Scenario.

(** ** More cases *)

Module Cases.

(** A feed that lists version 1.0.0 twice and one dependency twice. *)
Definition feed_with_duplicates : list FeedVersion :=
  [ {| feed_version := "1.0.0";
       feed_description := Some "first entry";
       feed_publishDate := "2023-01-01T00:00:00Z";
       feed_dependencies := [] |};
    {| feed_version := "2.0.0";
       feed_description := None;
       feed_publishDate := "2023-02-01T00:00:00Z";
       feed_dependencies := [] |};
    {| feed_version := "1.0.0";
       feed_description := Some "second entry";
       feed_publishDate := "2023-03-01T00:00:00Z";
       feed_dependencies :=
         [ {| dep_packageName := "bar"; dep_versionRange := "^1.0.0" |};
           {| dep_packageName := "bar"; dep_versionRange := "^2.0.0" |} ] |} ].

Definition feed_with_duplicates_response : Response (list FeedVersion) :=
  {| status_code := 200; json := feed_with_duplicates |}.

Definition upstream_duplicates : Upstream :=
  {| package_list_endpoint := fun _ => Scenario.ok [Scenario.listed "foo" "1.0.0"];
     feed_endpoint := fun _ => responds feed_with_duplicates_response;
     registry_endpoint := fun _ => Scenario.ok Scenario.foo_registry |}.

(** A registry that lists no version at all. *)
Definition empty_registry_response : Response (gmap string RegistryVersion) :=
  {| status_code := 200; json := ∅ |}.

Definition upstream_unpublished : Upstream :=
  {| package_list_endpoint := fun _ => Scenario.ok [Scenario.listed "foo" "1.0.0"];
     feed_endpoint := fun _ => responds feed_with_duplicates_response;
     registry_endpoint := fun _ => responds empty_registry_response |}.

(** A store that holds one record, which dacite rejects with
    [WrongTypeError]. *)
Definition world_with_ill_typed_doc : World :=
  {| requests := []; packages_collection := [Scenario.ill_typed_doc] |}.

(** A second readable record named foo, with another description. *)
Definition foo_doc_revised : PackageDocument :=
  asdict
    {| name := "foo";
       latest_version := "1.0.0";
       versions :=
         {[ "1.0.0" :=
              enrich_version Scenario.env_vars "foo"
                (NpmPackageVersion_init "1.0.0" "The revised foo package"
                   "2023-06-01T00:00:00Z" ∅)
                Scenario.foo_registry_version ]} |}.

(** A process environment with every required variable, an empty
    REFRESH, no MONGO_PORT, and WIPE_DB set to "false". *)
Definition environ : gmap string string :=
  {[ "ORG_NAME" := "contoso"; "FEED_ID" := "upm"; "PAT" := "secret";
     "FALLBACK_AUTHOR" := "Contoso Ltd"; "REFRESH" := "";
     "MONGO_HOST" := "mongo"; "MONGO_USER" := "root";
     "MONGO_PASS" := "hunter2"; "MONGO_DB" := "packages";
     "WIPE_DB" := "false" ]}.

(** The same without the access token. *)
Definition environ_without_pat : gmap string string := delete "PAT" environ.

(** The artifact feed answers with the URL of the catalog listing. *)
Definition artifact_feed_ok : string -> RequestOutcome string :=
  fun _ => Scenario.ok "https://packages".

(** The artifact feed rejects the token. *)
Definition artifact_feed_203 : string -> RequestOutcome string :=
  fun _ => responds {| status_code := 203; json := "" |}.

End Cases.

(** * Properties *)

(** ** Loops that fill a dict *)

Lemma last_such_cons {A : Type} (P : A -> Prop) `{!forall x, Decision (P x)}
    (x : A) (l : list A) :
  last_such P (x :: l)
  = match last_such P l with
    | Some y => Some y
    | None => if decide (P x) then Some x else None
    end.
Proof.
  unfold last_such. rewrite filter_cons.
  destruct (decide (P x)); [| destruct (last (filter P l)); reflexivity].
  apply last_cons.
Qed.

Lemma last_such_Some {A : Type} (P : A -> Prop) `{!forall x, Decision (P x)}
    (l : list A) (x : A) :
  last_such P l = Some x -> P x /\ x ∈ l.
Proof.
  unfold last_such. intros Hlast.
  apply last_Some_elem_of, list_elem_of_filter in Hlast. exact Hlast.
Qed.

Lemma last_such_None {A : Type} (P : A -> Prop) `{!forall x, Decision (P x)}
    (l : list A) :
  last_such P l = None <-> forall x, x ∈ l -> ~ P x.
Proof.
  unfold last_such. rewrite last_None. split.
  - intros Hnil x Hx HP. eapply filter_nil_not_elem_of; eassumption.
  - intros Hnone. destruct (filter P l) as [|y l'] eqn:Hfilter; [reflexivity |].
    assert (y ∈ filter P l) as [HP Hy]%list_elem_of_filter
      by (rewrite Hfilter; left).
    destruct (Hnone y Hy HP).
Qed.

(** A loop [for x in l: m[key(x)] = val(x)]: under a key sits the value of
    the last element with that key, or what the dict held before. *)
Lemma foldl_insert_lookup {A B : Type} (key : A -> string) (val : A -> B)
    (l : list A) (m : gmap string B) (k : string) :
  foldl (fun m x => <[key x := val x]> m) m l !! k
  = match last_such (fun x => key x = k) l with
    | Some x => Some (val x)
    | None => m !! k
    end.
Proof.
  revert m. induction l as [|x l IH]; intros m; simpl; [reflexivity |].
  rewrite IH, last_such_cons.
  destruct (last_such (fun x0 => key x0 = k) l) as [y|]; [reflexivity |].
  destruct (decide (key x = k)) as [->|Hne].
  - apply lookup_insert_eq.
  - apply lookup_insert_ne. assumption.
Qed.

(** ** The HTTP layer *)

Lemma get_from_devops_world {A : Type}
    (endpoint : string -> RequestOutcome A) (url : string) (w : World) :
  snd (get_from_devops endpoint url w) = send url w.
Proof.
  unfold get_from_devops.
  destruct (endpoint url) as [[]|response]; simpl; try reflexivity.
  repeat case_match; reflexivity.
Qed.

Lemma in_range_spec (lo hi x : Z) :
  in_range lo hi x = true <-> lo <= x < hi.
Proof. unfold in_range. rewrite andb_true_iff, Z.leb_le, Z.ltb_lt. tauto. Qed.

Lemma get_from_devops_auth_failure {A : Type}
    (endpoint : string -> RequestOutcome A) (url : string) (w : World) :
  fst (get_from_devops endpoint url w) = returns (inr DEVOPS_AUTH_FAILURE) <->
  exists response,
    endpoint url = responds response /\ status_code response = 203.
Proof.
  unfold get_from_devops.
  destruct (endpoint url) as [[]|response]; simpl.
  1-4: split; [discriminate | intros (r & Hr & _); discriminate].
  destruct (status_code response =? 203) eqn:E203; simpl.
  - apply Z.eqb_eq in E203. split; [eauto | reflexivity].
  - apply Z.eqb_neq in E203.
    split.
    + repeat case_match; simpl; discriminate.
    + intros (r & Hr & H203). congruence.
Qed.

(** The classification of one fetch, by what [requests.get] does. A timeout
    gives [TIMEOUT]; an HTTP or connection exception gives [HTTP_ERROR];
    an exception of another class leaves the function; of a response,
    status 203 gives [DEVOPS_AUTH_FAILURE], a status in 400..499
    [STATUS_CLIENT_ERROR], a status in 500..599 [STATUS_SERVER_ERROR], and
    any other status hands the response back as it is. In every case the
    fetch sends exactly one request and leaves the store alone. *)
Lemma get_from_devops_cases {A : Type}
    (endpoint : string -> RequestOutcome A) (url : string) (w : World) :
  let result := fst (get_from_devops endpoint url w) in
  (endpoint url = raises Timeout -> result = returns (inr TIMEOUT)) /\
  (endpoint url = raises HTTPError \/ endpoint url = raises ConnectionError ->
   result = returns (inr HTTP_ERROR)) /\
  (forall class_name,
     endpoint url = raises (OtherRequestException class_name) ->
     result = throws (RequestsException class_name)) /\
  (forall response, endpoint url = responds response ->
     (status_code response = 203 ->
      result = returns (inr DEVOPS_AUTH_FAILURE)) /\
     (400 <= status_code response < 500 ->
      result = returns (inr STATUS_CLIENT_ERROR)) /\
     (500 <= status_code response < 600 ->
      result = returns (inr STATUS_SERVER_ERROR)) /\
     (status_code response <> 203 ->
      ~ 400 <= status_code response < 600 ->
      result = returns (inl response))) /\
  requests (snd (get_from_devops endpoint url w)) = (requests w ++ [url])%list /\
  packages_collection (snd (get_from_devops endpoint url w))
  = packages_collection w.
Proof.
  cbv zeta. rewrite get_from_devops_world. simpl.
  repeat split; try reflexivity.
  - intros H. unfold get_from_devops. rewrite H. reflexivity.
  - intros [H|H]; unfold get_from_devops; rewrite H; reflexivity.
  - intros class_name H. unfold get_from_devops. rewrite H. reflexivity.
  - intros H203. unfold get_from_devops. rewrite H, H203. reflexivity.
  - intros Hr. unfold get_from_devops. rewrite H.
    assert ((status_code response =? 203) = false) as -> by (apply Z.eqb_neq; lia).
    apply in_range_spec in Hr. rewrite Hr. reflexivity.
  - intros Hr. unfold get_from_devops. rewrite H.
    assert ((status_code response =? 203) = false) as -> by (apply Z.eqb_neq; lia).
    assert (in_range 400 500 (status_code response) = false) as ->.
    { apply not_true_iff_false. rewrite in_range_spec. lia. }
    apply in_range_spec in Hr. rewrite Hr. reflexivity.
  - intros H203 Hr. unfold get_from_devops. rewrite H.
    assert ((status_code response =? 203) = false) as -> by (apply Z.eqb_neq; lia).
    assert (in_range 400 500 (status_code response) = false) as ->.
    { apply not_true_iff_false. rewrite in_range_spec. lia. }
    assert (in_range 500 600 (status_code response) = false) as ->.
    { apply not_true_iff_false. rewrite in_range_spec. lia. }
    reflexivity.
Qed.

(** An exception leaves the fetch exactly when [requests.get] raised one
    that none of the three [except] clauses matches. *)
Lemma get_from_devops_throws {A : Type}
    (endpoint : string -> RequestOutcome A) (url : string) (w : World)
    (e : PyException) :
  fst (get_from_devops endpoint url w) = throws e <->
  exists class_name,
    endpoint url = raises (OtherRequestException class_name) /\
    e = RequestsException class_name.
Proof.
  unfold get_from_devops.
  destruct (endpoint url) as [[| | |class_name]|response]; simpl.
  1-3: split; [discriminate | intros (c & Hc & _); discriminate].
  - split; [intros [= <-]; eauto | intros (c & [= <-] & ->); reflexivity].
  - split; [repeat case_match; discriminate |].
    intros (c & Hc & _). discriminate.
Qed.

(** C5, on the code: the connection breaks while the body of the answer is
    read, and [requests.get] raises [ChunkedEncodingError]. The fetch does
    not answer with the connection/HTTP failure error, nor with any
    result: none of the three [except] clauses matches, and the exception
    leaves [get_from_devops]. At the catalog listing it ends the run. *)
Theorem uncaught_request_exception_leaves_the_fetch :
  get_from_devops
    (package_list_endpoint Scenario.upstream_broken_body) "https://packages"
    Scenario.empty_world
  = (throws (RequestsException "ChunkedEncodingError"),
     {| requests := ["https://packages"]; packages_collection := [] |}) /\
  download Scenario.env_vars Scenario.upstream_broken_body Scenario.empty_world
  = (raised (RequestsException "ChunkedEncodingError"),
     {| requests := ["https://packages"]; packages_collection := [] |}).
Proof. split; vm_compute; reflexivity. Qed.

(** ** The enrichment step *)

Lemma enrich_versions_lookup (env_vars : EnvironmentalVariables)
    (package_name : string) (devops_versions : gmap string RegistryVersion)
    (package_versions : gmap string NpmPackageVersion) (ver_num : string) :
  enrich_versions env_vars package_name devops_versions package_versions
    !! ver_num
  = npm_pkg_version ← package_versions !! ver_num;
    enrich_version env_vars package_name npm_pkg_version
      <$> devops_versions !! ver_num.
Proof.
  unfold enrich_versions. revert ver_num.
  apply (map_fold_weak_ind
    (fun (updated : gmap string NpmPackageVersion)
         (m : gmap string NpmPackageVersion) =>
       forall k, updated !! k
                 = (v ← m !! k;
                    enrich_version env_vars package_name v
                      <$> devops_versions !! k))).
  - intros k. rewrite !lookup_empty. reflexivity.
  - intros i x m r Hi IH k.
    destruct (decide (i = k)) as [->|Hne].
    + rewrite lookup_insert_eq. simpl.
      destruct (devops_versions !! k) as [json_version|] eqn:Hreg; simpl.
      * rewrite lookup_insert_eq. reflexivity.
      * rewrite IH, Hi. reflexivity.
    + rewrite (lookup_insert_ne m) by assumption.
      destruct (devops_versions !! i) as [json_version|]; simpl.
      * rewrite lookup_insert_ne by assumption. apply IH.
      * apply IH.
Qed.

Lemma enrich_versions_is_Some (env_vars : EnvironmentalVariables)
    (package_name : string) (devops_versions : gmap string RegistryVersion)
    (package_versions : gmap string NpmPackageVersion) (ver_num : string) :
  is_Some (enrich_versions env_vars package_name devops_versions
             package_versions !! ver_num) <->
  is_Some (package_versions !! ver_num) /\
  is_Some (devops_versions !! ver_num).
Proof.
  rewrite enrich_versions_lookup.
  destruct (package_versions !! ver_num) as [v|]; simpl.
  - destruct (devops_versions !! ver_num) as [jv|]; simpl.
    + split; eauto.
    + split; [intros [? ?]; discriminate | intros [_ [? ?]]; discriminate].
  - split; [intros [? ?]; discriminate | intros [[? ?] _]; discriminate].
Qed.

(** C3: when the registry fetch hands back a document, the enrichment step
    returns a map, never an error, and a version id is a key of that map
    exactly when it is a key of the feed-derived map and of the document's
    versions: an id only one of them has is not in the output. *)
Theorem enrichment_keeps_common_versions
    (env_vars : EnvironmentalVariables) (upstream : Upstream)
    (package_name : string)
    (package_versions : gmap string NpmPackageVersion) (w : World)
    (response : Response (gmap string RegistryVersion)) :
  fst (get_from_devops (registry_endpoint upstream)
         (npm_registry_base_url env_vars +:+ "/" +:+ package_name)%string w)
  = returns (inl response) ->
  exists updated_package_versions,
    fst (get_extra_npm_info_from_devops_npm_registry env_vars upstream
           package_name package_versions w)
    = returns (inl updated_package_versions) /\
    forall ver_num,
      is_Some (updated_package_versions !! ver_num) <->
      is_Some (package_versions !! ver_num) /\
      is_Some (json response !! ver_num).
Proof.
  intros Hfetch.
  unfold get_extra_npm_info_from_devops_npm_registry.
  destruct (get_from_devops _ _ w) as [r w'] eqn:E.
  simpl in Hfetch. subst r. simpl.
  eexists. split; [reflexivity |].
  intros ver_num. apply enrich_versions_is_Some.
Qed.

Lemma enrichment_keeps_common_versions_witness :
  exists updated_package_versions,
    fst (get_extra_npm_info_from_devops_npm_registry Scenario.env_vars
           Scenario.upstream_foo "foo" Scenario.feed_1_and_2
           Scenario.empty_world)
    = returns (inl updated_package_versions) /\
    forall ver_num,
      is_Some (updated_package_versions !! ver_num) <->
      is_Some (Scenario.feed_1_and_2 !! ver_num) /\
      is_Some (Scenario.foo_registry !! ver_num).
Proof.
  apply (enrichment_keeps_common_versions Scenario.env_vars
           Scenario.upstream_foo "foo" Scenario.feed_1_and_2
           Scenario.empty_world Scenario.foo_registry_response).
  reflexivity.
Defined.

Example scenario_B_version_dropped :
  fst (get_extra_npm_info_from_devops_npm_registry Scenario.env_vars
         Scenario.upstream_foo "foo"
         {[ "2.0.0" := NpmPackageVersion_init "2.0.0" ""
                         "2023-02-01T00:00:00Z" ∅ ]}
         Scenario.empty_world)
  = returns (inl ∅).
Proof. vm_compute. reflexivity. Qed.

(** C6: the display fields of a version that both sources list. The author
    is the name of the registry's author, or the configured fallback author
    when the registry has no author; the display name falls back to the
    package name, the platform tag to "Unknown Unity Version", the category
    to the author's name when there is an author with a name and to
    "Unknown" otherwise, and the editor-visibility flag to false. *)
Theorem enriched_display_fields
    (env_vars : EnvironmentalVariables) (package_name : string)
    (devops_versions : gmap string RegistryVersion)
    (package_versions : gmap string NpmPackageVersion) (ver_num : string)
    (npm_pkg_version : NpmPackageVersion) (json_version : RegistryVersion) :
  package_versions !! ver_num = Some npm_pkg_version ->
  devops_versions !! ver_num = Some json_version ->
  exists enriched,
    enrich_versions env_vars package_name devops_versions package_versions
      !! ver_num = Some enriched /\
    (forall a, reg_author json_version = Some a ->
       author enriched = author_name a) /\
    (reg_author json_version = None ->
       author enriched = Some (fallback_author env_vars)) /\
    (reg_displayName json_version = None ->
       display_name enriched = Some package_name) /\
    (reg_unity json_version = None ->
       unity enriched = Some "Unknown Unity Version") /\
    (reg_category json_version = None ->
       (forall a n, reg_author json_version = Some a ->
          author_name a = Some n -> n <> "" -> category enriched = Some n) /\
       (reg_author json_version = None -> category enriched = Some "Unknown") /\
       (forall a, reg_author json_version = Some a -> author_name a = None ->
          category enriched = Some "Unknown")) /\
    (reg_hideInEditor json_version = None -> hide_in_editor enriched = false) /\
    (forall s, reg_displayName json_version = Some s -> s <> "" ->
       display_name enriched = Some s) /\
    (forall s, reg_unity json_version = Some s -> s <> "" ->
       unity enriched = Some s) /\
    (forall s, reg_category json_version = Some s -> s <> "" ->
       category enriched = Some s) /\
    (forall b, reg_hideInEditor json_version = Some b ->
       hide_in_editor enriched = b).
Proof.
  intros Hfeed Hreg.
  exists (enrich_version env_vars package_name npm_pkg_version json_version).
  split.
  { rewrite enrich_versions_lookup, Hfeed. simpl. rewrite Hreg. reflexivity. }
  destruct json_version as [dist a displayName platform cat hide].
  unfold enrich_version; simpl in *.
  repeat split; intros; simplify_eq/=;
    repeat match goal with
           | H : author_name _ = _ |- _ => rewrite H
           end;
    try reflexivity;
    match goal with
    | H : ?s <> EmptyString |- _ => destruct s; [congruence | reflexivity]
    end.
Qed.

Lemma enriched_display_fields_witness :
  exists enriched,
    enrich_versions Scenario.env_vars "foo"
      {[ "1.0.0" := Scenario.authored_registry_version ]}
      Scenario.feed_1_and_2 !! "1.0.0" = Some enriched /\
    author enriched = Some "Jane" /\
    display_name enriched = Some "foo" /\
    unity enriched = Some "Unknown Unity Version" /\
    category enriched = Some "Jane" /\
    hide_in_editor enriched = false.
Proof.
  destruct (enriched_display_fields Scenario.env_vars "foo"
              {[ "1.0.0" := Scenario.authored_registry_version ]}
              Scenario.feed_1_and_2 "1.0.0"
              (NpmPackageVersion_init "1.0.0" "" "2023-01-01T00:00:00Z" ∅)
              Scenario.authored_registry_version
              ltac:(vm_compute; reflexivity) ltac:(vm_compute; reflexivity))
    as (enriched & Hlookup & Hauthor & _ & Hname & Hunity & Hcategory
        & Hhide & _).
  exists enriched.
  split; [exact Hlookup |].
  split; [exact (Hauthor _ eq_refl) |].
  split; [exact (Hname eq_refl) |].
  split; [exact (Hunity eq_refl) |].
  split.
  - destruct (Hcategory eq_refl) as (Hfrom_author & _).
    apply (Hfrom_author _ "Jane" eq_refl eq_refl). discriminate.
  - exact (Hhide eq_refl).
Defined.

(** ** The staleness check *)

Lemma check_package_status_UP_TO_DATE
    (package_name package_latest_version : string)
    (c : list PackageDocument) :
  check_package_status_in_mongo package_name package_latest_version c
  = returns UP_TO_DATE <->
  exists mongo_package found_package,
    find_one c package_name = Some mongo_package /\
    from_dict mongo_package = returns found_package /\
    latest_version found_package = package_latest_version.
Proof.
  unfold check_package_status_in_mongo.
  destruct (find_one c package_name) as [mongo_package|].
  - destruct (from_dict mongo_package) as [found_package|e] eqn:Hfrom.
    + destruct (String.eqb_spec (latest_version found_package)
                  package_latest_version) as [Heq|Hne].
      * split; [eauto 10 | reflexivity].
      * split; [discriminate |].
        intros (d & p & Hd & Hp & Hv). congruence.
    + split; [destruct e; discriminate |].
      intros (d & p & Hd & Hp & Hv); congruence.
  - split; [discriminate | intros (d & p & Hd & Hp & Hv); congruence].
Qed.

(** What dacite raises is one of its two field errors. *)
Lemma required_throws {A B : Type} (check : A -> option B)
    (field : option A) (e : PyException) :
  required check field = throws e ->
  e = WrongTypeError \/ e = MissingValueError.
Proof.
  unfold required, checked.
  destruct field as [v|]; [destruct (check v) |]; intros [= <-]; auto.
Qed.

Lemma with_default_throws {A : Type} (check : bson -> option A) (dflt : A)
    (field : option bson) (e : PyException) :
  with_default check dflt field = throws e -> e = WrongTypeError.
Proof.
  unfold with_default, checked.
  destruct field as [v|]; [destruct (check v) |]; intros [= <-]; auto.
Qed.

Lemma from_dict_version_throws (d : VersionDocument) (e : PyException) :
  from_dict_version d = throws e ->
  e = WrongTypeError \/ e = MissingValueError.
Proof.
  unfold from_dict_version, str_or_None. intros Hfrom.
  repeat match type of Hfrom with
         | context [mbind _ (required ?c ?f)] =>
             let H := fresh "H" in
             destruct (required c f) eqn:H; simpl in Hfrom;
             [| injection Hfrom as <-; eapply required_throws; exact H]
         | context [mbind _ (with_default ?c ?x ?f)] =>
             let H := fresh "H" in
             destruct (with_default c x f) eqn:H; simpl in Hfrom;
             [| injection Hfrom as <-; left; eapply with_default_throws;
                exact H]
         end.
  discriminate.
Qed.

Lemma from_dict_versions_throws_stays
    (items : list (string * VersionDocument)) (e : PyException) :
  foldl
    (fun (built : Completion (gmap string NpmPackageVersion)) item =>
       versions ← built;
       version ← from_dict_version item.2;
       returns (<[item.1 := version]> versions))
    (throws e) items
  = throws e.
Proof. induction items as [|i items IH]; simpl; [reflexivity | exact IH]. Qed.

(** The loop of [from_dict_versions] from a dict [built]: it returns the
    versions when each of them deserialises, a key holding the version of
    its last item; otherwise it raises what the first item that fails
    raises. *)
Lemma from_dict_versions_from (items : list (string * VersionDocument))
    (built : gmap string NpmPackageVersion) :
  match foldl
          (fun (built : Completion (gmap string NpmPackageVersion)) item =>
             versions ← built;
             version ← from_dict_version item.2;
             returns (<[item.1 := version]> versions))
          (returns built) items with
  | returns m' =>
      (forall k,
         m' !! k
         = match last_such (fun i => i.1 = k) items with
           | Some i => returned_value (from_dict_version i.2)
           | None => built !! k
           end) /\
      Forall (fun i => is_Some (returned_value (from_dict_version i.2))) items
  | throws e =>
      exists pre i post,
        items = (pre ++ i :: post)%list /\
        Forall (fun i => is_Some (returned_value (from_dict_version i.2)))
          pre /\
        from_dict_version i.2 = throws e
  end.
Proof.
  revert built. induction items as [|i items IH]; intros built; simpl.
  - split; [reflexivity | constructor].
  - destruct (from_dict_version i.2) as [v|e] eqn:Hi; simpl.
    + specialize (IH (<[i.1 := v]> built)).
      destruct (foldl _ (returns (<[i.1 := v]> built)) items) as [m'|e].
      * destruct IH as [IHlookup IHall]. split.
        -- intros k. rewrite IHlookup, last_such_cons.
           destruct (last_such (fun i0 => i0.1 = k) items); [reflexivity |].
           case_decide as Hk.
           ++ rewrite Hk, lookup_insert_eq, Hi. reflexivity.
           ++ rewrite lookup_insert_ne by assumption. reflexivity.
        -- constructor; [rewrite Hi; simpl; eauto | exact IHall].
      * destruct IH as (pre & j & post & -> & Hpre & Hj).
        exists (i :: pre), j, post. split; [reflexivity |].
        split; [| exact Hj].
        constructor; [rewrite Hi; simpl; eauto | exact Hpre].
    + rewrite from_dict_versions_throws_stays.
      exists [], i, items. split; [reflexivity |]. split; [constructor |].
      exact Hi.
Qed.

Lemma from_dict_versions_returns (items : list (string * VersionDocument))
    (m' : gmap string NpmPackageVersion) :
  from_dict_versions items = returns m' <->
  (forall k,
     m' !! k
     = i ← last_such (fun i => i.1 = k) items;
       returned_value (from_dict_version i.2)) /\
  Forall (fun i => is_Some (returned_value (from_dict_version i.2))) items.
Proof.
  pose proof (from_dict_versions_from items ∅) as Hspec.
  fold (from_dict_versions items) in Hspec.
  assert (Hform : forall (m : gmap string NpmPackageVersion) k,
            m !! k
            = match last_such (fun i => i.1 = k) items with
              | Some i => returned_value (from_dict_version i.2)
              | None => (∅ : gmap string NpmPackageVersion) !! k
              end <->
            m !! k
            = i ← last_such (fun i => i.1 = k) items;
              returned_value (from_dict_version i.2)).
  { intros m k. destruct (last_such (fun i => i.1 = k) items); simpl;
      [reflexivity |]. rewrite lookup_empty. reflexivity. }
  split.
  - intros Hm. rewrite Hm in Hspec. destruct Hspec as [Hlookup Hall].
    split; [| exact Hall]. intros k. apply Hform, Hlookup.
  - intros [Hlookup Hall].
    destruct (from_dict_versions items) as [m''|e].
    + f_equal. apply map_eq. intros k.
      rewrite (proj1 (Hform m'' k) (proj1 Hspec k)), Hlookup. reflexivity.
    + destruct Hspec as (pre & i & post & -> & _ & Hi).
      rewrite Forall_app, Forall_cons in Hall.
      destruct Hall as (_ & [v Hv] & _). rewrite Hi in Hv. discriminate.
Qed.

Lemma from_dict_versions_throws (items : list (string * VersionDocument))
    (e : PyException) :
  from_dict_versions items = throws e ->
  exists k d, (k, d) ∈ items /\ from_dict_version d = throws e.
Proof.
  intros Hm. pose proof (from_dict_versions_from items ∅) as Hspec.
  fold (from_dict_versions items) in Hspec. rewrite Hm in Hspec.
  destruct Hspec as (pre & [k d] & post & -> & _ & Hi).
  exists k, d. split; [| exact Hi].
  apply elem_of_app. right. left.
Qed.

(** In a list of items with each key once, the last item of a key is the
    item of that key. *)
Lemma last_such_key {B : Type} (items : list (string * B)) (k : string) :
  NoDup items.*1 ->
  last_such (fun i => i.1 = k) items
  = (k,.) <$> list_to_map (M := gmap string B) items !! k.
Proof.
  intros Hnodup.
  destruct (last_such (fun i => i.1 = k) items) as [[k' d]|] eqn:Hlast.
  - apply last_such_Some in Hlast as [Hk Hin]. simpl in Hk. subst k'.
    apply (elem_of_list_to_map (M := gmap string) (A := B)) in Hin;
      [| assumption].
    rewrite Hin. reflexivity.
  - rewrite last_such_None in Hlast.
    destruct (list_to_map (M := gmap string B) items !! k) as [d|] eqn:Hk;
      [| reflexivity].
    apply elem_of_list_to_map in Hk; [| assumption].
    destruct (Hlast (k, d) Hk eq_refl).
Qed.

Lemma last_such_map_to_list {B : Type} (m : gmap string B) (k : string) :
  last_such (fun i => i.1 = k) (map_to_list m) = (k,.) <$> m !! k.
Proof.
  rewrite last_such_key by apply NoDup_fst_map_to_list.
  rewrite list_to_map_to_list. reflexivity.
Qed.

Lemma from_dict_throws (d : PackageDocument) (e : PyException) :
  from_dict d = throws e -> e = WrongTypeError \/ e = MissingValueError.
Proof.
  unfold from_dict. intros Hfrom.
  destruct (required as_str (doc_name d)) eqn:Hname; simpl in Hfrom;
    [| injection Hfrom as <-; eapply required_throws; exact Hname].
  destruct (required as_str (doc_latest_version d)) eqn:Hlatest;
    simpl in Hfrom;
    [| injection Hfrom as <-; eapply required_throws; exact Hlatest].
  destruct (from_dict_versions (doc_versions d)) eqn:Hversions;
    simpl in Hfrom; [discriminate |].
  injection Hfrom as <-.
  apply from_dict_versions_throws in Hversions as (k & vd & _ & Hvd).
  eapply from_dict_version_throws. exact Hvd.
Qed.

(** The staleness check, case by case. It answers [NOT_FOUND] for a
    package the store does not hold and for one whose stored record raises
    [WrongTypeError], [UP_TO_DATE] when the stored latest version is the
    same string as the upstream one and [OUT_OF_DATE] otherwise; on a
    stored record that raises [MissingValueError] it does not answer: the
    exception leaves it. A package found up to date ends its pass of the
    loop with the world as it was: no request is sent and the store is not
    touched. *)
Lemma check_package_status_cases
    (package_name package_latest_version : string)
    (c : list PackageDocument) :
  (find_one c package_name = None ->
   check_package_status_in_mongo package_name package_latest_version c
   = returns NOT_FOUND) /\
  (forall mongo_package,
     find_one c package_name = Some mongo_package ->
     from_dict mongo_package = throws WrongTypeError ->
     check_package_status_in_mongo package_name package_latest_version c
     = returns NOT_FOUND) /\
  (forall mongo_package,
     find_one c package_name = Some mongo_package ->
     from_dict mongo_package = throws MissingValueError ->
     check_package_status_in_mongo package_name package_latest_version c
     = throws MissingValueError) /\
  (forall mongo_package found_package,
     find_one c package_name = Some mongo_package ->
     from_dict mongo_package = returns found_package ->
     (latest_version found_package = package_latest_version ->
      check_package_status_in_mongo package_name package_latest_version c
      = returns UP_TO_DATE) /\
     (latest_version found_package <> package_latest_version ->
      check_package_status_in_mongo package_name package_latest_version c
      = returns OUT_OF_DATE)) /\
  (forall env_vars upstream non_serious_error_count package_response w,
     pr_name package_response = package_name ->
     pr_latest_version package_response = package_latest_version ->
     packages_collection w = c ->
     check_package_status_in_mongo package_name package_latest_version c
     = returns UP_TO_DATE ->
     loop_body env_vars upstream non_serious_error_count package_response w
     = (next, w)).
Proof.
  unfold check_package_status_in_mongo.
  split; [intros ->; reflexivity |].
  split; [intros mongo_package -> ->; reflexivity |].
  split; [intros mongo_package -> ->; reflexivity |].
  split.
  - intros mongo_package found_package -> ->.
    destruct (String.eqb_spec (latest_version found_package)
                package_latest_version); split; congruence.
  - intros env_vars upstream n package_response w <- <- <- Hstatus.
    unfold loop_body, check_package_status_in_mongo.
    rewrite Hstatus. reflexivity.
Qed.

(** The exception of the staleness check leaves the pass of the loop, and
    with it the run, before any request for the package. *)
Lemma loop_body_check_throws (env_vars : EnvironmentalVariables)
    (upstream : Upstream) (n : Z) (p : PackageResponse) (w : World)
    (e : PyException) :
  check_package_status_in_mongo (pr_name p) (pr_latest_version p)
    (packages_collection w) = throws e ->
  loop_body env_vars upstream n p w = (propagate e, w).
Proof. intros Hcheck. unfold loop_body. rewrite Hcheck. reflexivity. Qed.

Lemma check_package_status_throws (package_name package_latest_version : string)
    (c : list PackageDocument) (e : PyException) :
  check_package_status_in_mongo package_name package_latest_version c
  = throws e <->
  e = MissingValueError /\
  exists mongo_package,
    find_one c package_name = Some mongo_package /\
    from_dict mongo_package = throws MissingValueError.
Proof.
  unfold check_package_status_in_mongo.
  destruct (find_one c package_name) as [mongo_package|].
  - destruct (from_dict mongo_package) as [found_package|e'] eqn:Hfrom.
    + split.
      * destruct (latest_version found_package =? package_latest_version)%string;
          discriminate.
      * intros (_ & d & [= <-] & Hd). congruence.
    + destruct (from_dict_throws _ _ Hfrom) as [-> | ->].
      * split; [discriminate |].
        intros (_ & d & [= <-] & Hd). congruence.
      * split; [intros [= <-]; eauto |]. intros [-> _]. reflexivity.
  - split; [discriminate | intros (_ & d & Hd & _); discriminate].
Qed.

(** C4, on the code: the store holds a record of foo without the key
    [latest_version]. The staleness check does not answer [NOT_FOUND] for
    it: dacite raises [MissingValueError], the [except] clause names
    [WrongTypeError] only, and the exception leaves the check. The run that
    meets the record ends with that exception, after the listing request
    and before any other. *)
Theorem staleness_check_raises_on_missing_key :
  find_one [Scenario.doc_without_latest_version] "foo"
  = Some Scenario.doc_without_latest_version /\
  from_dict Scenario.doc_without_latest_version = throws MissingValueError /\
  check_package_status_in_mongo "foo" "1.0.0"
    [Scenario.doc_without_latest_version] = throws MissingValueError /\
  download Scenario.env_vars Scenario.upstream_foo
    {| requests := [];
       packages_collection := [Scenario.doc_without_latest_version] |}
  = (raised MissingValueError,
     {| requests := ["https://packages"];
        packages_collection := [Scenario.doc_without_latest_version] |}).
Proof. repeat split; vm_compute; reflexivity. Qed.

Example staleness_check_scenarios :
  check_package_status_in_mongo "foo" "1.0.0" Scenario.foo_store
  = returns UP_TO_DATE /\
  loop_body Scenario.env_vars Scenario.upstream_foo 0
    (Scenario.listed "foo" "1.0.0")
    {| requests := []; packages_collection := Scenario.foo_store |}
  = (next, {| requests := []; packages_collection := Scenario.foo_store |}) /\
  check_package_status_in_mongo "foo" "1.1.0" Scenario.foo_store
  = returns OUT_OF_DATE /\
  check_package_status_in_mongo "bar" "1.0.0" Scenario.foo_store
  = returns NOT_FOUND /\
  check_package_status_in_mongo "foo" "1.0.0" [Scenario.ill_typed_doc]
  = returns NOT_FOUND.
Proof. repeat split; vm_compute; reflexivity. Qed.

(** ** The run *)

Lemma validate_auth_failure (n : Z) :
  validate_package_versions (inr DEVOPS_AUTH_FAILURE) n = RETURN.
Proof. reflexivity. Qed.

Lemma validate_PASS (package_versions : gmap string NpmPackageVersion) (n : Z) :
  size package_versions <> 0%nat ->
  validate_package_versions (inl package_versions) n = PASS.
Proof.
  intros Hsize. unfold validate_package_versions.
  rewrite bool_decide_eq_false_2 by assumption. reflexivity.
Qed.

Lemma validate_PASS_inv
    (package_versions : gmap string NpmPackageVersion + NetworkError) (n : Z) :
  validate_package_versions package_versions n = PASS ->
  exists versions, package_versions = inl versions /\ size versions <> 0%nat.
Proof.
  unfold validate_package_versions.
  destruct package_versions as [versions|[]]; try discriminate.
  - case_bool_decide; [discriminate | eauto].
  - destruct (n + 1 =? 5); discriminate.
  - destruct (n + 1 =? 5); discriminate.
  - destruct (n + 1 =? 5); discriminate.
  - destruct (n + 1 =? 5); discriminate.
Qed.

Lemma validate_non_auth_error (e : NetworkError) (n : Z) :
  e <> DEVOPS_AUTH_FAILURE ->
  validate_package_versions (inr e) n
  = if n + 1 =? 5 then RETURN else CONTINUE.
Proof. intros He. destruct e; try reflexivity. congruence. Qed.

Section Run.

Context (env_vars : EnvironmentalVariables) (upstream : Upstream).

Lemma for_packages_app (n : Z) (l1 l2 : list PackageResponse) (w : World) :
  for_packages env_vars upstream n (l1 ++ l2) w
  = match for_packages env_vars upstream n l1 w with
    | (finished, w1) => for_packages env_vars upstream n l2 w1
    | r => r
    end.
Proof.
  revert w. induction l1 as [|p l1 IH]; intros w; simpl.
  - reflexivity.
  - destruct (loop_body env_vars upstream n p w) as [[] w'];
      [apply IH | reflexivity | reflexivity].
Qed.

Lemma feed_fetch_world (url : string) (w : World) :
  snd (get_npm_versions_from_devops_feed upstream url w) = send url w.
Proof.
  unfold get_npm_versions_from_devops_feed.
  pose proof (get_from_devops_world (feed_endpoint upstream) url w) as Hw.
  destruct (get_from_devops (feed_endpoint upstream) url w) as [[[r|e]|e] w'];
    simpl in *; assumption.
Qed.

Lemma feed_fetch_result_any_world (url : string) (w w' : World) :
  fst (get_npm_versions_from_devops_feed upstream url w)
  = fst (get_npm_versions_from_devops_feed upstream url w').
Proof.
  unfold get_npm_versions_from_devops_feed, get_from_devops.
  destruct (feed_endpoint upstream url) as [[]|response]; simpl;
    try reflexivity.
  repeat case_match; simplify_eq/=; reflexivity.
Qed.

Lemma registry_fetch_world (package_name : string)
    (package_versions : gmap string NpmPackageVersion) (w : World) :
  snd (get_extra_npm_info_from_devops_npm_registry env_vars upstream
         package_name package_versions w)
  = send (npm_registry_base_url env_vars +:+ "/" +:+ package_name)%string w.
Proof.
  unfold get_extra_npm_info_from_devops_npm_registry.
  pose proof (get_from_devops_world (registry_endpoint upstream)
                (npm_registry_base_url env_vars +:+ "/" +:+ package_name)%string
                w) as Hw.
  destruct (get_from_devops (registry_endpoint upstream) _ w)
    as [[[r|e]|e] w']; simpl in *; assumption.
Qed.

(** Name the result of the feed fetch in the goal, with the world it
    leaves. *)
Ltac feed_fetch p w pv :=
  let Hw := fresh "Hw" in
  let w' := fresh "w'" in
  pose proof (feed_fetch_world (pr_versions_href p) w) as Hw;
  destruct (get_npm_versions_from_devops_feed upstream (pr_versions_href p) w)
    as [pv w'];
  simpl in Hw; subst w'.

Lemma loop_body_feed_auth_failure (n : Z) (p : PackageResponse) (w : World)
    (status : MongoPackageStatus) :
  check_package_status_in_mongo (pr_name p) (pr_latest_version p)
    (packages_collection w) = returns status ->
  status <> UP_TO_DATE ->
  feed_auth_failure upstream p w ->
  loop_body env_vars upstream n p w = (stop, send (pr_versions_href p) w).
Proof.
  intros Hcheck Hstatus Hfeed. unfold loop_body, feed_auth_failure in *.
  rewrite Hcheck.
  rewrite decide_False by assumption.
  feed_fetch p w package_versions.
  simpl in *. subst. reflexivity.
Qed.

Lemma loop_body_registry_auth_failure (n : Z) (p : PackageResponse)
    (w : World) (status : MongoPackageStatus) :
  check_package_status_in_mongo (pr_name p) (pr_latest_version p)
    (packages_collection w) = returns status ->
  status <> UP_TO_DATE ->
  registry_auth_failure env_vars upstream p w ->
  loop_body env_vars upstream n p w
  = (stop,
     send (npm_registry_base_url env_vars +:+ "/" +:+ pr_name p)%string
       (send (pr_versions_href p) w)).
Proof.
  intros Hcheck Hstatus (package_versions & w' & Hfeed & Hsize & Hreg).
  unfold loop_body. rewrite Hcheck.
  rewrite decide_False by assumption.
  pose proof (feed_fetch_world (pr_versions_href p) w) as Hw.
  rewrite Hfeed in *. simpl in Hw. subst w'.
  rewrite validate_PASS by assumption.
  pose proof (registry_fetch_world (pr_name p) package_versions
                (send (pr_versions_href p) w)) as Hw.
  destruct (get_extra_npm_info_from_devops_npm_registry env_vars upstream
              (pr_name p) package_versions (send (pr_versions_href p) w))
    as [enriched w''].
  simpl in *. subst. reflexivity.
Qed.

Lemma loop_body_non_auth_feed_error (n : Z) (p : PackageResponse) (w : World)
    (status : MongoPackageStatus) (e : NetworkError) :
  check_package_status_in_mongo (pr_name p) (pr_latest_version p)
    (packages_collection w) = returns status ->
  status <> UP_TO_DATE ->
  fst (get_npm_versions_from_devops_feed upstream (pr_versions_href p) w)
  = returns (inr e) ->
  e <> DEVOPS_AUTH_FAILURE ->
  loop_body env_vars upstream n p w
  = (if n + 1 =? 5 then stop else next, send (pr_versions_href p) w).
Proof.
  intros Hcheck Hstatus Hfeed He. unfold loop_body. rewrite Hcheck.
  rewrite decide_False by assumption.
  feed_fetch p w package_versions.
  simpl in *. subst.
  rewrite validate_non_auth_error by assumption.
  destruct (n + 1 =? 5); reflexivity.
Qed.

Lemma for_packages_stop (n : Z) (pre post : list PackageResponse)
    (p : PackageResponse) (w w1 w2 : World) :
  for_packages env_vars upstream n pre w = (finished, w1) ->
  loop_body env_vars upstream n p w1 = (stop, w2) ->
  for_packages env_vars upstream n (pre ++ p :: post) w = (returned, w2).
Proof.
  intros Hpre Hbody. rewrite for_packages_app, Hpre. simpl.
  rewrite Hbody. reflexivity.
Qed.

(** C2: an authentication failure at either fetch step of a package ends
    the run at once, whatever the error count the run carries: the run
    returns, what it did is what the run over the packages up to the
    failing one does (the packages after it play no part), the store is
    the one the failing package found, and the only requests after those
    of the earlier packages are the failing package's own. The fetch steps
    of a package are reached when the staleness check answers, and not with
    [UP_TO_DATE]. *)
Theorem auth_failure_aborts_run (non_serious_error_count : Z)
    (pre post : list PackageResponse) (p : PackageResponse) (w w1 : World)
    (status : MongoPackageStatus) :
  for_packages env_vars upstream non_serious_error_count pre w
  = (finished, w1) ->
  check_package_status_in_mongo (pr_name p) (pr_latest_version p)
    (packages_collection w1) = returns status ->
  status <> UP_TO_DATE ->
  feed_auth_failure upstream p w1 \/
  registry_auth_failure env_vars upstream p w1 ->
  exists w2,
    for_packages env_vars upstream non_serious_error_count
      (pre ++ p :: post) w = (returned, w2) /\
    for_packages env_vars upstream non_serious_error_count
      (pre ++ [p]) w = (returned, w2) /\
    packages_collection w2 = packages_collection w1 /\
    (requests w2 = (requests w1 ++ [pr_versions_href p])%list \/
     requests w2
     = (requests w1 ++
        [pr_versions_href p;
         (npm_registry_base_url env_vars +:+ "/" +:+ pr_name p)%string])%list).
Proof.
  intros Hpre Hcheck Hstatus [Hfeed|Hreg].
  - exists (send (pr_versions_href p) w1).
    pose proof (loop_body_feed_auth_failure non_serious_error_count p w1
                  status Hcheck Hstatus Hfeed) as Hbody.
    repeat split; eauto using for_packages_stop.
  - exists (send (npm_registry_base_url env_vars +:+ "/" +:+ pr_name p)%string
              (send (pr_versions_href p) w1)).
    pose proof (loop_body_registry_auth_failure non_serious_error_count p w1
                  status Hcheck Hstatus Hreg) as Hbody.
    repeat split; eauto using for_packages_stop.
    right. simpl. rewrite <- app_assoc. reflexivity.
Qed.

(** The loop of [download] runs with the count it starts with, so the same
    abort holds of a whole run. *)
Corollary download_aborts_on_auth_failure (pre post : list PackageResponse)
    (p : PackageResponse) (w w1 : World)
    (response : Response (list PackageResponse))
    (status : MongoPackageStatus) :
  package_list_endpoint upstream (packages_url env_vars) = responds response ->
  status_code response = 200 ->
  json response = (pre ++ p :: post)%list ->
  for_packages env_vars upstream 0 pre (send (packages_url env_vars) w)
  = (finished, w1) ->
  check_package_status_in_mongo (pr_name p) (pr_latest_version p)
    (packages_collection w1) = returns status ->
  status <> UP_TO_DATE ->
  feed_auth_failure upstream p w1 \/
  registry_auth_failure env_vars upstream p w1 ->
  exists w2,
    download env_vars upstream w = (returned, w2) /\
    packages_collection w2 = packages_collection w1.
Proof.
  intros Hlist H200 Hjson Hpre Hcheck Hstatus Hauth.
  assert (exists w2,
            loop_body env_vars upstream 0 p w1 = (stop, w2) /\
            packages_collection w2 = packages_collection w1)
    as (w2 & Hbody & Hstore).
  { destruct Hauth as [Hfeed|Hreg].
    - eexists. split; [eapply loop_body_feed_auth_failure; eassumption |].
      reflexivity.
    - eexists.
      split; [eapply loop_body_registry_auth_failure; eassumption |].
      reflexivity. }
  exists w2. split; [| assumption].
  unfold download, get_from_devops. rewrite Hlist, H200. simpl.
  rewrite Hjson. eapply for_packages_stop; eassumption.
Qed.

(** *** The error count *)

(** With the count the loop carries at 4, an error that is not the
    authentication failure stops the run: the threshold of the callee
    works on the count it is handed. *)
Lemma loop_body_stops_at_count_4 (p : PackageResponse) (w : World)
    (status : MongoPackageStatus) (e : NetworkError) :
  check_package_status_in_mongo (pr_name p) (pr_latest_version p)
    (packages_collection w) = returns status ->
  status <> UP_TO_DATE ->
  fst (get_npm_versions_from_devops_feed upstream (pr_versions_href p) w)
  = returns (inr e) ->
  e <> DEVOPS_AUTH_FAILURE ->
  loop_body env_vars upstream 4 p w = (stop, send (pr_versions_href p) w).
Proof. intros. erewrite loop_body_non_auth_feed_error; eauto. Qed.

(** However many packages fail with an error that is not the
    authentication failure, the run that [download] starts (count 0) goes
    through all of them: each call of [validate_package_versions] is handed
    the count 0 again. *)
Lemma run_never_reaches_the_threshold (l : list PackageResponse) (w : World) :
  Forall (fun p =>
            (exists status,
               check_package_status_in_mongo (pr_name p) (pr_latest_version p)
                 (packages_collection w) = returns status /\
               status <> UP_TO_DATE) /\
            exists e,
              fst (get_npm_versions_from_devops_feed upstream
                     (pr_versions_href p) w) = returns (inr e) /\
              e <> DEVOPS_AUTH_FAILURE) l ->
  for_packages env_vars upstream 0 l w
  = (finished,
     {| requests := (requests w ++ (pr_versions_href <$> l))%list;
        packages_collection := packages_collection w |}).
Proof.
  revert w. induction l as [|p l IH]; intros w Hall.
  - simpl. rewrite app_nil_r. destruct w; reflexivity.
  - apply Forall_cons in Hall
      as [((status & Hcheck & Hstatus) & e & Hfeed & He) Hall].
    simpl.
    rewrite (loop_body_non_auth_feed_error _ _ _ status e) by assumption.
    simpl. rewrite IH.
    + simpl. rewrite <- app_assoc. reflexivity.
    + eapply Forall_impl; [exact Hall |].
      intros q (Hq & e' & Hfeed' & He'). simpl. split; [assumption |].
      exists e'. split; [| assumption].
      rewrite <- Hfeed'. apply feed_fetch_result_any_world.
Qed.

(** *** The catalog listing *)

Lemma download_after_failed_listing (w : World) (e : NetworkError) :
  fst (get_from_devops (package_list_endpoint upstream)
         (packages_url env_vars) w) = returns (inr e) ->
  download env_vars upstream w
  = (raised AttributeError, send (packages_url env_vars) w).
Proof.
  intros Hlist. unfold download.
  pose proof (get_from_devops_world (package_list_endpoint upstream)
                (packages_url env_vars) w) as Hw.
  destruct (get_from_devops (package_list_endpoint upstream)
              (packages_url env_vars) w) as [r w'].
  simpl in *. subst. reflexivity.
Qed.

End Run.

Lemma auth_failure_aborts_run_witness :
  (exists w2,
     for_packages Scenario.env_vars Scenario.upstream_feed_203 4
       ([] ++ Scenario.listed "foo" "1.0.0" :: [Scenario.listed "bar" "1.0.0"])
       Scenario.empty_world = (returned, w2) /\
     packages_collection w2 = [] /\
     requests w2 = ["https://feed/foo"]) /\
  (exists w2,
     for_packages Scenario.env_vars Scenario.upstream_registry_203 0
       ([] ++ Scenario.listed "foo" "1.0.0" :: [Scenario.listed "bar" "1.0.0"])
       Scenario.empty_world = (returned, w2) /\
     packages_collection w2 = [] /\
     requests w2 = ["https://feed/foo"; "https://registry/foo"]).
Proof.
  split.
  - destruct (auth_failure_aborts_run Scenario.env_vars
                Scenario.upstream_feed_203 4 [] [Scenario.listed "bar" "1.0.0"]
                (Scenario.listed "foo" "1.0.0")
                Scenario.empty_world Scenario.empty_world NOT_FOUND)
      as (w2 & Hrun & _ & Hstore & Hrequests).
    + reflexivity.
    + reflexivity.
    + discriminate.
    + left. vm_compute. reflexivity.
    + exists w2. split; [exact Hrun |]. split; [exact Hstore |].
      vm_compute in Hrun. injection Hrun as <-. reflexivity.
  - destruct (auth_failure_aborts_run Scenario.env_vars
                Scenario.upstream_registry_203 0 []
                [Scenario.listed "bar" "1.0.0"]
                (Scenario.listed "foo" "1.0.0")
                Scenario.empty_world Scenario.empty_world NOT_FOUND)
      as (w2 & Hrun & _ & Hstore & Hrequests).
    + reflexivity.
    + reflexivity.
    + discriminate.
    + right. do 2 eexists.
      split; [reflexivity |].
      split; [vm_compute; discriminate | vm_compute; reflexivity].
    + exists w2. split; [exact Hrun |]. split; [exact Hstore |].
      vm_compute in Hrun. injection Hrun as <-. reflexivity.
Defined.

Example scenario_C_four_errors_are_tolerated :
  exists w,
    download Scenario.env_vars Scenario.upstream_four_timeouts
      Scenario.empty_world = (finished, w) /\
    requests w
    = ["https://packages"; "https://feed/a"; "https://feed/b";
       "https://feed/c"; "https://feed/d"; "https://feed/foo";
       "https://registry/foo"] /\
    doc_name <$> packages_collection w = [Some (BString "foo")].
Proof. eexists. split; [vm_compute; reflexivity |]. split; reflexivity. Qed.

(** C1, on the code: six listed packages whose feed fetch times out. The
    run does not stop at the fifth error; it fetches the feed of the sixth
    package too and ends as a run without errors does. *)
Theorem fifth_error_does_not_stop_the_run :
  download Scenario.env_vars Scenario.upstream_timeouts Scenario.empty_world
  = (finished,
     {| requests :=
          ["https://packages"; "https://feed/a"; "https://feed/b";
           "https://feed/c"; "https://feed/d"; "https://feed/e";
           "https://feed/f"];
        packages_collection := [] |}).
Proof. vm_compute. reflexivity. Qed.

(** C9, on the code: the catalog listing cannot be fetched. [download] does
    not return; the [NetworkError] is used as a response and the run ends
    with an [AttributeError]. No package is processed. *)
Theorem failed_listing_raises :
  download Scenario.env_vars Scenario.upstream_down Scenario.empty_world
  = (raised AttributeError,
     {| requests := ["https://packages"]; packages_collection := [] |}).
Proof. vm_compute. reflexivity. Qed.

(** ** The projection *)

Lemma package_route_found (c : list PackageDocument) (package_name rev : string)
    (mongo_package : PackageDocument) (package : NpmPackage)
    (latest : NpmPackageVersion) :
  find_one c package_name = Some mongo_package ->
  from_dict mongo_package = returns package ->
  versions package !! latest_version package = Some latest ->
  package_route c package_name rev
  = jsonify
      {| pp__id := package_name;
         pp__rev := rev;
         pp_name := package_name;
         pp_description := description latest;
         pp_license := LICENSE;
         pp_dist_tags_latest := version_number latest;
         pp_versions := all_versions_of package_name (versions package);
         pp_time := version_times_of (versions package);
         pp_displayName := display_name latest;
         pp_unity := unity latest;
         pp_category := category latest;
         pp_hideInEditor := hide_in_editor latest;
         pp_author := author latest |}.
Proof.
  intros Hfind Hfrom Hlatest. unfold package_route.
  rewrite Hfind, Hfrom, Hlatest. reflexivity.
Qed.

(** C7: for a stored package whose latest version is among its versions,
    two projections are the same document in every field but the revision
    token: the second is the first with the token replaced, and the token
    of each is the random draw of its call. *)
Theorem projections_differ_in_rev_only (c : list PackageDocument)
    (package_name rev1 rev2 : string)
    (mongo_package : PackageDocument) (package : NpmPackage) :
  find_one c package_name = Some mongo_package ->
  from_dict mongo_package = returns package ->
  is_Some (versions package !! latest_version package) ->
  exists response1 response2,
    package_route c package_name rev1 = jsonify response1 /\
    package_route c package_name rev2 = jsonify response2 /\
    pp__rev response1 = rev1 /\
    pp__rev response2 = rev2 /\
    response2 = set_rev rev2 response1 /\
    pp__id response1 = pp__id response2 /\
    pp_name response1 = pp_name response2 /\
    pp_description response1 = pp_description response2 /\
    pp_license response1 = pp_license response2 /\
    pp_dist_tags_latest response1 = pp_dist_tags_latest response2 /\
    pp_versions response1 = pp_versions response2 /\
    pp_time response1 = pp_time response2 /\
    pp_displayName response1 = pp_displayName response2 /\
    pp_unity response1 = pp_unity response2 /\
    pp_category response1 = pp_category response2 /\
    pp_hideInEditor response1 = pp_hideInEditor response2 /\
    pp_author response1 = pp_author response2.
Proof.
  intros Hfind Hfrom [latest Hlatest].
  do 2 eexists.
  split; [eapply package_route_found; eassumption |].
  split; [eapply package_route_found; eassumption |].
  repeat split.
Qed.

Lemma projections_differ_in_rev_only_witness :
  exists response1 response2,
    package_route Scenario.foo_store "foo" "k3v9x" = jsonify response1 /\
    package_route Scenario.foo_store "foo" "q7m2c" = jsonify response2 /\
    pp__rev response1 = "k3v9x" /\
    pp__rev response2 = "q7m2c" /\
    response2 = set_rev "q7m2c" response1.
Proof.
  destruct (projections_differ_in_rev_only Scenario.foo_store "foo"
              "k3v9x" "q7m2c" Scenario.foo_doc Scenario.foo_package
              ltac:(vm_compute; reflexivity) ltac:(vm_compute; reflexivity)
              ltac:(vm_compute; eauto))
    as (response1 & response2 & H1 & H2 & Hrev1 & Hrev2 & Hsame & _).
  exists response1, response2. auto.
Defined.

Example scenario_A_projection :
  exists response version,
    package_route Scenario.foo_store "foo" "k3v9x" = jsonify response /\
    pp_dist_tags_latest response = "1.0.0" /\
    pp_versions response !! "1.0.0" = Some version /\
    vp_dependencies version = {[ "bar" := "^1.2.0"; "baz" := "2.0.0" ]} /\
    size (vp_dependencies version) = 2%nat.
Proof.
  do 2 eexists.
  split; [vm_compute; reflexivity |].
  split; [reflexivity |].
  split; [vm_compute; reflexivity |].
  split; vm_compute; reflexivity.
Qed.

Lemma package_route_wrong_type (c : list PackageDocument)
    (package_name rev : string) (mongo_package : PackageDocument) :
  find_one c package_name = Some mongo_package ->
  from_dict mongo_package = throws WrongTypeError ->
  package_route c package_name rev
  = make_response "Could not deserialise from database" 500.
Proof.
  intros Hfind Hfrom. unfold package_route. rewrite Hfind, Hfrom. reflexivity.
Qed.

Lemma package_route_missing_value (c : list PackageDocument)
    (package_name rev : string) (mongo_package : PackageDocument) :
  find_one c package_name = Some mongo_package ->
  from_dict mongo_package = throws MissingValueError ->
  package_route c package_name rev = unhandled MissingValueError.
Proof.
  intros Hfind Hfrom. unfold package_route. rewrite Hfind, Hfrom. reflexivity.
Qed.

(** C8, as stated, fails on a record that a run writes. The registry entry
    of the one version of foo has neither hash nor URL; the stored record
    holds its latest version, 1.0.0, under that very key, and yet the
    route answers with a fault, the 500 of its [except] branch: the [None]
    of the two fields is no [str] for dacite. *)
Lemma package_route_faults_on_a_record_that_holds_its_latest :
  packages_collection
    (snd (download Scenario.env_vars Scenario.upstream_foo_without_dist
            Scenario.empty_world))
  = [Scenario.foo_doc_without_dist] /\
  find_one [Scenario.foo_doc_without_dist] "foo"
  = Some Scenario.foo_doc_without_dist /\
  holds_its_latest_version Scenario.foo_doc_without_dist /\
  package_route [Scenario.foo_doc_without_dist] "foo" "k3v9x"
  = make_response "Could not deserialise from database" 500 /\
  http_status (package_route [Scenario.foo_doc_without_dist] "foo" "k3v9x")
  = 500.
Proof.
  split; [vm_compute; reflexivity |].
  split; [vm_compute; reflexivity |].
  split.
  { exists "1.0.0". split; [reflexivity |]. vm_compute. eexists. left. }
  split; vm_compute; reflexivity.
Qed.

(** C8, amended: the full-detail route answers 404 for a name the store
    does not hold. A stored record that does not deserialise is answered
    with a fault, status 500, whatever its versions hold: the message of
    the [except] branch for a [WrongTypeError], the exception itself for a
    [MissingValueError]. For a stored record that deserialises, the route
    answers with a server-side fault, the [KeyError] of the lookup and no
    document, exactly when the record's latest version is not a key of its
    versions; when it is a key the route answers 200 with the projection,
    whose latest pointer is that very version. *)
Theorem package_route_outcomes (c : list PackageDocument)
    (package_name rev : string) :
  (find_one c package_name = None ->
   package_route c package_name rev = make_response "Not found" 404) /\
  (forall mongo_package e,
     find_one c package_name = Some mongo_package ->
     from_dict mongo_package = throws e ->
     http_status (package_route c package_name rev) = 500 /\
     (e = WrongTypeError ->
      package_route c package_name rev
      = make_response "Could not deserialise from database" 500) /\
     (e = MissingValueError ->
      package_route c package_name rev = unhandled MissingValueError)) /\
  (forall mongo_package package,
     find_one c package_name = Some mongo_package ->
     from_dict mongo_package = returns package ->
     (versions package !! latest_version package = None <->
      http_status (package_route c package_name rev) = 500) /\
     (versions package !! latest_version package = None ->
      package_route c package_name rev
      = unhandled (KeyError (latest_version package))) /\
     (forall latest,
        versions package !! latest_version package = Some latest ->
        exists response,
          package_route c package_name rev = jsonify response /\
          http_status (package_route c package_name rev) = 200 /\
          pp_dist_tags_latest response = version_number latest)).
Proof.
  split.
  { intros Hfind. unfold package_route. rewrite Hfind. reflexivity. }
  split.
  - intros mongo_package e Hfind Hfrom.
    destruct (from_dict_throws _ _ Hfrom) as [-> | ->].
    + rewrite (package_route_wrong_type _ _ _ _ Hfind Hfrom).
      repeat split. discriminate.
    + rewrite (package_route_missing_value _ _ _ _ Hfind Hfrom).
      repeat split. discriminate.
  - intros mongo_package package Hfind Hfrom.
    destruct (versions package !! latest_version package) as [latest|]
      eqn:Hlatest.
    + rewrite (package_route_found _ _ _ _ _ _ Hfind Hfrom Hlatest).
      simpl. repeat split; try discriminate.
      intros latest' [= <-]. eexists. repeat split.
    + assert (package_route c package_name rev
              = unhandled (KeyError (latest_version package))) as ->.
      { unfold package_route. rewrite Hfind, Hfrom, Hlatest. reflexivity. }
      simpl. repeat split; try discriminate.
Qed.

Lemma package_route_outcomes_witness :
  package_route Scenario.foo_store "bar" "k3v9x"
  = make_response "Not found" 404 /\
  package_route [Scenario.ill_typed_doc] "foo" "k3v9x"
  = make_response "Could not deserialise from database" 500 /\
  package_route [Scenario.doc_without_latest_version] "foo" "k3v9x"
  = unhandled MissingValueError /\
  package_route [Scenario.dangling_doc] "foo" "k3v9x"
  = unhandled (KeyError "2.0.0") /\
  http_status (package_route [Scenario.dangling_doc] "foo" "k3v9x") = 500 /\
  http_status (package_route Scenario.foo_store "foo" "k3v9x") = 200.
Proof.
  destruct (package_route_outcomes Scenario.foo_store "bar" "k3v9x")
    as (Habsent & _).
  destruct (package_route_outcomes [Scenario.ill_typed_doc] "foo" "k3v9x")
    as (_ & Hill & _).
  destruct (package_route_outcomes [Scenario.doc_without_latest_version]
              "foo" "k3v9x") as (_ & Hmissing & _).
  destruct (package_route_outcomes [Scenario.dangling_doc] "foo" "k3v9x")
    as (_ & _ & Hdangling).
  destruct (package_route_outcomes Scenario.foo_store "foo" "k3v9x")
    as (_ & _ & Hfoo).
  destruct (from_dict Scenario.dangling_doc) as [dangling|e] eqn:Hfrom;
    [| vm_compute in Hfrom; discriminate].
  assert (Hnone : versions dangling !! latest_version dangling = None).
  { vm_compute in Hfrom. injection Hfrom as <-. vm_compute. reflexivity. }
  assert (Hkey : latest_version dangling = "2.0.0").
  { vm_compute in Hfrom. injection Hfrom as <-. reflexivity. }
  destruct (Hdangling Scenario.dangling_doc dangling
              ltac:(vm_compute; reflexivity) Hfrom)
    as (Hfault & Hraise & _).
  destruct (Hfoo Scenario.foo_doc Scenario.foo_package
              ltac:(vm_compute; reflexivity) ltac:(vm_compute; reflexivity))
    as (_ & _ & Hok).
  split; [apply Habsent; vm_compute; reflexivity |].
  split.
  { apply (Hill Scenario.ill_typed_doc WrongTypeError);
      [vm_compute; reflexivity | vm_compute; reflexivity | reflexivity]. }
  split.
  { apply (Hmissing Scenario.doc_without_latest_version MissingValueError);
      [vm_compute; reflexivity | vm_compute; reflexivity | reflexivity]. }
  split; [rewrite <- Hkey; apply Hraise, Hnone |].
  split; [apply Hfault, Hnone |].
  destruct (Scenario.foo_package.(versions) !! "1.0.0") as [latest|] eqn:Hl;
    [| vm_compute in Hl; discriminate].
  destruct (Hok latest Hl) as (response & _ & H200 & _).
  exact H200.
Defined.

(** ** The editor-visibility flag, from the registry to the projection *)

Lemma from_dict_version_hide_in_editor (d : VersionDocument)
    (v : NpmPackageVersion) (b : bool) :
  from_dict_version d = returns v ->
  doc_hide_in_editor d = Some (BBool b) ->
  hide_in_editor v = b.
Proof.
  unfold from_dict_version. intros Hfrom Hfield.
  rewrite Hfield in Hfrom. simpl in Hfrom.
  repeat (match type of Hfrom with
          | context [mbind _ ?x] => destruct x; simpl in Hfrom
          end; try discriminate).
  injection Hfrom as <-. reflexivity.
Qed.

Lemma from_dict_version_without_hide_in_editor (d : VersionDocument)
    (v : NpmPackageVersion) :
  from_dict_version d = returns v ->
  from_dict_version (without_hide_in_editor d)
  = returns (set_hide_in_editor true v).
Proof.
  unfold from_dict_version. simpl. intros Hfrom.
  repeat (match type of Hfrom with
          | context [mbind _ ?x] => destruct x; simpl in Hfrom
          end; try discriminate).
  injection Hfrom as <-. reflexivity.
Qed.

Lemma from_dict_versions_lookup (items : list (string * VersionDocument))
    (m' : gmap string NpmPackageVersion) (k : string) (v : NpmPackageVersion) :
  from_dict_versions items = returns m' ->
  m' !! k = Some v ->
  exists d, (k, d) ∈ items /\ from_dict_version d = returns v.
Proof.
  intros [Hlookup _]%from_dict_versions_returns Hk.
  rewrite Hlookup in Hk.
  destruct (last_such (fun i => i.1 = k) items) as [[k' d]|] eqn:Hlast;
    [| discriminate].
  simpl in Hk. apply last_such_Some in Hlast as [Hkey Hin].
  simpl in Hkey. subst k'.
  exists d. split; [exact Hin |].
  destruct (from_dict_version d); simplify_eq/=. reflexivity.
Qed.

Lemma from_dict_versions_of (d : PackageDocument) (p : NpmPackage) :
  from_dict d = returns p ->
  from_dict_versions (doc_versions d) = returns (versions p).
Proof.
  unfold from_dict. intros Hfrom.
  destruct (required as_str (doc_name d)); simpl in Hfrom; [| discriminate].
  destruct (required as_str (doc_latest_version d)); simpl in Hfrom;
    [| discriminate].
  destruct (from_dict_versions (doc_versions d)); simpl in Hfrom;
    [| discriminate].
  injection Hfrom as <-. reflexivity.
Qed.

Lemma get_from_devops_response {A : Type}
    (endpoint : string -> RequestOutcome A) (url : string) (w : World)
    (response : Response A) :
  fst (get_from_devops endpoint url w) = returns (inl response) ->
  endpoint url = responds response.
Proof.
  unfold get_from_devops.
  destruct (endpoint url) as [[]|r]; simpl; try discriminate.
  repeat case_match; simpl; try discriminate. congruence.
Qed.

Lemma elem_of_delete_one (c : list PackageDocument) (package_name : string)
    (d : PackageDocument) :
  d ∈ delete_one c package_name -> d ∈ c.
Proof.
  induction c as [|d' c IH]; simpl; [trivial |].
  case_decide.
  - intros Hd. right. assumption.
  - intros [->|Hd]%elem_of_cons; [left | right; auto].
Qed.

Lemma loop_body_collection (env_vars : EnvironmentalVariables)
    (upstream : Upstream) (n : Z) (p : PackageResponse) (w : World)
    (d : PackageDocument) :
  d ∈ packages_collection (snd (loop_body env_vars upstream n p w)) ->
  d ∈ packages_collection w \/ written_by_sync env_vars upstream d.
Proof.
  unfold loop_body.
  destruct (check_package_status_in_mongo (pr_name p) (pr_latest_version p)
              (packages_collection w)) as [status|e0]; [| simpl; auto].
  case_decide; [simpl; auto |].
  pose proof (feed_fetch_world upstream (pr_versions_href p) w) as Hw1.
  destruct (get_npm_versions_from_devops_feed upstream (pr_versions_href p) w)
    as [[[feed_versions|e]|e] w1]; simpl in Hw1; subst w1.
  2: { destruct (validate_package_versions (inr e) n); simpl; auto. }
  2: { simpl; auto. }
  destruct (validate_package_versions (inl feed_versions) n); simpl; auto.
  pose proof (registry_fetch_world env_vars upstream (pr_name p) feed_versions
                (send (pr_versions_href p) w)) as Hw2.
  destruct (get_extra_npm_info_from_devops_npm_registry env_vars upstream
              (pr_name p) feed_versions (send (pr_versions_href p) w))
    as [[[enriched|e]|e] w2] eqn:Hextra; simpl in Hw2; subst w2.
  2: { destruct (validate_package_versions (inr e) n); simpl; auto. }
  2: { simpl; auto. }
  destruct (validate_package_versions (inl enriched) n); simpl; auto.
  unfold insert_one. intros [Hold|Hnew%list_elem_of_singleton]%elem_of_app.
  - left. case_decide; simpl in Hold; [| assumption].
    eapply elem_of_delete_one; eassumption.
  - right. subst d.
    unfold get_extra_npm_info_from_devops_npm_registry in Hextra.
    destruct (get_from_devops (registry_endpoint upstream)
                (npm_registry_base_url env_vars +:+ "/" +:+ pr_name p)%string
                (send (pr_versions_href p) w))
      as [[[response|e]|e] w'] eqn:Hget; [| discriminate | discriminate].
    injection Hextra as <- _.
    exists p, response, feed_versions. split; [| reflexivity].
    eapply get_from_devops_response. rewrite Hget. reflexivity.
Qed.

Lemma for_packages_collection (env_vars : EnvironmentalVariables)
    (upstream : Upstream) (n : Z) (l : list PackageResponse) (w : World)
    (d : PackageDocument) :
  d ∈ packages_collection (snd (for_packages env_vars upstream n l w)) ->
  d ∈ packages_collection w \/ written_by_sync env_vars upstream d.
Proof.
  revert w. induction l as [|p l IH]; intros w; simpl; [auto |].
  pose proof (loop_body_collection env_vars upstream n p w d) as Hbody.
  destruct (loop_body env_vars upstream n p w) as [[] w']; simpl in *.
  - intros Hd. destruct (IH w' Hd) as [Hw'|Hsync]; auto.
  - assumption.
  - assumption.
Qed.

Lemma download_collection (env_vars : EnvironmentalVariables)
    (upstream : Upstream) (w : World) (d : PackageDocument) :
  d ∈ packages_collection (snd (download env_vars upstream w)) ->
  d ∈ packages_collection w \/ written_by_sync env_vars upstream d.
Proof.
  unfold download.
  pose proof (get_from_devops_world (package_list_endpoint upstream)
                (packages_url env_vars) w) as Hw.
  destruct (get_from_devops (package_list_endpoint upstream)
              (packages_url env_vars) w) as [[[response|e]|e] w'];
    simpl in Hw; subst w'.
  - intros Hd. apply for_packages_collection in Hd. exact Hd.
  - simpl. auto.
  - simpl. auto.
Qed.

Lemma written_by_sync_hide_in_editor (env_vars : EnvironmentalVariables)
    (upstream : Upstream) (d : PackageDocument) (ver_num : string)
    (vd : VersionDocument) :
  written_by_sync env_vars upstream d ->
  (ver_num, vd) ∈ doc_versions d ->
  (forall vd', (ver_num, vd') ∈ doc_versions d -> vd' = vd) /\
  exists package_name response json_version,
    doc_name d = Some (BString package_name) /\
    registry_endpoint upstream
      (npm_registry_base_url env_vars +:+ "/" +:+ package_name)%string
    = responds response /\
    json response !! ver_num = Some json_version /\
    doc_hide_in_editor vd
    = Some (BBool (bool_or_False (reg_hideInEditor json_version))).
Proof.
  intros (p & response & feed_versions & Hendpoint & ->) Hvd.
  simpl in *. apply elem_of_map_to_list in Hvd. split.
  { intros vd' Hvd'. apply elem_of_map_to_list in Hvd'. congruence. }
  apply lookup_fmap_Some in Hvd as (v & <- & Hv).
  rewrite enrich_versions_lookup in Hv.
  destruct (feed_versions !! ver_num) as [fv|]; simpl in Hv; [| discriminate].
  destruct (json response !! ver_num) as [json_version|] eqn:Hjson;
    simpl in Hv; [| discriminate].
  injection Hv as <-.
  exists (pr_name p), response, json_version. auto.
Qed.

Lemma bool_or_False_true (x : option bool) :
  bool_or_False x = true <-> x = Some true.
Proof. destruct x as [[]|]; simpl; split; congruence. Qed.

(** C10: the two defaults of the editor-visibility flag. On the read side a
    stored version without the key [hide_in_editor] deserialises with the
    default of the dataclass, true. On the sync side a version whose
    registry entry has no [hideInEditor] is given false, and the key is
    written. So every version of a document that a run adds to the store
    holds the flag explicitly, equal to the registry's value or false, and
    the projection of such a version shows true only when the registry
    said true. *)
Theorem hide_in_editor_defaults (env_vars : EnvironmentalVariables)
    (upstream : Upstream) (w : World) :
  (forall d v,
     from_dict_version d = returns v ->
     from_dict_version (without_hide_in_editor d)
     = returns (set_hide_in_editor true v)) /\
  (forall version_number description publish_date dependencies,
     hide_in_editor
       (NpmPackageVersion_init version_number description publish_date
          dependencies) = true) /\
  (forall package_name npm_pkg_version json_version,
     reg_hideInEditor json_version = None ->
     hide_in_editor
       (enrich_version env_vars package_name npm_pkg_version json_version)
     = false /\
     doc_hide_in_editor
       (asdict_version
          (enrich_version env_vars package_name npm_pkg_version json_version))
     = Some (BBool false)) /\
  (forall d ver_num vd,
     d ∈ packages_collection (snd (download env_vars upstream w)) ->
     d ∉ packages_collection w ->
     (ver_num, vd) ∈ doc_versions d ->
     exists package_name response json_version,
       doc_name d = Some (BString package_name) /\
       registry_endpoint upstream
         (npm_registry_base_url env_vars +:+ "/" +:+ package_name)%string
       = responds response /\
       json response !! ver_num = Some json_version /\
       doc_hide_in_editor vd
       = Some (BBool (bool_or_False (reg_hideInEditor json_version))) /\
       forall package version,
         from_dict d = returns package ->
         versions package !! ver_num = Some version ->
         vp_hideInEditor (project_version package_name version)
         = bool_or_False (reg_hideInEditor json_version) /\
         (vp_hideInEditor (project_version package_name version) = true ->
          reg_hideInEditor json_version = Some true)).
Proof.
  split; [exact from_dict_version_without_hide_in_editor |].
  split; [reflexivity |].
  split.
  { intros package_name npm_pkg_version json_version Hnone.
    unfold asdict_version, enrich_version. simpl. rewrite Hnone. auto. }
  intros d ver_num vd Hafter Hbefore Hvd.
  apply download_collection in Hafter as [Hold|Hsync]; [contradiction |].
  destruct (written_by_sync_hide_in_editor _ _ _ _ _ Hsync Hvd)
    as (Hunique
        & package_name & response & json_version & Hname & Hendpoint & Hjson
        & Hflag).
  exists package_name, response, json_version.
  repeat (split; [assumption |]).
  intros package version Hfrom Hversion.
  apply from_dict_versions_of in Hfrom.
  destruct (from_dict_versions_lookup _ _ _ _ Hfrom Hversion)
    as (vd' & Hvd' & Hfrom_version).
  assert (vd' = vd) as -> by (apply Hunique; assumption).
  assert (hide_in_editor version
          = bool_or_False (reg_hideInEditor json_version)) as Hhide
    by (eapply from_dict_version_hide_in_editor; eassumption).
  simpl. split; [exact Hhide |].
  rewrite Hhide. apply bool_or_False_true.
Qed.

Lemma hide_in_editor_defaults_witness :
  exists vd,
    ("1.0.0", vd) ∈ doc_versions Scenario.foo_doc /\
    doc_hide_in_editor vd = Some (BBool false) /\
    (forall package version,
       from_dict Scenario.foo_doc = returns package ->
       versions package !! "1.0.0" = Some version ->
       vp_hideInEditor (project_version "foo" version) = false) /\
    (forall v,
       from_dict_version vd = returns v ->
       from_dict_version (without_hide_in_editor vd)
       = returns (set_hide_in_editor true v)).
Proof.
  destruct (hide_in_editor_defaults Scenario.env_vars Scenario.upstream_foo
              Scenario.empty_world) as (Hread & _ & _ & Hwritten).
  destruct (versions Scenario.foo_package !! "1.0.0") as [v|] eqn:Hv;
    [| vm_compute in Hv; discriminate].
  pose (vd := asdict_version v).
  assert (Hvd : ("1.0.0", vd) ∈ doc_versions Scenario.foo_doc).
  { apply elem_of_map_to_list. rewrite lookup_fmap, Hv. reflexivity. }
  destruct (Hwritten Scenario.foo_doc "1.0.0" vd
              ltac:(vm_compute; left)
              ltac:(vm_compute; apply not_elem_of_nil) Hvd)
    as (package_name & response & json_version & Hname & Hendpoint & Hjson
        & Hflag & Hprojected).
  injection Hname as <-.
  injection Hendpoint as <-.
  vm_compute in Hjson. injection Hjson as <-.
  exists vd. split; [exact Hvd |].
  split; [exact Hflag |].
  split.
  - intros package version Hfrom Hversion.
    exact (proj1 (Hprojected package version Hfrom Hversion)).
  - exact (Hread vd).
Defined.

(** * Further properties of the code *)

(** ** The feed step *)

Lemma get_from_devops_result_any_world {A : Type}
    (endpoint : string -> RequestOutcome A) (url : string) (w w' : World) :
  fst (get_from_devops endpoint url w) = fst (get_from_devops endpoint url w').
Proof.
  unfold get_from_devops.
  destruct (endpoint url) as [[]|response]; simpl; try reflexivity.
  repeat case_match; reflexivity.
Qed.

Lemma feed_step_result (upstream : Upstream) (url : string) (w : World) :
  fst (get_npm_versions_from_devops_feed upstream url w)
  = match fst (get_from_devops (feed_endpoint upstream) url w) with
    | returns (inl response) =>
        returns (inl (processed_versions_of (json response)))
    | returns (inr e) => returns (inr e)
    | throws e => throws e
    end.
Proof.
  unfold get_npm_versions_from_devops_feed.
  destruct (get_from_devops (feed_endpoint upstream) url w)
    as [[[r|e]|e] w']; reflexivity.
Qed.

Lemma registry_step_result (env_vars : EnvironmentalVariables)
    (upstream : Upstream) (package_name : string)
    (package_versions : gmap string NpmPackageVersion) (w : World) :
  fst (get_extra_npm_info_from_devops_npm_registry env_vars upstream
         package_name package_versions w)
  = match fst (get_from_devops (registry_endpoint upstream)
                 (npm_registry_url env_vars package_name) w) with
    | returns (inl response) =>
        returns (inl (enrich_versions env_vars package_name (json response)
                        package_versions))
    | returns (inr e) => returns (inr e)
    | throws e => throws e
    end.
Proof.
  unfold get_extra_npm_info_from_devops_npm_registry, npm_registry_url.
  destruct (get_from_devops (registry_endpoint upstream) _ w)
    as [[[r|e]|e] w']; reflexivity.
Qed.

Lemma processed_versions_lookup (devops_versions : list FeedVersion)
    (k : string) :
  processed_versions_of devops_versions !! k
  = new_version_of_feed
      <$> last_such (fun dv => feed_version dv = k) devops_versions.
Proof.
  unfold processed_versions_of.
  rewrite (foldl_insert_lookup feed_version new_version_of_feed).
  destruct (last_such _ devops_versions); [reflexivity | apply lookup_empty].
Qed.

Lemma feed_dependencies_lookup (deps : list FeedDependency) (n : string) :
  feed_dependencies_dict deps !! n
  = dep_versionRange <$> last_such (fun d => dep_packageName d = n) deps.
Proof.
  unfold feed_dependencies_dict.
  rewrite (foldl_insert_lookup dep_packageName dep_versionRange).
  destruct (last_such _ deps); [reflexivity | apply lookup_empty].
Qed.

Lemma processed_versions_keyed (devops_versions : list FeedVersion) :
  keyed_by_version_number (processed_versions_of devops_versions).
Proof.
  intros k v Hv. rewrite processed_versions_lookup in Hv.
  destruct (last_such _ devops_versions) as [dv|] eqn:Hlast; [| discriminate].
  injection Hv as <-. apply last_such_Some in Hlast as [Hk _]. exact Hk.
Qed.

(** X1: the dict of the feed step. When the fetch hands back the feed, the
    step returns a dict in which a version id holds the record built from
    the last feed entry with that id (an id no entry has is not a key), and
    in such a record a dependency name holds the range of the last
    dependency entry with that name. The record has the id as its
    [version_number], the empty string for a missing description, and the
    defaults of the class elsewhere. *)
Theorem feed_step_last_entry_wins (upstream : Upstream) (url : string)
    (w : World) (response : Response (list FeedVersion)) :
  fst (get_from_devops (feed_endpoint upstream) url w) = returns (inl response) ->
  exists processed_versions,
    fst (get_npm_versions_from_devops_feed upstream url w)
    = returns (inl processed_versions) /\
    (forall k,
       processed_versions !! k
       = new_version_of_feed
           <$> last_such (fun dv => feed_version dv = k) (json response)) /\
    (forall k, is_Some (processed_versions !! k) <->
               exists dv, dv ∈ json response /\ feed_version dv = k) /\
    (forall k v,
       processed_versions !! k = Some v ->
       exists dv,
         dv ∈ json response /\
         version_number v = k /\
         description v = default "" (feed_description dv) /\
         publish_date v = feed_publishDate dv /\
         (forall n,
            dependencies v !! n
            = dep_versionRange
                <$> last_such (fun d => dep_packageName d = n)
                      (feed_dependencies dv)) /\
         shasum v = None /\ tarball v = None /\ author v = None /\
         display_name v = None /\ unity v = None /\ category v = None /\
         hide_in_editor v = true).
Proof.
  intros Hfetch.
  exists (processed_versions_of (json response)).
  split; [rewrite feed_step_result, Hfetch; reflexivity |].
  split; [apply processed_versions_lookup |].
  split.
  - intros k. rewrite processed_versions_lookup. split.
    + intros [v Hv].
      destruct (last_such _ (json response)) as [dv|] eqn:Hlast;
        [| discriminate].
      apply last_such_Some in Hlast as [Hk Hin]. eauto.
    + intros (dv & Hin & Hk).
      destruct (last_such (fun dv => feed_version dv = k) (json response))
        as [dv'|] eqn:Hlast; [eauto |].
      rewrite last_such_None in Hlast. destruct (Hlast dv Hin Hk).
  - intros k v Hv. rewrite processed_versions_lookup in Hv.
    destruct (last_such _ (json response)) as [dv|] eqn:Hlast;
      [| discriminate].
    injection Hv as <-. apply last_such_Some in Hlast as [Hk Hin].
    exists dv. split; [assumption |]. split; [assumption |].
    simpl. repeat split. intros n. apply feed_dependencies_lookup.
Qed.

Lemma feed_step_last_entry_wins_witness :
  exists processed_versions,
    fst (get_npm_versions_from_devops_feed Cases.upstream_duplicates
           "https://feed/foo" Scenario.empty_world)
    = returns (inl processed_versions) /\
    description <$> processed_versions !! "1.0.0" = Some "second entry" /\
    (exists v, processed_versions !! "1.0.0" = Some v /\
               dependencies v !! "bar" = Some "^2.0.0") /\
    is_Some (processed_versions !! "2.0.0") /\
    processed_versions !! "3.0.0" = None.
Proof.
  destruct (feed_step_last_entry_wins Cases.upstream_duplicates
              "https://feed/foo" Scenario.empty_world
              Cases.feed_with_duplicates_response eq_refl)
    as (processed_versions & Hstep & Hlookup & Hkeys & Hfields).
  exists processed_versions.
  split; [exact Hstep |].
  split; [rewrite Hlookup; vm_compute; reflexivity |].
  split.
  { destruct (processed_versions !! "1.0.0") as [v|] eqn:Hv.
    - exists v. split; [reflexivity |].
      rewrite Hlookup in Hv. vm_compute in Hv. injection Hv as <-.
      vm_compute. reflexivity.
    - rewrite Hlookup in Hv. vm_compute in Hv. discriminate. }
  split.
  { apply Hkeys.
    exists {| feed_version := "2.0.0";
              feed_description := None;
              feed_publishDate := "2023-02-01T00:00:00Z";
              feed_dependencies := [] |}.
    split; [| reflexivity].
    unfold Cases.feed_with_duplicates_response, Cases.feed_with_duplicates.
    simpl. right. left. }
  rewrite Hlookup. vm_compute. reflexivity.
Defined.

(** ** One pass of the loop, by the answers of the upstream *)

Lemma feed_step_eq (upstream : Upstream) (url : string) (w : World) :
  get_npm_versions_from_devops_feed upstream url w
  = (match fst (get_from_devops (feed_endpoint upstream) url w) with
     | returns (inl response) =>
         returns (inl (processed_versions_of (json response)))
     | returns (inr e) => returns (inr e)
     | throws e => throws e
     end, send url w).
Proof.
  pose proof (feed_step_result upstream url w) as Hresult.
  pose proof (feed_fetch_world upstream url w) as Hworld.
  destruct (get_npm_versions_from_devops_feed upstream url w) as [r w'].
  simpl in *. subst. reflexivity.
Qed.

Lemma registry_step_eq (env_vars : EnvironmentalVariables)
    (upstream : Upstream) (package_name : string)
    (package_versions : gmap string NpmPackageVersion) (w w0 : World) :
  get_extra_npm_info_from_devops_npm_registry env_vars upstream
    package_name package_versions w
  = (match fst (get_from_devops (registry_endpoint upstream)
                  (npm_registry_url env_vars package_name) w0) with
     | returns (inl response) =>
         returns (inl (enrich_versions env_vars package_name (json response)
                         package_versions))
     | returns (inr e) => returns (inr e)
     | throws e => throws e
     end, send (npm_registry_url env_vars package_name) w).
Proof.
  rewrite (get_from_devops_result_any_world _ _ w0 w).
  pose proof (registry_step_result env_vars upstream package_name
                package_versions w) as Hresult.
  pose proof (registry_fetch_world env_vars upstream package_name
                package_versions w) as Hworld.
  destruct (get_extra_npm_info_from_devops_npm_registry env_vars upstream
              package_name package_versions w) as [r w'].
  simpl in *. subst. reflexivity.
Qed.

Lemma validate_dict (package_versions : gmap string NpmPackageVersion)
    (n : Z) :
  validate_package_versions (inl package_versions) n
  = if decide (size package_versions = 0%nat) then CONTINUE else PASS.
Proof.
  unfold validate_package_versions.
  case_bool_decide; case_decide; congruence.
Qed.

Lemma validate_error_not_PASS (e : NetworkError) (n : Z) :
  validate_package_versions (inr e) n <> PASS.
Proof.
  unfold validate_package_versions.
  destruct e; try discriminate; destruct (n + 1 =? 5); discriminate.
Qed.

(** The pass of the loop for one package, with the world threaded out: what
    it returns as a function of the store and of the two answers. *)
Lemma loop_body_eq (env_vars : EnvironmentalVariables) (upstream : Upstream)
    (n : Z) (p : PackageResponse) (w : World) :
  loop_body env_vars upstream n p w
  = let c := packages_collection w in
    match check_package_status_in_mongo (pr_name p) (pr_latest_version p) c
    with
    | throws e => (propagate e, w)
    | returns status =>
    if decide (status = UP_TO_DATE) then (next, w) else
    let w1 := send (pr_versions_href p) w in
    match fst (get_from_devops (feed_endpoint upstream)
                 (pr_versions_href p) w) with
    | throws e => (propagate e, w1)
    | returns (inr e) =>
        (control_of (validate_package_versions (inr e) n), w1)
    | returns (inl feed_response) =>
        let package_versions :=
          processed_versions_of (json feed_response) in
        if decide (size package_versions = 0%nat) then (next, w1) else
        let w2 := send (npm_registry_url env_vars (pr_name p)) w1 in
        match fst (get_from_devops (registry_endpoint upstream)
                     (npm_registry_url env_vars (pr_name p)) w) with
        | throws e => (propagate e, w2)
        | returns (inr e) =>
            (control_of (validate_package_versions (inr e) n), w2)
        | returns (inl registry_response) =>
            let new_package :=
              record_of env_vars p (json feed_response)
                (json registry_response) in
            if decide (size (versions new_package) = 0%nat) then (next, w2)
            else
              (next,
               set_collection
                 (insert_one
                    (if decide (status = OUT_OF_DATE)
                     then delete_one c (pr_name p) else c)
                    (asdict new_package)) w2)
        end
    end
    end.
Proof.
  unfold loop_body. cbv zeta.
  destruct (check_package_status_in_mongo (pr_name p) (pr_latest_version p)
              (packages_collection w)) as [status|e0]; [| reflexivity].
  case_decide as Hstatus; [reflexivity |].
  rewrite feed_step_eq.
  destruct (fst (get_from_devops (feed_endpoint upstream)
                   (pr_versions_href p) w)) as [[feed_response|e]|e].
  2: { pose proof (validate_error_not_PASS e n).
       destruct (validate_package_versions (inr e) n); simpl; congruence. }
  2: reflexivity.
  rewrite validate_dict.
  case_decide as Hsize; [reflexivity |].
  rewrite (registry_step_eq _ _ _ _ _ w).
  destruct (fst (get_from_devops (registry_endpoint upstream)
                   (npm_registry_url env_vars (pr_name p)) w))
    as [[registry_response|e]|e].
  2: { pose proof (validate_error_not_PASS e n).
       destruct (validate_package_versions (inr e) n); simpl; congruence. }
  2: reflexivity.
  rewrite validate_dict. unfold record_of. simpl.
  case_decide as Hsize'; [reflexivity |].
  case_decide; reflexivity.
Qed.

Lemma processed_versions_size (devops_versions : list FeedVersion) :
  size (processed_versions_of devops_versions) = 0%nat <-> devops_versions = [].
Proof.
  rewrite map_size_empty_iff, map_empty. split.
  - intros Hnone. destruct devops_versions as [|dv l]; [reflexivity |].
    specialize (Hnone (feed_version dv)).
    rewrite processed_versions_lookup in Hnone.
    destruct (last_such (fun dv0 => feed_version dv0 = feed_version dv)
                (dv :: l)) as [x|] eqn:Hlast; [discriminate |].
    rewrite last_such_None in Hlast.
    destruct (Hlast dv); [left | reflexivity].
  - intros -> k. reflexivity.
Qed.

Lemma record_of_lookup (env_vars : EnvironmentalVariables)
    (p : PackageResponse) (devops_feed : list FeedVersion)
    (devops_registry : gmap string RegistryVersion) (k : string) :
  versions (record_of env_vars p devops_feed devops_registry) !! k
  = dv ← last_such (fun dv => feed_version dv = k) devops_feed;
    enrich_version env_vars (pr_name p) (new_version_of_feed dv)
      <$> devops_registry !! k.
Proof.
  unfold record_of. simpl.
  rewrite enrich_versions_lookup, processed_versions_lookup.
  destruct (last_such _ devops_feed); reflexivity.
Qed.

Lemma record_of_size (env_vars : EnvironmentalVariables)
    (p : PackageResponse) (devops_feed : list FeedVersion)
    (devops_registry : gmap string RegistryVersion) :
  size (versions (record_of env_vars p devops_feed devops_registry)) = 0%nat
  <-> forall dv, dv ∈ devops_feed ->
                 devops_registry !! feed_version dv = None.
Proof.
  rewrite map_size_empty_iff, map_empty. split.
  - intros Hnone dv Hdv. specialize (Hnone (feed_version dv)).
    rewrite record_of_lookup in Hnone.
    destruct (last_such (fun dv0 => feed_version dv0 = feed_version dv)
                devops_feed) as [x|] eqn:Hlast.
    + simpl in Hnone.
      destruct (devops_registry !! feed_version dv); [discriminate |].
      reflexivity.
    + rewrite last_such_None in Hlast. destruct (Hlast dv Hdv eq_refl).
  - intros Hnone k. rewrite record_of_lookup.
    destruct (last_such (fun dv => feed_version dv = k) devops_feed)
      as [x|] eqn:Hlast; [| reflexivity].
    apply last_such_Some in Hlast as [<- Hin]. simpl.
    rewrite (Hnone x Hin). reflexivity.
Qed.

(** X2: a package without versions is skipped and does not count as an
    error. When the feed lists nothing the pass sends the feed request
    only; when the feed lists versions and the registry lists none of them
    the pass sends both requests; either way the loop goes on, whatever
    the error count, and the store is as it was. *)
Theorem package_without_versions_is_skipped
    (env_vars : EnvironmentalVariables) (upstream : Upstream) (n : Z)
    (p : PackageResponse) (w : World) (status : MongoPackageStatus)
    (feed_response : Response (list FeedVersion)) :
  check_package_status_in_mongo (pr_name p) (pr_latest_version p)
    (packages_collection w) = returns status ->
  status <> UP_TO_DATE ->
  fst (get_from_devops (feed_endpoint upstream) (pr_versions_href p) w)
  = returns (inl feed_response) ->
  (json feed_response = [] ->
   loop_body env_vars upstream n p w = (next, send (pr_versions_href p) w)) /\
  (forall registry_response,
     json feed_response <> [] ->
     fst (get_from_devops (registry_endpoint upstream)
            (npm_registry_url env_vars (pr_name p)) w)
     = returns (inl registry_response) ->
     (forall dv, dv ∈ json feed_response ->
                 json registry_response !! feed_version dv = None) ->
     loop_body env_vars upstream n p w
     = (next,
        {| requests :=
             (requests w ++
              [pr_versions_href p;
               npm_registry_url env_vars (pr_name p)])%list;
           packages_collection := packages_collection w |})).
Proof.
  intros Hcheck Hstatus Hfeed. split.
  - intros Hempty. rewrite loop_body_eq. cbv zeta. rewrite Hcheck.
    rewrite decide_False by assumption. rewrite Hfeed.
    rewrite decide_True by (apply processed_versions_size; assumption).
    reflexivity.
  - intros registry_response Hlisted Hregistry Hnone.
    rewrite loop_body_eq. cbv zeta. rewrite Hcheck.
    rewrite decide_False by assumption. rewrite Hfeed.
    rewrite decide_False by (rewrite processed_versions_size; assumption).
    rewrite Hregistry.
    rewrite decide_True by (apply record_of_size; assumption).
    unfold send. simpl. rewrite <- app_assoc. reflexivity.
Qed.

Lemma package_without_versions_is_skipped_witness :
  loop_body Scenario.env_vars Cases.upstream_unpublished 4
    (Scenario.listed "foo" "1.0.0") Cases.world_with_ill_typed_doc
  = (next,
     {| requests := ["https://feed/foo"; "https://registry/foo"];
        packages_collection := [Scenario.ill_typed_doc] |}).
Proof.
  refine (proj2 (package_without_versions_is_skipped Scenario.env_vars
                   Cases.upstream_unpublished 4
                   (Scenario.listed "foo" "1.0.0")
                   Cases.world_with_ill_typed_doc NOT_FOUND
                   Cases.feed_with_duplicates_response _ _ _)
            Cases.empty_registry_response _ _ _).
  - reflexivity.
  - discriminate.
  - reflexivity.
  - discriminate.
  - reflexivity.
  - intros dv _. apply lookup_empty.
Defined.

(** X3: the commit. When both fetches answer and the registry lists at
    least one version of the feed, the pass sends the two requests, takes
    the first document of that name out if the package was found out of
    date, and appends the new record; the loop goes on. *)
Theorem commit_deletes_stale_then_inserts
    (env_vars : EnvironmentalVariables) (upstream : Upstream) (n : Z)
    (p : PackageResponse) (w : World) (status : MongoPackageStatus)
    (feed_response : Response (list FeedVersion))
    (registry_response : Response (gmap string RegistryVersion))
    (dv : FeedVersion) :
  check_package_status_in_mongo (pr_name p) (pr_latest_version p)
    (packages_collection w) = returns status ->
  status <> UP_TO_DATE ->
  fst (get_from_devops (feed_endpoint upstream) (pr_versions_href p) w)
  = returns (inl feed_response) ->
  fst (get_from_devops (registry_endpoint upstream)
         (npm_registry_url env_vars (pr_name p)) w)
  = returns (inl registry_response) ->
  dv ∈ json feed_response ->
  is_Some (json registry_response !! feed_version dv) ->
  loop_body env_vars upstream n p w
  = (next,
     {| requests :=
          (requests w ++
           [pr_versions_href p; npm_registry_url env_vars (pr_name p)])%list;
        packages_collection :=
          ((if decide (status = OUT_OF_DATE)
            then delete_one (packages_collection w) (pr_name p)
            else packages_collection w) ++
           [asdict (record_of env_vars p (json feed_response)
                      (json registry_response))])%list |}).
Proof.
  intros Hcheck Hstatus Hfeed Hregistry Hdv [json_version Hlisted].
  rewrite loop_body_eq. cbv zeta. rewrite Hcheck.
  rewrite decide_False by assumption. rewrite Hfeed.
  rewrite decide_False.
  2: { rewrite processed_versions_size. intros Hnil.
       rewrite Hnil in Hdv. inversion Hdv. }
  rewrite Hregistry.
  rewrite decide_False.
  2: { rewrite record_of_size. intros Hnone.
       rewrite (Hnone dv Hdv) in Hlisted. discriminate. }
  unfold set_collection, insert_one, send. simpl.
  rewrite <- app_assoc. reflexivity.
Qed.

Lemma commit_deletes_stale_then_inserts_witness :
  loop_body Scenario.env_vars Scenario.upstream_foo 0
    (Scenario.listed "foo" "1.1.0")
    {| requests := []; packages_collection := Scenario.foo_store |}
  = (next,
     {| requests := ["https://feed/foo"; "https://registry/foo"];
        packages_collection :=
          [asdict (record_of Scenario.env_vars (Scenario.listed "foo" "1.1.0")
                     Scenario.foo_feed Scenario.foo_registry)] |}).
Proof.
  refine (commit_deletes_stale_then_inserts Scenario.env_vars
            Scenario.upstream_foo 0 (Scenario.listed "foo" "1.1.0")
            {| requests := []; packages_collection := Scenario.foo_store |}
            OUT_OF_DATE
            {| status_code := 200; json := Scenario.foo_feed |}
            Scenario.foo_registry_response
            {| feed_version := "1.0.0";
               feed_description := Some "The foo package";
               feed_publishDate := "2023-01-01T00:00:00Z";
               feed_dependencies :=
                 [ {| dep_packageName := "bar"; dep_versionRange := "^1.2.0" |};
                   {| dep_packageName := "baz"; dep_versionRange := "2.0.0" |} ] |}
            _ _ _ _ _ _).
  - vm_compute. reflexivity.
  - discriminate.
  - reflexivity.
  - reflexivity.
  - left.
  - vm_compute. eauto.
Defined.

(** ** How a run ends *)

Lemma control_of_stop (e : NetworkError) (n : Z) :
  control_of (validate_package_versions (inr e) n) = stop ->
  e = DEVOPS_AUTH_FAILURE \/ n + 1 = 5.
Proof.
  destruct e; simpl; auto;
    destruct (n + 1 =? 5) eqn:E; simpl; try discriminate;
    intros _; right; apply Z.eqb_eq; assumption.
Qed.

Lemma loop_body_stop_inv (env_vars : EnvironmentalVariables)
    (upstream : Upstream) (n : Z) (p : PackageResponse) (w w' : World) :
  loop_body env_vars upstream n p w = (stop, w') ->
  n + 1 = 5 \/
  (exists response,
     feed_endpoint upstream (pr_versions_href p) = responds response /\
     status_code response = 203) \/
  (exists response,
     registry_endpoint upstream (npm_registry_url env_vars (pr_name p))
     = responds response /\
     status_code response = 203).
Proof.
  rewrite loop_body_eq. cbv zeta.
  destruct (check_package_status_in_mongo (pr_name p) (pr_latest_version p)
              (packages_collection w)) as [status|e0]; [| discriminate].
  case_decide; [discriminate |].
  destruct (fst (get_from_devops (feed_endpoint upstream)
                   (pr_versions_href p) w)) as [[feed_response|e]|e]
    eqn:Hfeed.
  - case_decide; [discriminate |].
    destruct (fst (get_from_devops (registry_endpoint upstream)
                     (npm_registry_url env_vars (pr_name p)) w))
      as [[registry_response|e]|e] eqn:Hregistry.
    + case_decide; discriminate.
    + intros [= Hstop _]. apply control_of_stop in Hstop as [->|Hn]; auto.
      right. right. apply get_from_devops_auth_failure in Hregistry.
      exact Hregistry.
    + discriminate.
  - intros [= Hstop _]. apply control_of_stop in Hstop as [->|Hn]; auto.
    right. left. apply get_from_devops_auth_failure in Hfeed. exact Hfeed.
  - discriminate.
Qed.

(** An exception leaves a pass of the loop when the staleness check raises
    on a stored document that misses a required key, or when one of the two
    fetches raises an exception that [get_from_devops] does not catch. *)
Lemma loop_body_propagate_inv (env_vars : EnvironmentalVariables)
    (upstream : Upstream) (n : Z) (p : PackageResponse) (w w' : World)
    (e : PyException) :
  loop_body env_vars upstream n p w = (propagate e, w') ->
  (e = MissingValueError /\
   exists d, find_one (packages_collection w) (pr_name p) = Some d /\
             from_dict d = throws MissingValueError) \/
  (exists class_name,
     e = RequestsException class_name /\
     (feed_endpoint upstream (pr_versions_href p)
      = raises (OtherRequestException class_name) \/
      registry_endpoint upstream (npm_registry_url env_vars (pr_name p))
      = raises (OtherRequestException class_name))).
Proof.
  rewrite loop_body_eq. cbv zeta.
  destruct (check_package_status_in_mongo (pr_name p) (pr_latest_version p)
              (packages_collection w)) as [status|e0] eqn:Hcheck.
  2: { intros [= <- _]. left.
       apply check_package_status_throws in Hcheck. exact Hcheck. }
  case_decide; [discriminate |].
  destruct (fst (get_from_devops (feed_endpoint upstream)
                   (pr_versions_href p) w)) as [[feed_response|err]|e1]
    eqn:Hfeed.
  - case_decide; [discriminate |].
    destruct (fst (get_from_devops (registry_endpoint upstream)
                     (npm_registry_url env_vars (pr_name p)) w))
      as [[registry_response|err]|e1] eqn:Hregistry.
    + case_decide; discriminate.
    + destruct (validate_package_versions (inr err) n); discriminate.
    + intros [= <- _]. right.
      apply get_from_devops_throws in Hregistry as (c & Hc & ->). eauto.
  - destruct (validate_package_versions (inr err) n); discriminate.
  - intros [= <- _]. right.
    apply get_from_devops_throws in Hfeed as (c & Hc & ->). eauto.
Qed.

Lemma for_packages_returned_inv (env_vars : EnvironmentalVariables)
    (upstream : Upstream) (n : Z) (l : list PackageResponse) (w w' : World) :
  for_packages env_vars upstream n l w = (returned, w') ->
  exists p w1 w2,
    p ∈ l /\ loop_body env_vars upstream n p w1 = (stop, w2).
Proof.
  revert w. induction l as [|p l IH]; intros w; simpl; [discriminate |].
  destruct (loop_body env_vars upstream n p w) as [[| |e] w1] eqn:Hbody.
  - intros Hrest. destruct (IH _ Hrest) as (q & w2 & w3 & Hq & Hstop).
    exists q, w2, w3. split; [right; assumption | assumption].
  - intros _. exists p, w, w1. split; [left | assumption].
  - discriminate.
Qed.

(** The pass that raises, with the passes before it and the store they
    leave. *)
Lemma for_packages_raised_inv (env_vars : EnvironmentalVariables)
    (upstream : Upstream) (n : Z) (l : list PackageResponse) (w w' : World)
    (e : PyException) :
  for_packages env_vars upstream n l w = (raised e, w') ->
  exists pre p post w1,
    l = (pre ++ p :: post)%list /\
    for_packages env_vars upstream n pre w = (finished, w1) /\
    loop_body env_vars upstream n p w1 = (propagate e, w').
Proof.
  revert w. induction l as [|p l IH]; intros w; simpl; [discriminate |].
  destruct (loop_body env_vars upstream n p w) as [[| |e'] w1] eqn:Hbody.
  - intros Hrest.
    destruct (IH _ Hrest) as (pre & q & post & w2 & -> & Hpre & Hq).
    exists (p :: pre), q, post, w2. split; [reflexivity |].
    simpl. rewrite Hbody. auto.
  - discriminate.
  - intros [= <- <-]. exists [], p, l, w. auto.
Qed.

(** A document written with [asdict] holds every key: reading it never
    raises [MissingValueError]. *)
Lemma from_dict_version_asdict_not_missing (v : NpmPackageVersion) :
  from_dict_version (asdict_version v) <> throws MissingValueError.
Proof.
  destruct v as [vn de pd deps sh ta au dn un ca hide].
  unfold from_dict_version, asdict_version, str_or_None, required,
    with_default, checked. simpl.
  assert (all_str (BString <$> deps) = Some deps) as ->.
  { unfold all_str. rewrite decide_True.
    - f_equal. apply map_eq. intros k.
      rewrite lookup_omap, lookup_fmap. destruct (deps !! k); reflexivity.
    - intros k x [s0 [<- _]]%lookup_fmap_Some. simpl. eauto. }
  destruct sh, ta, au, dn, un, ca; simpl; discriminate.
Qed.

Lemma from_dict_asdict_not_missing (package : NpmPackage) :
  from_dict (asdict package) <> throws MissingValueError.
Proof.
  unfold from_dict, asdict. simpl. intros Hfrom.
  destruct (from_dict_versions
              (map_to_list (asdict_version <$> versions package)))
    as [vs|e] eqn:Hversions; simpl in Hfrom; [discriminate |].
  injection Hfrom as ->.
  apply from_dict_versions_throws in Hversions as (k & vd & Hk & Hvd).
  apply elem_of_map_to_list, lookup_fmap_Some in Hk as (v & <- & _).
  exact (from_dict_version_asdict_not_missing v Hvd).
Qed.

Lemma written_by_sync_not_missing (env_vars : EnvironmentalVariables)
    (upstream : Upstream) (d : PackageDocument) :
  written_by_sync env_vars upstream d ->
  from_dict d <> throws MissingValueError.
Proof.
  intros (p & response & feed_versions & _ & ->).
  apply from_dict_asdict_not_missing.
Qed.

Lemma find_one_Some_elem_of (c : list PackageDocument) (n : string)
    (d : PackageDocument) :
  find_one c n = Some d -> d ∈ c /\ doc_name d = Some (BString n).
Proof.
  unfold find_one. intros Hfind.
  destruct (list_find (fun d0 => doc_name d0 = Some (BString n)) c)
    as [[i x]|] eqn:Hlist; [| discriminate].
  injection Hfind as <-.
  apply list_find_Some in Hlist as (Hi & Hx & _).
  split; [eapply list_elem_of_lookup_2; exact Hi | exact Hx].
Qed.

(** X4: how [download] ends, for upstream bodies of the shape the code
    reads and a store that answers. It ends with an exception in three
    cases only: the catalog listing came back as a [NetworkError]
    ([AttributeError]); [requests.get] raised, for the listing or for the
    feed or the registry of a listed package, an exception of a class that
    [get_from_devops] does not catch; or the store the run started with
    holds, under a listed name, a document that misses a required key
    ([MissingValueError]). It returns before the end of the listing only
    when the feed or the registry answered 203 for a listed package: no
    other upstream error, however often it occurs, ends a run early. *)
Theorem download_ends_early_only_on_auth_failure
    (env_vars : EnvironmentalVariables) (upstream : Upstream) (w : World) :
  (forall e,
     fst (download env_vars upstream w) = raised e ->
     (e = AttributeError /\
      exists err,
        fst (get_from_devops (package_list_endpoint upstream)
               (packages_url env_vars) w) = returns (inr err)) \/
     (exists class_name,
        e = RequestsException class_name /\
        (package_list_endpoint upstream (packages_url env_vars)
         = raises (OtherRequestException class_name) \/
         exists listing p,
           package_list_endpoint upstream (packages_url env_vars)
           = responds listing /\
           p ∈ json listing /\
           (feed_endpoint upstream (pr_versions_href p)
            = raises (OtherRequestException class_name) \/
            registry_endpoint upstream
              (npm_registry_url env_vars (pr_name p))
            = raises (OtherRequestException class_name)))) \/
     (e = MissingValueError /\
      exists listing p d,
        package_list_endpoint upstream (packages_url env_vars)
        = responds listing /\
        p ∈ json listing /\
        d ∈ packages_collection w /\
        doc_name d = Some (BString (pr_name p)) /\
        from_dict d = throws MissingValueError)) /\
  (fst (download env_vars upstream w) = returned ->
   exists listing p,
     package_list_endpoint upstream (packages_url env_vars)
     = responds listing /\
     p ∈ json listing /\
     ((exists response,
         feed_endpoint upstream (pr_versions_href p) = responds response /\
         status_code response = 203) \/
      (exists response,
         registry_endpoint upstream (npm_registry_url env_vars (pr_name p))
         = responds response /\
         status_code response = 203))).
Proof.
  unfold download.
  pose proof (get_from_devops_world (package_list_endpoint upstream)
                (packages_url env_vars) w) as Hw0.
  destruct (get_from_devops (package_list_endpoint upstream)
              (packages_url env_vars) w) as [[[listing|err]|e0] w0] eqn:Hlist;
    simpl in Hw0; subst w0; simpl.
  - assert (Hlisting : package_list_endpoint upstream (packages_url env_vars)
                       = responds listing).
    { apply (get_from_devops_response _ _ w). rewrite Hlist. reflexivity. }
    split.
    + intros e He.
      destruct (for_packages env_vars upstream 0 (json listing)
                  (send (packages_url env_vars) w)) as [o w'] eqn:Hrun.
      simpl in He. subst o.
      apply for_packages_raised_inv in Hrun
        as (pre & p & post & w1 & Hl & Hpre & Hbody).
      assert (Hp : p ∈ json listing).
      { rewrite Hl. apply elem_of_app. right. left. }
      apply loop_body_propagate_inv in Hbody
        as [(-> & d & Hfind & Hfrom)|(c & -> & Hraise)].
      * right. right. split; [reflexivity |].
        apply find_one_Some_elem_of in Hfind as [Hd Hname].
        exists listing, p, d.
        repeat (split; [assumption |]). split; [| split; assumption].
        assert (Hw1 : w1 = snd (for_packages env_vars upstream 0 pre
                                  (send (packages_url env_vars) w)))
          by (rewrite Hpre; reflexivity).
        rewrite Hw1 in Hd. apply for_packages_collection in Hd as [Hd|Hsync].
        -- exact Hd.
        -- destruct (written_by_sync_not_missing _ _ _ Hsync Hfrom).
      * right. left. exists c. split; [reflexivity |]. right.
        exists listing, p. auto.
    + intros Hreturned.
      destruct (for_packages env_vars upstream 0 (json listing)
                  (send (packages_url env_vars) w)) as [o w'] eqn:Hrun.
      simpl in Hreturned. subst o.
      apply for_packages_returned_inv in Hrun
        as (p & w1 & w2 & Hp & Hstop).
      apply loop_body_stop_inv in Hstop as [Hcount|Hauth]; [discriminate |].
      exists listing, p. auto.
  - split; [| discriminate].
    intros e [= <-]. left. split; [reflexivity | eauto].
  - split; [| discriminate].
    intros e [= <-]. right. left.
    assert (Hthrows : fst (get_from_devops (package_list_endpoint upstream)
                             (packages_url env_vars) w) = throws e0)
      by (rewrite Hlist; reflexivity).
    apply get_from_devops_throws in Hthrows as (c & Hc & ->). eauto.
Qed.

Lemma download_ends_early_only_on_auth_failure_witness :
  exists listing p,
    package_list_endpoint Scenario.upstream_registry_203 "https://packages"
    = responds listing /\
    p ∈ json listing /\
    ((exists response,
        feed_endpoint Scenario.upstream_registry_203 (pr_versions_href p)
        = responds response /\ status_code response = 203) \/
     (exists response,
        registry_endpoint Scenario.upstream_registry_203
          (npm_registry_url Scenario.env_vars (pr_name p))
        = responds response /\ status_code response = 203)).
Proof.
  apply (proj2 (download_ends_early_only_on_auth_failure Scenario.env_vars
                  Scenario.upstream_registry_203 Scenario.empty_world)).
  vm_compute. reflexivity.
Defined.

(** ** What a run does to the store *)

Lemma named_app (n : string) (c1 c2 : list PackageDocument) :
  named n (c1 ++ c2) = (named n c1 ++ named n c2)%list.
Proof. apply filter_app. Qed.

Lemma named_delete_one_ne (n m : string) (c : list PackageDocument) :
  n <> m -> named n (delete_one c m) = named n c.
Proof.
  intros Hne. unfold named. induction c as [|d c IH]; simpl; [reflexivity |].
  case_decide as Hd.
  - rewrite filter_cons_False; [reflexivity |].
    rewrite Hd. intros [= ->]. congruence.
  - rewrite !filter_cons. rewrite IH. reflexivity.
Qed.

Lemma named_delete_one_eq (n : string) (c : list PackageDocument) :
  named n (delete_one c n) = tail (named n c).
Proof.
  unfold named. induction c as [|d c IH]; simpl; [reflexivity |].
  case_decide as Hd.
  - rewrite filter_cons_True by assumption. reflexivity.
  - rewrite !filter_cons_False by assumption. exact IH.
Qed.

Lemma find_one_head (c : list PackageDocument) (n : string) :
  find_one c n = head (named n c).
Proof.
  unfold find_one, named. induction c as [|d c IH]; simpl; [reflexivity |].
  rewrite filter_cons. case_decide; simpl; [reflexivity |].
  rewrite <- IH.
  destruct (list_find (fun d0 => doc_name d0 = Some (BString n)) c) as [[i x]|];
    reflexivity.
Qed.

Lemma named_asdict (n : string) (package : NpmPackage) :
  named n [asdict package] = if decide (name package = n) then [asdict package] else [].
Proof.
  unfold named. rewrite filter_cons, filter_nil. simpl.
  repeat case_decide; congruence.
Qed.

Lemma status_OUT_OF_DATE_found (n v : string) (c : list PackageDocument) :
  check_package_status_in_mongo n v c = returns OUT_OF_DATE ->
  exists d, find_one c n = Some d /\ is_Some (returned_value (from_dict d)).
Proof.
  unfold check_package_status_in_mongo.
  destruct (find_one c n) as [d|]; [| discriminate].
  destruct (from_dict d) as [found|e] eqn:Hfrom.
  - intros _. exists d. rewrite Hfrom. simpl. eauto.
  - destruct e; discriminate.
Qed.

(** The store after a pass: as it was, or with the new record appended
    after the stale one, if any, was taken out. *)
Lemma loop_body_store (env_vars : EnvironmentalVariables)
    (upstream : Upstream) (n : Z) (p : PackageResponse) (w : World) :
  let c := packages_collection w in
  let c' := packages_collection (snd (loop_body env_vars upstream n p w)) in
  c' = c \/
  exists devops_feed devops_registry,
    c' = ((if decide (check_package_status_in_mongo (pr_name p)
                        (pr_latest_version p) c = returns OUT_OF_DATE)
           then delete_one c (pr_name p) else c) ++
          [asdict (record_of env_vars p devops_feed devops_registry)])%list.
Proof.
  cbv zeta. rewrite loop_body_eq. cbv zeta.
  destruct (check_package_status_in_mongo (pr_name p) (pr_latest_version p)
              (packages_collection w)) as [status|e0]; [| left; reflexivity].
  case_decide; [left; reflexivity |].
  destruct (fst (get_from_devops (feed_endpoint upstream) _ w))
    as [[feed_response|e]|e]; [| left; reflexivity | left; reflexivity].
  case_decide; [left; reflexivity |].
  destruct (fst (get_from_devops (registry_endpoint upstream) _ w))
    as [[registry_response|e]|e]; [| left; reflexivity | left; reflexivity].
  case_decide; [left; reflexivity |].
  right. exists (json feed_response), (json registry_response). simpl.
  unfold insert_one. repeat case_decide; congruence.
Qed.

Lemma loop_body_named (env_vars : EnvironmentalVariables)
    (upstream : Upstream) (n : Z) (p : PackageResponse) (w : World)
    (n0 : string) :
  let c := packages_collection w in
  let c' := packages_collection (snd (loop_body env_vars upstream n p w)) in
  (pr_name p <> n0 -> named n0 c' = named n0 c) /\
  (length (named n0 c) <= length (named n0 c'))%nat.
Proof.
  cbv zeta.
  destruct (loop_body_store env_vars upstream n p w)
    as [->|(devops_feed & devops_registry & ->)]; [split; auto |].
  rewrite named_app, named_asdict.
  change (name (record_of env_vars p devops_feed devops_registry))
    with (pr_name p).
  split.
  - intros Hne. rewrite (decide_False (P := pr_name p = n0)) by assumption.
    rewrite app_nil_r.
    case_decide; [| reflexivity].
    apply named_delete_one_ne. congruence.
  - case_decide as Hstatus; [| rewrite length_app; lia].
    destruct (decide (pr_name p = n0)) as [<-|Hne].
    + rewrite named_delete_one_eq, length_app. simpl.
      apply status_OUT_OF_DATE_found in Hstatus as (d & Hfind & _).
      rewrite find_one_head in Hfind.
      destruct (named (pr_name p) (packages_collection w)); [discriminate |].
      simpl. lia.
    + rewrite named_delete_one_ne by congruence. rewrite app_nil_r. lia.
Qed.

Lemma for_packages_named (env_vars : EnvironmentalVariables)
    (upstream : Upstream) (n : Z) (l : list PackageResponse) (w : World)
    (n0 : string) :
  let c := packages_collection w in
  let c' := packages_collection (snd (for_packages env_vars upstream n l w)) in
  ((forall p, p ∈ l -> pr_name p <> n0) -> named n0 c' = named n0 c) /\
  (length (named n0 c) <= length (named n0 c'))%nat.
Proof.
  cbv zeta. revert w. induction l as [|p l IH]; intros w; simpl;
    [split; auto |].
  pose proof (loop_body_named env_vars upstream n p w n0) as [Hsame Hgrows].
  destruct (loop_body env_vars upstream n p w) as [[] w1]; simpl in *.
  - destruct (IH w1) as [Hsame' Hgrows']. split.
    + intros Hl. rewrite Hsame'.
      * apply Hsame, Hl. left.
      * intros q Hq. apply Hl. right. assumption.
    + lia.
  - split; [| assumption]. intros Hl. apply Hsame, Hl. left.
  - split; [| assumption]. intros Hl. apply Hsame, Hl. left.
Qed.

(** X5: what a run does to the store. The documents of a name the catalog
    does not list are left as they are, in their order; and no name, listed
    or not, has fewer documents after the run than before: a delete is
    always followed by the insert of the new record. *)
Theorem run_touches_listed_names_only
    (env_vars : EnvironmentalVariables) (upstream : Upstream) (w : World)
    (n0 : string) :
  let c := packages_collection w in
  let c' := packages_collection (snd (download env_vars upstream w)) in
  ((forall listing p,
      package_list_endpoint upstream (packages_url env_vars)
      = responds listing ->
      p ∈ json listing -> pr_name p <> n0) ->
   named n0 c' = named n0 c) /\
  (length (named n0 c) <= length (named n0 c'))%nat.
Proof.
  cbv zeta. unfold download.
  pose proof (get_from_devops_world (package_list_endpoint upstream)
                (packages_url env_vars) w) as Hw.
  destruct (get_from_devops (package_list_endpoint upstream)
              (packages_url env_vars) w) as [[[listing|err]|err] w0] eqn:Hlist;
    simpl in Hw; subst w0; [| split; auto | split; auto].
  destruct (for_packages_named env_vars upstream 0 (json listing)
              (send (packages_url env_vars) w) n0) as [Hsame Hgrows].
  split; [| exact Hgrows].
  intros Hl. apply Hsame. intros p Hp. apply (Hl listing); [| assumption].
  apply (get_from_devops_response _ _ w). rewrite Hlist. reflexivity.
Qed.

Lemma run_touches_listed_names_only_witness :
  named "bar"
    (packages_collection
       (snd (download Scenario.env_vars Scenario.upstream_foo
               {| requests := [];
                  packages_collection :=
                    [Scenario.dangling_doc;
                     asdict {| name := "bar"; latest_version := "0.1.0";
                               versions := ∅ |}] |})))
  = [asdict {| name := "bar"; latest_version := "0.1.0"; versions := ∅ |}].
Proof.
  refine (proj1 (run_touches_listed_names_only Scenario.env_vars
                   Scenario.upstream_foo
                   {| requests := [];
                      packages_collection :=
                        [Scenario.dangling_doc;
                         asdict {| name := "bar"; latest_version := "0.1.0";
                                   versions := ∅ |}] |} "bar") _).
  intros listing p [= <-] Hp.
  apply list_elem_of_singleton in Hp as ->. discriminate.
Defined.

(** ** Writing a record and reading it back *)

Lemma all_str_fmap (m : gmap string string) :
  all_str (BString <$> m) = Some m.
Proof.
  unfold all_str. rewrite decide_True.
  - f_equal. apply map_eq. intros k.
    rewrite lookup_omap, lookup_fmap. destruct (m !! k); reflexivity.
  - intros k v [s [<- _]]%lookup_fmap_Some. simpl. eauto.
Qed.

Lemma all_str_inv (m : gmap string string) (m' : gmap string string) :
  all_str (BString <$> m) = Some m' -> m' = m.
Proof. rewrite all_str_fmap. congruence. Qed.

Lemma from_dict_version_asdict (v : NpmPackageVersion) :
  all_fields_set v -> from_dict_version (asdict_version v) = returns v.
Proof.
  destruct v as [vn de pd deps sh ta au dn un ca hide].
  intros ([? Hsh] & [? Hta] & [? Hau] & [? Hdn] & [? Hun] & [? Hca]).
  simpl in *. subst.
  unfold from_dict_version, asdict_version, required, checked. simpl.
  rewrite all_str_fmap. reflexivity.
Qed.

Lemma from_dict_version_asdict_inv (v v' : NpmPackageVersion) :
  from_dict_version (asdict_version v) = returns v' ->
  v' = v /\ all_fields_set v.
Proof.
  destruct v as [vn de pd deps sh ta au dn un ca hide].
  unfold from_dict_version, asdict_version, all_fields_set, required,
    checked. simpl.
  rewrite all_str_fmap. simpl.
  destruct sh, ta, au, dn, un, ca; simpl; try discriminate.
  intros [= <-]. repeat split; eauto.
Qed.

Lemma from_dict_versions_asdict (m : gmap string NpmPackageVersion) :
  map_Forall (fun _ v => all_fields_set v) m ->
  from_dict_versions (map_to_list (asdict_version <$> m)) = returns m.
Proof.
  intros Hall. apply from_dict_versions_returns. split.
  - intros k. rewrite last_such_map_to_list, lookup_fmap.
    destruct (m !! k) as [v|] eqn:Hv; [| reflexivity]. simpl.
    rewrite from_dict_version_asdict by exact (Hall k v Hv). reflexivity.
  - apply Forall_forall. intros [k d] Hin. simpl.
    apply elem_of_map_to_list, lookup_fmap_Some in Hin as (v & <- & Hv).
    rewrite from_dict_version_asdict by exact (Hall k v Hv). simpl. eauto.
Qed.

Lemma from_dict_versions_asdict_inv (m m' : gmap string NpmPackageVersion) :
  from_dict_versions (map_to_list (asdict_version <$> m)) = returns m' ->
  m' = m /\ map_Forall (fun _ v => all_fields_set v) m.
Proof.
  intros [Hlookup Hall]%from_dict_versions_returns.
  rewrite Forall_forall in Hall.
  assert (Hset : map_Forall (fun _ v => all_fields_set v) m).
  { intros k v Hv.
    destruct (Hall (k, asdict_version v)) as [v' Hv'].
    - apply elem_of_map_to_list. rewrite lookup_fmap, Hv. reflexivity.
    - simpl in Hv'.
      destruct (from_dict_version (asdict_version v)) as [x|e] eqn:Hx;
        [| discriminate].
      apply from_dict_version_asdict_inv in Hx as [_ Hset]. exact Hset. }
  split; [| exact Hset].
  apply map_eq. intros k.
  rewrite Hlookup, last_such_map_to_list, lookup_fmap.
  destruct (m !! k) as [v|] eqn:Hv; [| reflexivity]. simpl.
  rewrite from_dict_version_asdict by exact (Hset k v Hv). reflexivity.
Qed.


(** X6: the round trip through the store. A record written with [asdict]
    reads back with [from_dict] as the same record when every version has
    all its [str] fields set; and whenever such a document reads back at
    all, what is read is the record that was written. *)
Theorem asdict_from_dict_round_trip (package : NpmPackage) :
  (map_Forall (fun _ v => all_fields_set v) (versions package) ->
   from_dict (asdict package) = returns package) /\
  (forall package',
     from_dict (asdict package) = returns package' -> package' = package).
Proof.
  destruct package as [n latest vs]. unfold from_dict, asdict. simpl. split.
  - intros Hall. rewrite from_dict_versions_asdict by assumption. reflexivity.
  - intros package'.
    destruct (from_dict_versions (map_to_list (asdict_version <$> vs)))
      as [vs'|] eqn:Hvs;
      simpl; [| discriminate].
    apply from_dict_versions_asdict_inv in Hvs as [-> _].
    intros [= <-]. reflexivity.
Qed.

Lemma asdict_from_dict_round_trip_witness :
  from_dict (asdict Scenario.foo_package) = returns Scenario.foo_package.
Proof.
  apply (proj1 (asdict_from_dict_round_trip Scenario.foo_package)).
  intros k v Hv.
  destruct (decide (k = "1.0.0")) as [->|Hne].
  - vm_compute in Hv. injection Hv as <-. vm_compute. repeat split; eauto.
  - unfold Scenario.foo_package in Hv. simpl in Hv.
    rewrite enrich_versions_lookup in Hv.
    unfold Scenario.foo_registry in Hv.
    rewrite lookup_singleton_ne in Hv by congruence.
    destruct (_ !! k) in Hv; discriminate.
Defined.




(** ** After a commit *)

Lemma both_answer_commit (env_vars : EnvironmentalVariables)
    (upstream : Upstream) (n : Z) (p : PackageResponse) (w : World)
    (status : MongoPackageStatus)
    (feed_response : Response (list FeedVersion))
    (registry_response : Response (gmap string RegistryVersion)) :
  check_package_status_in_mongo (pr_name p) (pr_latest_version p)
    (packages_collection w) = returns status ->
  status <> UP_TO_DATE ->
  both_answer env_vars upstream p w feed_response registry_response ->
  loop_body env_vars upstream n p w
  = (next,
     {| requests :=
          (requests w ++
           [pr_versions_href p; npm_registry_url env_vars (pr_name p)])%list;
        packages_collection :=
          ((if decide (status = OUT_OF_DATE)
            then delete_one (packages_collection w) (pr_name p)
            else packages_collection w) ++
           [asdict (record_of env_vars p (json feed_response)
                      (json registry_response))])%list |}).
Proof.
  intros Hcheck Hstatus (Hfeed & Hregistry & dv & Hdv & [json_version Hlisted]).
  rewrite loop_body_eq. cbv zeta. rewrite Hcheck.
  rewrite decide_False by assumption. rewrite Hfeed.
  rewrite decide_False.
  2: { rewrite processed_versions_size. intros Hnil.
       rewrite Hnil in Hdv. inversion Hdv. }
  unfold npm_registry_url. rewrite Hregistry.
  rewrite decide_False.
  2: { rewrite record_of_size. intros Hnone.
       rewrite (Hnone dv Hdv) in Hlisted. discriminate. }
  unfold set_collection, insert_one, send. simpl.
  rewrite <- app_assoc. reflexivity.
Qed.

Lemma both_answer_any_world (env_vars : EnvironmentalVariables)
    (upstream : Upstream) (p : PackageResponse) (w w' : World)
    (feed_response : Response (list FeedVersion))
    (registry_response : Response (gmap string RegistryVersion)) :
  both_answer env_vars upstream p w feed_response registry_response ->
  both_answer env_vars upstream p w' feed_response registry_response.
Proof.
  intros (Hfeed & Hregistry & Hcommon). repeat split; [| | exact Hcommon].
  - rewrite (get_from_devops_result_any_world _ _ w' w). exact Hfeed.
  - rewrite (get_from_devops_result_any_world _ _ w' w). exact Hregistry.
Qed.



Lemma status_of_wrong_type (n v : string) (c : list PackageDocument)
    (d : PackageDocument) (l : list PackageDocument) :
  named n c = d :: l -> from_dict d = throws WrongTypeError ->
  check_package_status_in_mongo n v c = returns NOT_FOUND.
Proof.
  intros Hnamed Hfrom. unfold check_package_status_in_mongo.
  rewrite find_one_head, Hnamed. simpl. rewrite Hfrom. reflexivity.
Qed.





(** X8: a stored record on which dacite raises [WrongTypeError] is never
    replaced. The package is taken for missing, so a pass whose fetches
    succeed appends a new record and deletes nothing; the ill-typed
    document stays the first of its name, and the next pass finds the
    package missing again. After [k] such passes the store holds [k]
    copies of the new record after what it held before. *)
Theorem ill_typed_record_is_never_replaced
    (env_vars : EnvironmentalVariables) (upstream : Upstream) (n : Z)
    (p : PackageResponse) (w : World)
    (d : PackageDocument) (l : list PackageDocument)
    (feed_response : Response (list FeedVersion))
    (registry_response : Response (gmap string RegistryVersion)) :
  named (pr_name p) (packages_collection w) = d :: l ->
  from_dict d = throws WrongTypeError ->
  both_answer env_vars upstream p w feed_response registry_response ->
  forall k,
    packages_collection (passes env_vars upstream n p k w)
    = (packages_collection w ++
       replicate k
         (asdict (record_of env_vars p (json feed_response)
                    (json registry_response))))%list /\
    check_package_status_in_mongo (pr_name p) (pr_latest_version p)
      (packages_collection (passes env_vars upstream n p k w))
    = returns NOT_FOUND.
Proof.
  intros Hnamed Hfrom Hboth.
  assert (Hstatus : forall c',
             check_package_status_in_mongo (pr_name p) (pr_latest_version p)
               (packages_collection w ++ c') = returns NOT_FOUND).
  { intros c'. eapply status_of_wrong_type; [| exact Hfrom].
    rewrite named_app, Hnamed. reflexivity. }
  induction k as [|k [IHstore IHstatus]].
  - simpl. rewrite app_nil_r. split; [reflexivity |].
    rewrite <- (app_nil_r (packages_collection w)). apply Hstatus.
  - assert (Hstore :
      packages_collection (passes env_vars upstream n p (S k) w)
      = (packages_collection w ++
         replicate (S k)
           (asdict (record_of env_vars p (json feed_response)
                      (json registry_response))))%list).
    { unfold passes in *. simpl.
      rewrite (both_answer_commit _ _ _ _ _ NOT_FOUND feed_response
                 registry_response).
      - simpl. rewrite IHstore, <- app_assoc. f_equal.
        symmetry. apply replicate_cons_app.
      - exact IHstatus.
      - discriminate.
      - eapply both_answer_any_world. exact Hboth. }
    split; [exact Hstore |]. rewrite Hstore. apply Hstatus.
Qed.

Lemma ill_typed_record_is_never_replaced_witness :
  packages_collection
    (passes Scenario.env_vars Scenario.upstream_foo 0
       (Scenario.listed "foo" "1.0.0") 2 Cases.world_with_ill_typed_doc)
  = [Scenario.ill_typed_doc; Scenario.foo_doc; Scenario.foo_doc] /\
  check_package_status_in_mongo "foo" "1.0.0"
    (packages_collection
       (passes Scenario.env_vars Scenario.upstream_foo 0
          (Scenario.listed "foo" "1.0.0") 2 Cases.world_with_ill_typed_doc))
  = returns NOT_FOUND.
Proof.
  refine (ill_typed_record_is_never_replaced Scenario.env_vars
            Scenario.upstream_foo 0 (Scenario.listed "foo" "1.0.0")
            Cases.world_with_ill_typed_doc Scenario.ill_typed_doc []
            {| status_code := 200; json := Scenario.foo_feed |}
            Scenario.foo_registry_response _ _ _ 2%nat).
  - reflexivity.
  - reflexivity.
  - split; [reflexivity |]. split; [reflexivity |].
    eexists. split; [left |]. vm_compute. eauto.
Defined.

(** ** What the detail route serves *)

Lemma rekeyed_is_Some {B : Type} (g : NpmPackageVersion -> B)
    (m : gmap string NpmPackageVersion) (k : string) :
  is_Some (map_fold (fun _ v (acc : gmap string B) =>
                       <[version_number v := g v]> acc) ∅ m !! k) <->
  exists k0 v, m !! k0 = Some v /\ version_number v = k.
Proof.
  revert k.
  apply (map_fold_weak_ind
    (fun (r : gmap string B) (m : gmap string NpmPackageVersion) =>
       forall k, is_Some (r !! k) <->
                 exists k0 v, m !! k0 = Some v /\ version_number v = k)).
  - intros k. rewrite lookup_empty. split; [intros [? ?]; discriminate |].
    intros (k0 & v & Hv & _). rewrite lookup_empty in Hv. discriminate.
  - intros i x m' r Hi IH k.
    destruct (decide (version_number x = k)) as [Hk|Hk].
    + rewrite Hk, lookup_insert_eq. split; [| eauto].
      intros _. exists i, x. rewrite lookup_insert_eq. auto.
    + rewrite lookup_insert_ne by assumption. rewrite IH. split.
      * intros (k0 & v & Hv & Hvk). exists k0, v. split; [| assumption].
        rewrite lookup_insert_ne; [assumption | congruence].
      * intros (k0 & v & Hv & Hvk).
        destruct (decide (i = k0)) as [->|Hne].
        -- rewrite lookup_insert_eq in Hv. congruence.
        -- rewrite lookup_insert_ne in Hv by assumption. eauto.
Qed.

Lemma rekeyed_keyed {B : Type} (g : NpmPackageVersion -> B)
    (m : gmap string NpmPackageVersion) :
  keyed_by_version_number m ->
  map_fold (fun _ v (acc : gmap string B) =>
              <[version_number v := g v]> acc) ∅ m
  = g <$> m.
Proof.
  apply (map_fold_weak_ind
    (fun (r : gmap string B) (m : gmap string NpmPackageVersion) =>
       keyed_by_version_number m -> r = g <$> m)).
  - intros _. rewrite fmap_empty. reflexivity.
  - intros i x m' r Hi IH Hkeyed.
    apply map_Forall_insert in Hkeyed as [Hx Hkeyed]; [| assumption].
    rewrite Hx, fmap_insert, (IH Hkeyed). reflexivity.
Qed.

Lemma record_of_keyed (env_vars : EnvironmentalVariables)
    (p : PackageResponse) (devops_feed : list FeedVersion)
    (devops_registry : gmap string RegistryVersion) :
  keyed_by_version_number
    (versions (record_of env_vars p devops_feed devops_registry)).
Proof.
  intros k v Hv. rewrite record_of_lookup in Hv.
  destruct (last_such _ devops_feed) as [dv|] eqn:Hlast; [| discriminate].
  simpl in Hv. destruct (devops_registry !! k); [| discriminate].
  injection Hv as <-. simpl.
  apply last_such_Some in Hlast as [Hk _]. exact Hk.
Qed.

(** X9: the keys of the projected document. The detail route files every
    version, and its publish date, under the version's own
    [version_number], whatever key the stored record holds it under; the
    latest pointer is the [version_number] of the version stored under the
    record's [latest_version]. For a record that holds each version under
    its [version_number], the projected versions are the stored versions,
    key for key, and the latest pointer is the record's
    [latest_version]. *)
Theorem package_route_files_by_version_number
    (c : list PackageDocument) (package_name rev : string)
    (mongo_package : PackageDocument) (package : NpmPackage)
    (latest : NpmPackageVersion) :
  find_one c package_name = Some mongo_package ->
  from_dict mongo_package = returns package ->
  versions package !! latest_version package = Some latest ->
  exists response,
    package_route c package_name rev = jsonify response /\
    pp_dist_tags_latest response = version_number latest /\
    (forall k,
       is_Some (pp_versions response !! k) <->
       exists k0 v, versions package !! k0 = Some v /\ version_number v = k) /\
    (forall k,
       is_Some (pp_time response !! k) <-> is_Some (pp_versions response !! k)) /\
    (keyed_by_version_number (versions package) ->
     pp_versions response = project_version package_name <$> versions package /\
     pp_time response = publish_date <$> versions package /\
     pp_dist_tags_latest response = latest_version package).
Proof.
  intros Hfind Hfrom Hlatest.
  eexists. split; [eapply package_route_found; eassumption |].
  simpl. split; [reflexivity |].
  split; [intros k; apply rekeyed_is_Some |].
  split.
  - intros k. unfold version_times_of, all_versions_of.
    rewrite !rekeyed_is_Some. reflexivity.
  - intros Hkeyed. unfold version_times_of, all_versions_of.
    rewrite !rekeyed_keyed by assumption.
    repeat split. exact (Hkeyed _ _ Hlatest).
Qed.

Lemma package_route_files_by_version_number_witness :
  exists response,
    package_route Scenario.foo_store "foo" "k3v9x" = jsonify response /\
    pp_versions response
    = project_version "foo" <$> versions Scenario.foo_package /\
    pp_time response = publish_date <$> versions Scenario.foo_package /\
    pp_dist_tags_latest response = "1.0.0".
Proof.
  destruct (versions Scenario.foo_package !! "1.0.0") as [latest|] eqn:Hlatest;
    [| vm_compute in Hlatest; discriminate].
  destruct (package_route_files_by_version_number Scenario.foo_store "foo"
              "k3v9x" Scenario.foo_doc Scenario.foo_package latest
              ltac:(vm_compute; reflexivity) ltac:(vm_compute; reflexivity)
              Hlatest)
    as (response & Hroute & _ & _ & _ & Hkeyed).
  exists response. split; [exact Hroute |].
  apply Hkeyed.
  apply (record_of_keyed Scenario.env_vars (Scenario.listed "foo" "1.0.0")
           Scenario.foo_feed Scenario.foo_registry).
Defined.


(** ** The database of the two programs *)

Lemma collection_insert_ne (database : gmap string (list PackageDocument))
    (n m : string) (c : list PackageDocument) :
  n <> m -> collection (<[n := c]> database) m = collection database m.
Proof.
  intros Hne. unfold collection. rewrite lookup_insert_ne by assumption.
  reflexivity.
Qed.

Lemma download_on_eq (env_vars : EnvironmentalVariables)
    (upstream : Upstream) (database : gmap string (list PackageDocument)) :
  snd (download_on env_vars upstream database)
  = <[scraper_collection :=
        packages_collection
          (snd (download env_vars upstream
                  {| requests := [];
                     packages_collection :=
                       collection database scraper_collection |}))]>
      database.
Proof.
  unfold download_on.
  destruct (download env_vars upstream _) as [outcome w]. reflexivity.
Qed.

(** X10: the proxy does not read what the sync writes. [main] hands
    [download] the collection [packages] of the database; the two routes of
    the proxy read the collection [packages_collection]. A run leaves
    every collection but [packages] as it was, so each route answers after
    a run what it answered before; on a database whose collection
    [packages_collection] was never written, the detail route answers 404
    for every name and the listing holds the timestamp alone, whatever the
    run stored. *)
Theorem sync_does_not_reach_the_proxy (env_vars : EnvironmentalVariables)
    (upstream : Upstream) (database : gmap string (list PackageDocument))
    (package_name rev : string) (now : Z) :
  let database' := snd (download_on env_vars upstream database) in
  (forall collection_name,
     collection_name <> "packages" ->
     collection database' collection_name
     = collection database collection_name) /\
  package_route_on database' package_name rev
  = package_route_on database package_name rev /\
  all_packages_route_on database' now = all_packages_route_on database now /\
  (database !! "packages_collection" = None ->
   package_route_on database' package_name rev
   = make_response "Not found" 404 /\
   all_packages_route_on database' now
   = all_jsonify {[ "_updated" := updated_at now ]}).
Proof.
  cbv zeta. rewrite download_on_eq.
  assert (Hother : forall collection_name,
            collection_name <> "packages" ->
            collection
              (<[scraper_collection :=
                   packages_collection
                     (snd (download env_vars upstream
                             {| requests := [];
                                packages_collection :=
                                  collection database scraper_collection |}))]>
                 database) collection_name
            = collection database collection_name).
  { intros collection_name Hne. apply collection_insert_ne.
    unfold scraper_collection. congruence. }
  split; [exact Hother |].
  unfold package_route_on, all_packages_route_on, proxy_collection.
  rewrite Hother by discriminate.
  split; [reflexivity |]. split; [reflexivity |].
  intros Hnone. unfold collection. rewrite Hnone. split; reflexivity.
Qed.

Lemma sync_does_not_reach_the_proxy_witness :
  collection (snd (download_on Scenario.env_vars Scenario.upstream_foo ∅))
    "packages" = [Scenario.foo_doc] /\
  package_route_on (snd (download_on Scenario.env_vars Scenario.upstream_foo ∅))
    "foo" "k3v9x" = make_response "Not found" 404 /\
  all_packages_route_on
    (snd (download_on Scenario.env_vars Scenario.upstream_foo ∅)) 1700000000
  = all_jsonify {[ "_updated" := updated_at 1700000000 ]}.
Proof.
  split; [vm_compute; reflexivity |].
  apply (proj2 (proj2 (proj2 (sync_does_not_reach_the_proxy Scenario.env_vars
                                Scenario.upstream_foo ∅ "foo" "k3v9x"
                                1700000000)))).
  reflexivity.
Defined.

(** ** A record stored with a latest version it does not hold *)



(** ** The listing route *)

Lemma all_packages_loop_app (c1 c2 : list PackageDocument)
    (acc : gmap string AllPackagesEntry) :
  all_packages_loop (c1 ++ c2) acc
  = match all_packages_loop c1 acc with
    | all_jsonify acc' => all_packages_loop c2 acc'
    | r => r
    end.
Proof.
  revert acc. induction c1 as [|d c1 IH]; intros acc; simpl; [reflexivity |].
  destruct (from_dict d) as [package|e]; [| destruct e; reflexivity].
  destruct (versions package !! latest_version package); [apply IH |].
  reflexivity.
Qed.

Lemma listing_entry_Some (d : PackageDocument) (e : AllPackagesEntry) :
  listing_entry d = Some e <->
  exists package latest,
    from_dict d = returns package /\
    versions package !! latest_version package = Some latest /\
    e = package_summary (summary_of package latest).
Proof.
  unfold listing_entry.
  destruct (from_dict d) as [package|e0] eqn:Hfrom; simpl.
  - destruct (versions package !! latest_version package) as [latest|]
      eqn:Hlatest; simpl.
    + split; [intros [= <-]; eauto |].
      intros (package' & latest' & Hp & Hl & ->). simplify_eq. reflexivity.
    + split; [discriminate |].
      intros (package' & latest' & Hp & Hl & _). simplify_eq.
  - split; [discriminate |].
    intros (package' & latest' & Hp & _). discriminate.
Qed.

Lemma from_dict_name (d : PackageDocument) (package : NpmPackage) :
  from_dict d = returns package -> doc_name d = Some (BString (name package)).
Proof.
  unfold from_dict, required, checked.
  destruct (doc_name d) as [[]|]; simpl; try discriminate.
  destruct (doc_latest_version d) as [[]|]; simpl; try discriminate.
  destruct (from_dict_versions (doc_versions d)); simpl; [| discriminate].
  intros [= <-]. reflexivity.
Qed.

(** The loop of the listing route, when it reaches the end: under a name
    sits the entry of the last document of that name, or what the dict
    held before. *)
Lemma all_packages_loop_lookup (c : list PackageDocument)
    (acc all_packages : gmap string AllPackagesEntry) (k : string) :
  all_packages_loop c acc = all_jsonify all_packages ->
  all_packages !! k
  = match last_such (fun d => doc_name d = Some (BString k)) c with
    | Some d => listing_entry d
    | None => acc !! k
    end.
Proof.
  revert acc. induction c as [|d c IH]; intros acc; simpl.
  - intros [= <-]. reflexivity.
  - destruct (from_dict d) as [package|e] eqn:Hfrom;
      [| destruct e; discriminate].
    destruct (versions package !! latest_version package) as [latest|]
      eqn:Hlatest; [| discriminate].
    intros Hloop. rewrite (IH _ Hloop), last_such_cons.
    destruct (last_such (fun d0 => doc_name d0 = Some (BString k)) c)
      as [d'|]; [reflexivity |].
    rewrite (from_dict_name _ _ Hfrom).
    case_decide as Hk.
    + injection Hk as ->. rewrite lookup_insert_eq.
      unfold listing_entry. rewrite Hfrom. simpl. rewrite Hlatest.
      reflexivity.
    + rewrite lookup_insert_ne; [reflexivity | congruence].
Qed.

Lemma all_packages_loop_ok (c : list PackageDocument)
    (acc : gmap string AllPackagesEntry) :
  Forall (fun d => is_Some (listing_entry d)) c <->
  exists all_packages, all_packages_loop c acc = all_jsonify all_packages.
Proof.
  revert acc. induction c as [|d c IH]; intros acc; simpl.
  - split; [eauto | constructor].
  - split.
    + intros [[e He] Hrest]%Forall_cons.
      apply listing_entry_Some in He as (package & latest & -> & -> & _).
      apply IH. exact Hrest.
    + intros [all_packages Hloop].
      destruct (from_dict d) as [package|e] eqn:Hfrom;
        [| destruct e; discriminate].
      destruct (versions package !! latest_version package) as [latest|]
        eqn:Hlatest; [| discriminate].
      constructor.
      * eexists. apply listing_entry_Some. eauto 10.
      * eapply IH. eauto.
Qed.

Lemma all_packages_loop_status (c : list PackageDocument)
    (acc : gmap string AllPackagesEntry) :
  all_http_status (all_packages_loop c acc) = 200 \/
  all_http_status (all_packages_loop c acc) = 500.
Proof.
  revert acc. induction c as [|d c IH]; intros acc; simpl; [auto |].
  destruct (from_dict d) as [package|e]; [| destruct e; auto].
  destruct (versions package !! latest_version package); [apply IH | auto].
Qed.

Lemma all_packages_loop_200 (c : list PackageDocument)
    (acc : gmap string AllPackagesEntry) :
  all_http_status (all_packages_loop c acc) = 200 <->
  exists all_packages, all_packages_loop c acc = all_jsonify all_packages.
Proof.
  revert acc. induction c as [|d c IH]; intros acc; simpl.
  - split; eauto.
  - destruct (from_dict d) as [package|e];
      [| destruct e; (split; [discriminate | intros [? ?]; discriminate])].
    destruct (versions package !! latest_version package); [apply IH |].
    split; [discriminate | intros [? ?]; discriminate].
Qed.

(** X12: the listing is all or nothing. The listing route answers 200
    exactly when every document of the collection deserialises and holds
    its latest version; one document that does not makes the whole answer
    a 500, whatever the other documents are. On an empty collection the
    answer is the timestamp alone. *)
Theorem listing_is_all_or_nothing (c : list PackageDocument) (now : Z) :
  (Forall (fun d => is_Some (listing_entry d)) c <->
   all_http_status (all_packages_route c now) = 200) /\
  (~ Forall (fun d => is_Some (listing_entry d)) c <->
   all_http_status (all_packages_route c now) = 500) /\
  (forall d, d ∈ c -> listing_entry d = None ->
             all_http_status (all_packages_route c now) = 500) /\
  (c = [] ->
   all_packages_route c now = all_jsonify {[ "_updated" := updated_at now ]}).
Proof.
  unfold all_packages_route.
  assert (H200 : Forall (fun d => is_Some (listing_entry d)) c <->
                 all_http_status
                   (all_packages_loop c {[ "_updated" := updated_at now ]})
                 = 200).
  { rewrite all_packages_loop_200. apply all_packages_loop_ok. }
  pose proof (all_packages_loop_status c {[ "_updated" := updated_at now ]})
    as Hstatus.
  split; [exact H200 |].
  assert (H500 : ~ Forall (fun d => is_Some (listing_entry d)) c <->
                 all_http_status
                   (all_packages_loop c {[ "_updated" := updated_at now ]})
                 = 500).
  { rewrite H200. destruct Hstatus as [-> | ->]; split; congruence. }
  split; [exact H500 |]. split.
  - intros d Hd Hnone. apply H500. intros Hall.
    rewrite Forall_forall in Hall. destruct (Hall d Hd) as [e He].
    congruence.
  - intros ->. reflexivity.
Qed.

Lemma listing_is_all_or_nothing_witness :
  all_http_status
    (all_packages_route [Scenario.foo_doc; Scenario.dangling_doc] 1700000000)
  = 500 /\
  all_http_status (all_packages_route [Scenario.foo_doc] 1700000000) = 200.
Proof.
  split.
  - apply (proj1 (proj2 (proj2 (listing_is_all_or_nothing
             [Scenario.foo_doc; Scenario.dangling_doc] 1700000000)))
             Scenario.dangling_doc).
    + right. left.
    + vm_compute. reflexivity.
  - apply (proj1 (listing_is_all_or_nothing [Scenario.foo_doc] 1700000000)).
    constructor; [| constructor]. vm_compute. eauto.
Defined.

(** X13: the entries of the listing. When the listing route answers, a
    name holds the summary of the last document of that name in the
    collection; a name no document has holds nothing, but for "_updated",
    which holds the timestamp unless a package of that name replaced it. *)
Theorem listing_shows_last_record_of_a_name (c : list PackageDocument)
    (now : Z) (all_packages : gmap string AllPackagesEntry) :
  all_packages_route c now = all_jsonify all_packages ->
  forall k,
    all_packages !! k
    = match last_such (fun d => doc_name d = Some (BString k)) c with
      | Some d => listing_entry d
      | None => if decide (k = "_updated") then Some (updated_at now) else None
      end.
Proof.
  unfold all_packages_route. intros Hloop k.
  rewrite (all_packages_loop_lookup _ _ _ k Hloop).
  destruct (last_such _ c); [reflexivity |].
  case_decide as Hk.
  - subst k. apply lookup_singleton_eq.
  - apply lookup_singleton_ne. congruence.
Qed.

Lemma listing_shows_last_record_of_a_name_witness :
  exists all_packages s,
    all_packages_route [Scenario.foo_doc; Cases.foo_doc_revised] 1700000000
    = all_jsonify all_packages /\
    all_packages !! "foo" = Some (package_summary s) /\
    ps_description s = "The revised foo package" /\
    all_packages !! "_updated" = Some (updated_at 1700000000) /\
    all_packages !! "bar" = None.
Proof.
  destruct (all_packages_route [Scenario.foo_doc; Cases.foo_doc_revised]
              1700000000) as [| all_packages |] eqn:Hroute;
    [vm_compute in Hroute; discriminate | | vm_compute in Hroute; discriminate].
  pose proof (listing_shows_last_record_of_a_name _ _ _ Hroute) as Hlookup.
  destruct (listing_entry Cases.foo_doc_revised) as [[t|s]|] eqn:Hentry;
    [vm_compute in Hentry; discriminate | | vm_compute in Hentry; discriminate].
  exists all_packages, s.
  split; [reflexivity |].
  split; [rewrite Hlookup; exact Hentry |].
  split; [vm_compute in Hentry; injection Hentry as <-; reflexivity |].
  split; rewrite Hlookup; reflexivity.
Defined.

(** X14: the two routes on the same store. Of the documents of one name,
    the detail route reads the first and the listing route shows the last.
    When the listing answers, the detail route answers for every stored
    name, with the description, latest pointer and display fields of the
    first document's summary; with a single document of that name the two
    routes show the same. *)
Theorem detail_reads_first_listing_shows_last (c : list PackageDocument)
    (k rev : string) (now : Z) (all_packages : gmap string AllPackagesEntry)
    (d : PackageDocument) (l : list PackageDocument) :
  all_packages_route c now = all_jsonify all_packages ->
  named k c = d :: l ->
  exists response s_first s_last,
    package_route c k rev = jsonify response /\
    listing_entry d = Some (package_summary s_first) /\
    (listing_entry <$> last (d :: l)) = Some (Some (package_summary s_last)) /\
    all_packages !! k = Some (package_summary s_last) /\
    ps_name s_first = pp_name response /\
    ps_description s_first = pp_description response /\
    ps_dist_tags_latest s_first = pp_dist_tags_latest response /\
    ps_displayName s_first = pp_displayName response /\
    ps_unity s_first = pp_unity response /\
    ps_category s_first = pp_category response /\
    ps_hideInEditor s_first = pp_hideInEditor response /\
    (l = [] -> s_last = s_first).
Proof.
  intros Hroute Hnamed.
  assert (Hall : Forall (fun d => is_Some (listing_entry d)) c).
  { eapply all_packages_loop_ok. eexists. exact Hroute. }
  rewrite Forall_forall in Hall.
  assert (Hin : forall x, x ∈ d :: l -> x ∈ c /\ doc_name x = Some (BString k)).
  { intros x Hx. rewrite <- Hnamed in Hx.
    apply list_elem_of_filter in Hx as [Hk Hx]. auto. }
  destruct (Hin d ltac:(left)) as [Hd Hdk].
  destruct (Hall d Hd) as [e_first He_first].
  pose proof He_first as Hfirst.
  apply listing_entry_Some in Hfirst
    as (package & latest & Hfrom & Hlatest & ->).
  destruct (last (d :: l)) as [d_last|] eqn:Hlast;
    [| apply last_None in Hlast; discriminate].
  destruct (Hin d_last (last_Some_elem_of _ _ Hlast)) as [Hd_last _].
  destruct (Hall d_last Hd_last) as [e_last He_last].
  pose proof He_last as Hlast_entry.
  apply listing_entry_Some in Hlast_entry
    as (package' & latest' & Hfrom' & Hlatest' & ->).
  assert (Hfind : find_one c k = Some d)
    by (rewrite find_one_head, Hnamed; reflexivity).
  exists
    {| pp__id := k; pp__rev := rev; pp_name := k;
       pp_description := description latest;
       pp_license := LICENSE;
       pp_dist_tags_latest := version_number latest;
       pp_versions := all_versions_of k (versions package);
       pp_time := version_times_of (versions package);
       pp_displayName := display_name latest;
       pp_unity := unity latest;
       pp_category := category latest;
       pp_hideInEditor := hide_in_editor latest;
       pp_author := author latest |},
    (summary_of package latest), (summary_of package' latest').
  split; [eapply package_route_found; eassumption |].
  split; [exact He_first |].
  split; [simpl; rewrite He_last; reflexivity |].
  split.
  { unfold all_packages_route in Hroute.
    rewrite (all_packages_loop_lookup _ _ _ k Hroute).
    change (last_such (fun d0 => doc_name d0 = Some (BString k)) c)
      with (last (named k c)).
    rewrite Hnamed, Hlast. exact He_last. }
  split.
  { simpl. apply from_dict_name in Hfrom. congruence. }
  repeat (split; [reflexivity |]).
  intros ->. simpl in Hlast. injection Hlast as <-.
  congruence.
Qed.

Lemma detail_reads_first_listing_shows_last_witness :
  exists response s_last,
    package_route [Scenario.foo_doc; Cases.foo_doc_revised] "foo" "k3v9x"
    = jsonify response /\
    pp_description response = "The foo package" /\
    exists all_packages,
      all_packages_route [Scenario.foo_doc; Cases.foo_doc_revised] 1700000000
      = all_jsonify all_packages /\
      all_packages !! "foo" = Some (package_summary s_last) /\
      ps_description s_last = "The revised foo package".
Proof.
  destruct (all_packages_route [Scenario.foo_doc; Cases.foo_doc_revised]
              1700000000) as [| all_packages |] eqn:Hroute;
    [vm_compute in Hroute; discriminate | | vm_compute in Hroute; discriminate].
  destruct (detail_reads_first_listing_shows_last
              [Scenario.foo_doc; Cases.foo_doc_revised] "foo" "k3v9x"
              1700000000 all_packages Scenario.foo_doc
              [Cases.foo_doc_revised] Hroute eq_refl)
    as (response & s_first & s_last & Hdetail & Hfirst & Hlast & Hentry
        & _ & Hdescription & _).
  exists response, s_last.
  split; [exact Hdetail |].
  split.
  { rewrite <- Hdescription. vm_compute in Hfirst.
    injection Hfirst as <-. reflexivity. }
  exists all_packages. split; [reflexivity |]. split; [exact Hentry |].
  vm_compute in Hlast. injection Hlast as <-. reflexivity.
Defined.

(** ** The environment *)

Lemma validate_env_value (environ : gmap string string)
    (env_name : string) (default_value : option string) (x : string) :
  environmental_variables.validate_env environ env_name default_value
  = value x <->
  (environ !! env_name = Some x /\ x <> "") \/
  ((environ !! env_name = None \/ environ !! env_name = Some "") /\
   default_value = Some x).
Proof.
  unfold environmental_variables.validate_env.
  destruct (environ !! env_name) as [[|ch s]|]; simpl.
  - destruct default_value as [dflt|].
    + split.
      * intros [= <-]. right. auto.
      * intros [[[= <-] Hne]|[_ [= <-]]]; [congruence | reflexivity].
    + split; [discriminate |].
      intros [[[= <-] Hne]|[_ ?]]; congruence.
  - split.
    + intros [= <-]. left. split; [reflexivity | discriminate].
    + intros [[[= <-] _]|[[?|?] _]]; [reflexivity | discriminate..].
  - destruct default_value as [dflt|].
    + split.
      * intros [= <-]. right. auto.
      * intros [[? _]|[_ [= <-]]]; [discriminate | reflexivity].
    + split; [discriminate |].
      intros [[? _]|[_ ?]]; discriminate.
Qed.

Lemma validate_env_required (environ : gmap string string)
    (env_name : string) :
  environmental_variables.validate_env environ env_name None
  = match environ !! env_name with
    | Some (String ch s) => value (String ch s)
    | _ => sys_exit 1
    end.
Proof.
  unfold environmental_variables.validate_env.
  destruct (environ !! env_name) as [[|ch s]|]; reflexivity.
Qed.

Lemma validate_env_int_eq (int : string -> option Z)
    (environ : gmap string string) (env_name : string) (default_value : Z) :
  environmental_variables.validate_env_int int environ env_name
    (Some default_value)
  = match int (int_argument environ env_name default_value) with
    | Some int_val => value int_val
    | None => sys_exit 1
    end.
Proof.
  unfold environmental_variables.validate_env_int,
    environmental_variables.validate_env, int_argument.
  destruct (environ !! env_name) as [[|ch s]|]; reflexivity.
Qed.

Lemma is_set_lookup (environ : gmap string string) (env_name : string) :
  is_set environ env_name <->
  exists ch s, environ !! env_name = Some (String ch s).
Proof.
  unfold is_set. split.
  - intros ([|ch s] & Hx & Hne); [congruence | eauto].
  - intros (ch & s & Hx). exists (String ch s). split; [assumption |].
    discriminate.
Qed.

(** Take the next required variable of [process_env_vars] apart. *)
Ltac next_required environ env_name :=
  rewrite (validate_env_required environ env_name);
  let H := fresh "Hvar" in
  destruct (environ !! env_name) as [[|? ?]|] eqn:H; simpl.

Ltac next_int int environ env_name dflt :=
  rewrite (validate_env_int_eq int environ env_name dflt);
  let H := fresh "Hint" in
  destruct (int (int_argument environ env_name dflt)) eqn:H; simpl.

Lemma process_env_vars_value (int : string -> option Z)
    (environ : gmap string string)
    (env_vars : environmental_variables.EnvironmentalVariables) :
  environmental_variables.process_env_vars int environ = value env_vars ->
  Forall (is_set environ) required_variables /\
  int (int_argument environ "REFRESH" 900)
  = Some (environmental_variables.refresh env_vars) /\
  int (int_argument environ "MONGO_PORT" 27017)
  = Some (environmental_variables.mongo_port env_vars) /\
  (environmental_variables.wipe_db env_vars = true <->
   is_Some (environ !! "WIPE_DB")).
Proof.
  unfold environmental_variables.process_env_vars.
  next_required environ environmental_variables.ENV_ORG_NAME;
    try discriminate.
  next_required environ environmental_variables.ENV_FEED_ID;
    try discriminate.
  next_required environ environmental_variables.ENV_PAT; try discriminate.
  next_required environ environmental_variables.ENV_FALLBACK_AUTHOR;
    try discriminate.
  next_int int environ environmental_variables.ENV_REFRESH
    environmental_variables.DEFAULT_REFRESH; try discriminate.
  next_required environ environmental_variables.ENV_MONGO_HOST;
    try discriminate.
  next_int int environ environmental_variables.ENV_MONGO_PORT
    environmental_variables.DEFAULT_MONGO_PORT; try discriminate.
  next_required environ environmental_variables.ENV_MONGO_USER;
    try discriminate.
  next_required environ environmental_variables.ENV_MONGO_PASS;
    try discriminate.
  next_required environ environmental_variables.ENV_MONGO_DB;
    try discriminate.
  intros [= <-]. simpl.
  split.
  { unfold required_variables.
    repeat (constructor; [apply is_set_lookup; eauto |]). constructor. }
  split; [assumption |]. split; [assumption |].
  rewrite bool_decide_eq_true. reflexivity.
Qed.

(** X15: what [process_env_vars] returns. When it returns, the eight
    variables without a default are set to non-empty strings, which are the
    fields; the refresh interval and the port are what [int] makes of the
    variable, or of the default (900, 27017) when the variable is unset or
    empty; the three URLs are not set yet; and the wipe flag is on exactly
    when WIPE_DB is set, to whatever value, the empty string included. *)
Theorem process_env_vars_returns (int : string -> option Z)
    (environ : gmap string string)
    (env_vars : environmental_variables.EnvironmentalVariables) :
  environmental_variables.process_env_vars int environ = value env_vars ->
  (environ !! "ORG_NAME" = Some (environmental_variables.org_name env_vars) /\
   environ !! "FEED_ID" = Some (environmental_variables.feed env_vars) /\
   environ !! "PAT" = Some (environmental_variables.pat env_vars) /\
   environ !! "FALLBACK_AUTHOR"
   = Some (environmental_variables.fallback_author env_vars) /\
   environ !! "MONGO_HOST"
   = Some (environmental_variables.mongo_host env_vars) /\
   environ !! "MONGO_USER"
   = Some (environmental_variables.mongo_user env_vars) /\
   environ !! "MONGO_PASS"
   = Some (environmental_variables.mongo_pass env_vars) /\
   environ !! "MONGO_DB" = Some (environmental_variables.mongo_db env_vars)) /\
  Forall (is_set environ) required_variables /\
  int (int_argument environ "REFRESH" 900)
  = Some (environmental_variables.refresh env_vars) /\
  int (int_argument environ "MONGO_PORT" 27017)
  = Some (environmental_variables.mongo_port env_vars) /\
  (environmental_variables.wipe_db env_vars = true <->
   is_Some (environ !! "WIPE_DB")) /\
  environmental_variables.feed_url env_vars = None /\
  environmental_variables.npm_registry_base_url env_vars = None /\
  environmental_variables.packages_url env_vars = None.
Proof.
  unfold environmental_variables.process_env_vars.
  next_required environ environmental_variables.ENV_ORG_NAME;
    try discriminate.
  next_required environ environmental_variables.ENV_FEED_ID;
    try discriminate.
  next_required environ environmental_variables.ENV_PAT; try discriminate.
  next_required environ environmental_variables.ENV_FALLBACK_AUTHOR;
    try discriminate.
  next_int int environ environmental_variables.ENV_REFRESH
    environmental_variables.DEFAULT_REFRESH; try discriminate.
  next_required environ environmental_variables.ENV_MONGO_HOST;
    try discriminate.
  next_int int environ environmental_variables.ENV_MONGO_PORT
    environmental_variables.DEFAULT_MONGO_PORT; try discriminate.
  next_required environ environmental_variables.ENV_MONGO_USER;
    try discriminate.
  next_required environ environmental_variables.ENV_MONGO_PASS;
    try discriminate.
  next_required environ environmental_variables.ENV_MONGO_DB;
    try discriminate.
  intros [= <-]. simpl.
  split; [repeat split; assumption |].
  split.
  { unfold required_variables.
    repeat (constructor; [apply is_set_lookup; eauto |]). constructor. }
  split; [assumption |]. split; [assumption |].
  split; [| repeat split].
  rewrite bool_decide_eq_true. reflexivity.
Qed.

Lemma process_env_vars_returns_witness :
  exists env_vars,
    environmental_variables.process_env_vars
      environmental_variables.int_of_decimal Cases.environ = value env_vars /\
    environmental_variables.refresh env_vars = 900 /\
    environmental_variables.mongo_port env_vars = 27017 /\
    environmental_variables.wipe_db env_vars = true /\
    environmental_variables.org_name env_vars = "contoso".
Proof.
  destruct (environmental_variables.process_env_vars
              environmental_variables.int_of_decimal Cases.environ)
    as [code|e|env_vars] eqn:Hprocess;
    [vm_compute in Hprocess; discriminate
    | vm_compute in Hprocess; discriminate |].
  destruct (process_env_vars_returns _ _ _ Hprocess)
    as ((Horg & _) & _ & Hrefresh & Hport & Hwipe & _).
  exists env_vars. split; [reflexivity |].
  split.
  { assert (environmental_variables.int_of_decimal
              (int_argument Cases.environ "REFRESH" 900) = Some 900)
      by (vm_compute; reflexivity).
    congruence. }
  split.
  { assert (environmental_variables.int_of_decimal
              (int_argument Cases.environ "MONGO_PORT" 27017) = Some 27017)
      by (vm_compute; reflexivity).
    congruence. }
  split; [apply Hwipe; vm_compute; eauto |].
  assert (Cases.environ !! "ORG_NAME" = Some "contoso")
    by (vm_compute; reflexivity).
  congruence.
Defined.

Lemma process_env_vars_exit_code (int : string -> option Z)
    (environ : gmap string string) (code : Z) :
  environmental_variables.process_env_vars int environ = sys_exit code ->
  code = 1.
Proof.
  unfold environmental_variables.process_env_vars.
  next_required environ environmental_variables.ENV_ORG_NAME;
    try (intros [= <-]; reflexivity).
  next_required environ environmental_variables.ENV_FEED_ID;
    try (intros [= <-]; reflexivity).
  next_required environ environmental_variables.ENV_PAT;
    try (intros [= <-]; reflexivity).
  next_required environ environmental_variables.ENV_FALLBACK_AUTHOR;
    try (intros [= <-]; reflexivity).
  next_int int environ environmental_variables.ENV_REFRESH
    environmental_variables.DEFAULT_REFRESH;
    try (intros [= <-]; reflexivity).
  next_required environ environmental_variables.ENV_MONGO_HOST;
    try (intros [= <-]; reflexivity).
  next_int int environ environmental_variables.ENV_MONGO_PORT
    environmental_variables.DEFAULT_MONGO_PORT;
    try (intros [= <-]; reflexivity).
  next_required environ environmental_variables.ENV_MONGO_USER;
    try (intros [= <-]; reflexivity).
  next_required environ environmental_variables.ENV_MONGO_PASS;
    try (intros [= <-]; reflexivity).
  next_required environ environmental_variables.ENV_MONGO_DB;
    intros [= <-]; reflexivity.
Qed.

Lemma process_env_vars_never_raises (int : string -> option Z)
    (environ : gmap string string) (e : PyException) :
  environmental_variables.process_env_vars int environ <> uncaught e.
Proof.
  unfold environmental_variables.process_env_vars.
  next_required environ environmental_variables.ENV_ORG_NAME;
    try discriminate.
  next_required environ environmental_variables.ENV_FEED_ID;
    try discriminate.
  next_required environ environmental_variables.ENV_PAT; try discriminate.
  next_required environ environmental_variables.ENV_FALLBACK_AUTHOR;
    try discriminate.
  next_int int environ environmental_variables.ENV_REFRESH
    environmental_variables.DEFAULT_REFRESH; try discriminate.
  next_required environ environmental_variables.ENV_MONGO_HOST;
    try discriminate.
  next_int int environ environmental_variables.ENV_MONGO_PORT
    environmental_variables.DEFAULT_MONGO_PORT; try discriminate.
  next_required environ environmental_variables.ENV_MONGO_USER;
    try discriminate.
  next_required environ environmental_variables.ENV_MONGO_PASS;
    try discriminate.
  next_required environ environmental_variables.ENV_MONGO_DB;
    discriminate.
Qed.

Lemma process_env_vars_total (int : string -> option Z)
    (environ : gmap string string) :
  Forall (is_set environ) required_variables ->
  is_Some (int (int_argument environ "REFRESH" 900)) ->
  is_Some (int (int_argument environ "MONGO_PORT" 27017)) ->
  exists env_vars,
    environmental_variables.process_env_vars int environ = value env_vars.
Proof.
  unfold required_variables. intros Hall [r Hr] [port Hport].
  repeat match goal with
         | H : Forall _ (_ :: _) |- _ =>
             let Hx := fresh "Hset" in
             apply Forall_cons in H as [Hx H];
             apply is_set_lookup in Hx as (? & ? & Hx)
         end.
  unfold environmental_variables.process_env_vars.
  rewrite !validate_env_required, !validate_env_int_eq.
  unfold environmental_variables.DEFAULT_REFRESH,
    environmental_variables.DEFAULT_MONGO_PORT,
    environmental_variables.ENV_REFRESH,
    environmental_variables.ENV_MONGO_PORT.
  rewrite Hr, Hport.
  repeat match goal with
         | H : ?environ !! _ = Some _ |- _ => rewrite H; clear H
         end.
  simpl. eauto.
Qed.

(** X16: when [process_env_vars] ends the process. It returns exactly when
    each of the eight variables without a default is set to a non-empty
    string and [int] accepts the refresh interval and the port (the
    variable's value, or the default's text); otherwise it exits, and the
    exit code is always 1. *)
Theorem process_env_vars_exits_unless_complete (int : string -> option Z)
    (environ : gmap string string) :
  ((exists env_vars,
      environmental_variables.process_env_vars int environ = value env_vars)
   <->
   Forall (is_set environ) required_variables /\
   is_Some (int (int_argument environ "REFRESH" 900)) /\
   is_Some (int (int_argument environ "MONGO_PORT" 27017))) /\
  (forall code,
     environmental_variables.process_env_vars int environ = sys_exit code ->
     code = 1) /\
  (~ (Forall (is_set environ) required_variables /\
      is_Some (int (int_argument environ "REFRESH" 900)) /\
      is_Some (int (int_argument environ "MONGO_PORT" 27017))) ->
   environmental_variables.process_env_vars int environ = sys_exit 1).
Proof.
  assert (Hiff :
    (exists env_vars,
       environmental_variables.process_env_vars int environ = value env_vars)
    <->
    Forall (is_set environ) required_variables /\
    is_Some (int (int_argument environ "REFRESH" 900)) /\
    is_Some (int (int_argument environ "MONGO_PORT" 27017))).
  { split.
    - intros [env_vars Hvalue].
      apply process_env_vars_value in Hvalue
        as (Hset & Hrefresh & Hport & _).
      rewrite Hrefresh, Hport. eauto.
    - intros (Hset & Hrefresh & Hport).
      apply process_env_vars_total; assumption. }
  split; [exact Hiff |].
  split; [apply process_env_vars_exit_code |].
  intros Hnot.
  destruct (environmental_variables.process_env_vars int environ)
    as [code|e|env_vars] eqn:Hprocess.
  - rewrite (process_env_vars_exit_code _ _ _ Hprocess). reflexivity.
  - destruct (process_env_vars_never_raises _ _ _ Hprocess).
  - destruct Hnot. apply Hiff. eauto.
Qed.

Lemma process_env_vars_exits_unless_complete_witness :
  environmental_variables.process_env_vars
    environmental_variables.int_of_decimal Cases.environ_without_pat
  = sys_exit 1.
Proof.
  apply (proj2 (proj2 (process_env_vars_exits_unless_complete
                         environmental_variables.int_of_decimal
                         Cases.environ_without_pat))).
  intros [Hset _].
  unfold required_variables in Hset.
  apply Forall_cons in Hset as [_ Hset].
  apply Forall_cons in Hset as [_ Hset].
  apply Forall_cons in Hset as [(x & Hx & _) _].
  vm_compute in Hx. discriminate.
Defined.

(** ** The start of the program *)

Lemma artifact_feed_step_eq
    (artifact_feed_endpoint : string -> RequestOutcome string)
    (feed_url : string) (w : World) :
  get_artifact_package_feed_from_devops artifact_feed_endpoint feed_url w
  = (match fst (get_from_devops artifact_feed_endpoint feed_url w) with
     | returns (inl response) => returns (inl (json response))
     | returns (inr e) => returns (inr e)
     | throws e => throws e
     end, send feed_url w).
Proof.
  unfold get_artifact_package_feed_from_devops.
  pose proof (get_from_devops_world artifact_feed_endpoint feed_url w) as Hw.
  destruct (get_from_devops artifact_feed_endpoint feed_url w)
    as [[[response|e]|e] w']; simpl in Hw; subst w'; reflexivity.
Qed.

(** The URL [main] gives the artifact feed, and what it does with the
    answer. *)
Lemma main_eq (int : string -> option Z) (environ : gmap string string)
    (artifact_feed_endpoint : string -> RequestOutcome string) (w : World)
    (env_vars : environmental_variables.EnvironmentalVariables) :
  environmental_variables.process_env_vars int environ = value env_vars ->
  let feed_url :=
    ("https://feeds.dev.azure.com/"
     +:+ environmental_variables.org_name env_vars
     +:+ "/_apis/packaging/feeds/"
     +:+ environmental_variables.feed env_vars
     +:+ "?api-version=6.0-preview.1")%string in
  main int environ artifact_feed_endpoint w
  = match fst (get_from_devops artifact_feed_endpoint feed_url w) with
    | throws e => (uncaught e, send feed_url w)
    | returns (inr _) => (sys_exit 1, send feed_url w)
    | returns (inl response) =>
        let w' :=
          if environmental_variables.wipe_db env_vars
          then set_collection [] (send feed_url w) else send feed_url w in
        if timedelta_overflows (environmental_variables.refresh env_vars)
        then (uncaught OverflowError, w')
        else
          (value
             {| job_env_vars :=
                  {| fallback_author :=
                       environmental_variables.fallback_author env_vars;
                     npm_registry_base_url :=
                       ("https://pkgs.dev.azure.com/"
                        +:+ environmental_variables.org_name env_vars
                        +:+ "/_packaging/"
                        +:+ environmental_variables.feed env_vars
                        +:+ "/npm/registry")%string;
                     packages_url := json response |};
                job_seconds := environmental_variables.refresh env_vars |},
           w')
    end.
Proof.
  intros Hprocess. cbv zeta. unfold main. rewrite Hprocess.
  rewrite artifact_feed_step_eq.
  destruct (fst (get_from_devops artifact_feed_endpoint _ w)) as [[r|e]|e];
    try reflexivity.
  unfold add_job.
  destruct (timedelta_overflows (environmental_variables.refresh env_vars));
    reflexivity.
Qed.

(** X17: when [main] gives up. With an incomplete environment it exits
    with 1 before any request is sent. With a complete one it sends one
    request, to the feed URL made of ORG_NAME and FEED_ID, and any error of
    that fetch, the authentication failure like the others, makes it exit
    with 1. In neither case is the store touched: no job is scheduled and
    nothing is wiped. *)
Theorem main_exits_without_touching_the_store
    (int : string -> option Z) (environ : gmap string string)
    (artifact_feed_endpoint : string -> RequestOutcome string) (w : World) :
  (forall code,
     environmental_variables.process_env_vars int environ = sys_exit code ->
     main int environ artifact_feed_endpoint w = (sys_exit 1, w)) /\
  (forall env_vars e,
     environmental_variables.process_env_vars int environ = value env_vars ->
     fst (get_from_devops artifact_feed_endpoint
            ("https://feeds.dev.azure.com/"
             +:+ environmental_variables.org_name env_vars
             +:+ "/_apis/packaging/feeds/"
             +:+ environmental_variables.feed env_vars
             +:+ "?api-version=6.0-preview.1")%string w)
     = returns (inr e) ->
     main int environ artifact_feed_endpoint w
     = (sys_exit 1,
        {| requests :=
             (requests w ++
              [("https://feeds.dev.azure.com/"
                +:+ environmental_variables.org_name env_vars
                +:+ "/_apis/packaging/feeds/"
                +:+ environmental_variables.feed env_vars
                +:+ "?api-version=6.0-preview.1")%string])%list;
           packages_collection := packages_collection w |})).
Proof.
  split.
  - intros code Hexit. unfold main. rewrite Hexit.
    rewrite (process_env_vars_exit_code _ _ _ Hexit). reflexivity.
  - intros env_vars e Hprocess Hfetch.
    rewrite (main_eq _ _ _ _ _ Hprocess). cbv zeta. rewrite Hfetch.
    reflexivity.
Qed.

Lemma main_exits_without_touching_the_store_witness :
  main environmental_variables.int_of_decimal Cases.environ_without_pat
    Cases.artifact_feed_ok
    {| requests := []; packages_collection := Scenario.foo_store |}
  = (sys_exit 1,
     {| requests := []; packages_collection := Scenario.foo_store |}) /\
  main environmental_variables.int_of_decimal Cases.environ
    Cases.artifact_feed_203
    {| requests := []; packages_collection := Scenario.foo_store |}
  = (sys_exit 1,
     {| requests :=
          ["https://feeds.dev.azure.com/contoso/_apis/packaging/feeds/upm?api-version=6.0-preview.1"];
        packages_collection := Scenario.foo_store |}).
Proof.
  split.
  - apply (proj1 (main_exits_without_touching_the_store
                    environmental_variables.int_of_decimal
                    Cases.environ_without_pat Cases.artifact_feed_ok
                    {| requests := [];
                       packages_collection := Scenario.foo_store |}) 1).
    vm_compute. reflexivity.
  - destruct (environmental_variables.process_env_vars
                environmental_variables.int_of_decimal Cases.environ)
      as [code|e|env_vars] eqn:Hprocess;
      [vm_compute in Hprocess; discriminate
      | vm_compute in Hprocess; discriminate |].
    pose proof (proj2 (main_exits_without_touching_the_store
                  environmental_variables.int_of_decimal
                  Cases.environ Cases.artifact_feed_203
                  {| requests := [];
                     packages_collection := Scenario.foo_store |})
                env_vars DEVOPS_AUTH_FAILURE Hprocess) as Hmain.
    vm_compute in Hprocess. injection Hprocess as <-.
    apply Hmain. reflexivity.
Defined.



(** ** What enrichment leaves and what it fills in *)

Lemma str_or_not_empty (x : option string) (d : string) :
  d <> "" -> str_or x d <> "".
Proof. intros Hd. destruct x as [[|ch s]|]; simpl; congruence. Qed.

(** X19: the fields of an enriched version. A version of the output has
    the id, description, publish date and dependencies the feed gave it,
    and the hash and URL of the registry's [dist], present or not; its
    platform tag and its category are always set and never empty; its
    display name is always set, and empty only if the package name is. *)
Theorem enrichment_keeps_feed_fields_and_fills_display
    (env_vars : EnvironmentalVariables) (package_name : string)
    (devops_versions : gmap string RegistryVersion)
    (package_versions : gmap string NpmPackageVersion) (ver_num : string)
    (enriched : NpmPackageVersion) :
  enrich_versions env_vars package_name devops_versions package_versions
    !! ver_num = Some enriched ->
  exists npm_pkg_version json_version,
    package_versions !! ver_num = Some npm_pkg_version /\
    devops_versions !! ver_num = Some json_version /\
    version_number enriched = version_number npm_pkg_version /\
    description enriched = description npm_pkg_version /\
    publish_date enriched = publish_date npm_pkg_version /\
    dependencies enriched = dependencies npm_pkg_version /\
    shasum enriched = dist_shasum (reg_dist json_version) /\
    tarball enriched = dist_tarball (reg_dist json_version) /\
    (exists s, unity enriched = Some s /\ s <> "") /\
    (exists s, category enriched = Some s /\ s <> "") /\
    (exists s, display_name enriched = Some s /\
               (package_name <> "" -> s <> "")).
Proof.
  rewrite enrich_versions_lookup. intros Hlookup.
  destruct (package_versions !! ver_num) as [npm_pkg_version|];
    [| discriminate].
  simpl in Hlookup.
  destruct (devops_versions !! ver_num) as [json_version|]; [| discriminate].
  injection Hlookup as <-.
  exists npm_pkg_version, json_version.
  unfold enrich_version. cbn [version_number description publish_date
    dependencies shasum tarball unity category display_name].
  repeat (split; [reflexivity |]).
  split; [eexists; split; [reflexivity | apply str_or_not_empty; discriminate] |].
  split; [eexists; split; [reflexivity | apply str_or_not_empty; discriminate] |].
  eexists. split; [reflexivity |]. apply str_or_not_empty.
Qed.

Lemma enrichment_keeps_feed_fields_and_fills_display_witness :
  exists enriched,
    enrich_versions Scenario.env_vars "foo" Scenario.foo_registry
      Scenario.feed_1_and_2 !! "1.0.0" = Some enriched /\
    publish_date enriched = "2023-01-01T00:00:00Z" /\
    shasum enriched = Some "da39a3ee" /\
    (exists s, category enriched = Some s /\ s <> "").
Proof.
  destruct (enrich_versions Scenario.env_vars "foo" Scenario.foo_registry
              Scenario.feed_1_and_2 !! "1.0.0") as [enriched|] eqn:Hlookup;
    [| vm_compute in Hlookup; discriminate].
  destruct (enrichment_keeps_feed_fields_and_fills_display _ _ _ _ _ _ Hlookup)
    as (v & jv & Hv & Hjv & _ & _ & Hdate & _ & Hshasum & _ & _ & Hcategory
        & _).
  exists enriched. split; [reflexivity |].
  assert (Hfeed : Scenario.feed_1_and_2 !! "1.0.0"
                  = Some (NpmPackageVersion_init "1.0.0" ""
                            "2023-01-01T00:00:00Z" ∅))
    by (vm_compute; reflexivity).
  assert (Hregistry : Scenario.foo_registry !! "1.0.0"
                      = Some Scenario.foo_registry_version)
    by (vm_compute; reflexivity).
  rewrite Hfeed in Hv. injection Hv as <-.
  rewrite Hregistry in Hjv. injection Hjv as <-.
  split; [exact Hdate |]. split; [exact Hshasum |]. exact Hcategory.
Defined.

(** ** A run with nothing to do *)

Lemma for_packages_all_up_to_date (env_vars : EnvironmentalVariables)
    (upstream : Upstream) (n : Z) (l : list PackageResponse) (w : World) :
  Forall (fun p =>
            check_package_status_in_mongo (pr_name p) (pr_latest_version p)
              (packages_collection w) = returns UP_TO_DATE) l ->
  for_packages env_vars upstream n l w = (finished, w).
Proof.
  induction l as [|p l IH]; intros Hall; simpl; [reflexivity |].
  apply Forall_cons in Hall as [Hp Hall].
  rewrite loop_body_eq. cbv zeta. rewrite Hp.
  rewrite decide_True by reflexivity.
  apply IH. exact Hall.
Qed.

(** X20: a run over a catalog that is up to date. When the store holds,
    for every listed package, a first document that deserialises with the
    listed latest version, the run sends the listing request and no other,
    leaves the store as it is, and ends normally. *)
Theorem up_to_date_catalog_costs_one_request
    (env_vars : EnvironmentalVariables) (upstream : Upstream) (w : World)
    (listing : Response (list PackageResponse)) :
  fst (get_from_devops (package_list_endpoint upstream)
         (packages_url env_vars) w) = returns (inl listing) ->
  Forall (fun p =>
            exists d found,
              find_one (packages_collection w) (pr_name p) = Some d /\
              from_dict d = returns found /\
              latest_version found = pr_latest_version p) (json listing) ->
  download env_vars upstream w
  = (finished,
     {| requests := (requests w ++ [packages_url env_vars])%list;
        packages_collection := packages_collection w |}).
Proof.
  intros Hlisting Hall. unfold download.
  pose proof (get_from_devops_world (package_list_endpoint upstream)
                (packages_url env_vars) w) as Hw.
  destruct (get_from_devops (package_list_endpoint upstream)
              (packages_url env_vars) w) as [r w0].
  simpl in *. subst.
  apply for_packages_all_up_to_date.
  eapply Forall_impl; [exact Hall |].
  intros p (d & found & Hfind & Hfrom & Hlatest). simpl.
  apply check_package_status_UP_TO_DATE. eauto.
Qed.

Lemma up_to_date_catalog_costs_one_request_witness :
  download Scenario.env_vars Scenario.upstream_foo
    {| requests := []; packages_collection := Scenario.foo_store |}
  = (finished,
     {| requests := ["https://packages"];
        packages_collection := Scenario.foo_store |}).
Proof.
  refine (up_to_date_catalog_costs_one_request Scenario.env_vars
            Scenario.upstream_foo
            {| requests := []; packages_collection := Scenario.foo_store |}
            {| status_code := 200;
               json := [Scenario.listed "foo" "1.0.0"] |} _ _).
  - reflexivity.
  - constructor; [| constructor].
    exists Scenario.foo_doc, Scenario.foo_package.
    split; [vm_compute; reflexivity |].
    split; [vm_compute; reflexivity | reflexivity].
Defined.
